(** * Matomo Analytics bridge: reporting client, refresh pipeline, metric extractors

    A shallow embedding of [custom_components/matomo/api.py],
    [coordinator.py] and the three value functions of [sensor.py].

    - Decoded JSON is the inductive type [json]; a Python [dict] is an
      association list in insertion order.  A [dict] names each key once
      ([unique_keys]); the facts that need it say so.
    - Exceptions are values [Exn cls msg cause]; the class hierarchy
      ([MatomoAuthError] below [MatomoAPIError], both below [Exception]) is the
      function [base], and an [except C] clause is a test [isinstance e C].
    - Code that talks to the network runs in [M W], a state-and-exception
      monad over the state [W] of the HTTP session; an exception keeps the
      state reached when it was raised.
    - [aiohttp] and [json] are not part of the repository: the session's
      [post] and the decoder [json.loads] are fields of the client object, so
      every fact holds for whatever they do. *)

From Stdlib Require Import ZArith List String Ascii Bool Lia.
From Stdlib Require Import Floats.SpecFloat.
From Stdlib Require Import Permutation DecimalString DecimalPos.
Import ListNotations.

Set Warnings "-register-all".

Local Open Scope Z_scope.
Local Open Scope string_scope.

(** ** Python values *)

Module Py.

(** What [json.loads] can build.  A Python [float] is kept as its IEEE
    decomposition, so that [int(x)] is exact integer arithmetic. *)
Inductive json : Type :=
| JNull
| JBool (b : bool)
| JInt (z : Z)
| JFloat (f : spec_float)
| JStr (s : string)
| JList (l : list json)
| JDict (d : list (string * json)).

(** A [dict] with string keys. *)
Definition dict (V : Type) : Type := list (string * V).
Definition pydict : Type := dict json.

(** [d.get(k)] *)
Fixpoint dict_get {V} (k : string) (d : dict V) : option V :=
  match d with
  | [] => None
  | (k', v) :: r => if String.eqb k k' then Some v else dict_get k r
  end.

(** [d[k] = v]: an existing key keeps its place, a new one goes last. *)
Fixpoint dict_set {V} (k : string) (v : V) (d : dict V) : dict V :=
  match d with
  | [] => [(k, v)]
  | (k', v') :: r =>
      if String.eqb k k' then (k, v) :: r else (k', v') :: dict_set k v r
  end.

(** [d.update(other)] *)
Definition dict_update {V} (d other : dict V) : dict V :=
  fold_left (fun acc kv => dict_set (fst kv) (snd kv) acc) other d.

(** [d.get(k, default)] *)
Definition dict_get_default {V} (k : string) (default : V) (d : dict V) : V :=
  match dict_get k d with Some v => v | None => default end.

Definition is_dict (v : json) : bool :=
  match v with JDict _ => true | _ => false end.

(** [isinstance(value, (int, float))]; [bool] is a subclass of [int]. *)
Definition is_int_or_float (v : json) : bool :=
  match v with JInt _ | JBool _ | JFloat _ => true | _ => false end.

(** *** Text: one character per code point below 256 *)

Definition isspace (c : ascii) : bool :=
  let n := N_of_ascii c in
  (((9 <=? n) && (n <=? 13)) || ((28 <=? n) && (n <=? 32))
   || (n =? 133) || (n =? 160))%N.

Definition lower_char (c : ascii) : ascii :=
  let n := N_of_ascii c in
  if (((65 <=? n) && (n <=? 90))
      || ((192 <=? n) && (n <=? 222) && negb (n =? 215)))%N
  then ascii_of_N (n + 32) else c.

(** [s.lower()] *)
Fixpoint lower (s : string) : string :=
  match s with
  | EmptyString => EmptyString
  | String c r => String (lower_char c) (lower r)
  end.

Fixpoint lstrip_by (p : ascii -> bool) (s : string) : string :=
  match s with
  | EmptyString => EmptyString
  | String c r => if p c then lstrip_by p r else s
  end.

Definition rev_string (s : string) : string :=
  string_of_list_ascii (rev (list_ascii_of_string s)).

Definition rstrip_by (p : ascii -> bool) (s : string) : string :=
  rev_string (lstrip_by p (rev_string s)).

(** [s.strip()] *)
Definition strip (s : string) : string :=
  rstrip_by isspace (lstrip_by isspace s).

(** [s.startswith(p)] and [s.endswith(p)] *)
Definition startswith (s p : string) : bool := String.prefix p s.
Definition endswith (s p : string) : bool :=
  String.prefix (rev_string p) (rev_string s).

(** [sub in s] *)
Fixpoint str_in (sub s : string) : bool :=
  String.prefix sub s
  || match s with
     | EmptyString => false
     | String _ r => str_in sub r
     end.

(** [s[:n]] *)
Definition take (n : nat) (s : string) : string := String.substring 0 n s.

(** *** Exceptions *)

Inductive exc_class : Type :=
| Exception
| MatomoAPIError
| MatomoAuthError
| ClientError            (* aiohttp.ClientError *)
| ClientResponseError    (* what [raise_for_status] raises *)
| JSONDecodeError
| ValueError
| OverflowError
| TypeError
| AttributeError
| KeyError
| UpdateFailed           (* homeassistant.helpers.update_coordinator *)
| OtherError (name : string).

(** The direct base class. *)
Definition base (c : exc_class) : option exc_class :=
  match c with
  | Exception => None
  | MatomoAuthError => Some MatomoAPIError
  | ClientResponseError => Some ClientError
  | JSONDecodeError => Some ValueError
  | _ => Some Exception
  end.

Definition class_eqb (c d : exc_class) : bool :=
  match c, d with
  | Exception, Exception | MatomoAPIError, MatomoAPIError
  | MatomoAuthError, MatomoAuthError | ClientError, ClientError
  | ClientResponseError, ClientResponseError
  | JSONDecodeError, JSONDecodeError | ValueError, ValueError
  | OverflowError, OverflowError | TypeError, TypeError
  | AttributeError, AttributeError | KeyError, KeyError
  | UpdateFailed, UpdateFailed => true
  | OtherError a, OtherError b => String.eqb a b
  | _, _ => false
  end.

Fixpoint issubclass_upto (n : nat) (c d : exc_class) : bool :=
  class_eqb c d
  || match n, base c with
     | S n', Some p => issubclass_upto n' p d
     | _, _ => false
     end.

(** No class of the model is more than two steps below [Exception]. *)
Definition issubclass : exc_class -> exc_class -> bool := issubclass_upto 2.

(** An exception object: its class, [str(err)], and [__cause__]. *)
Inductive exn : Type :=
| Exn (cls : exc_class) (msg : string) (cause : option exn).

Definition exn_class (e : exn) : exc_class := let 'Exn c _ _ := e in c.
Definition str (e : exn) : string := let 'Exn _ m _ := e in m.
Definition exn_cause (e : exn) : option exn := let 'Exn _ _ c := e in c.

Definition isinstance (e : exn) (c : exc_class) : bool :=
  issubclass (exn_class e) c.

(** A returned value or a raised exception. *)
Inductive result (A : Type) : Type :=
| Ok (a : A)
| Raise (e : exn).
Arguments Ok {A} a.
Arguments Raise {A} e.

Definition rbind {A B} (r : result A) (k : A -> result B) : result B :=
  match r with
  | Ok a => k a
  | Raise e => Raise e
  end.

(** *** [int(x)] *)

Definition digit_val (c : ascii) : option Z :=
  let n := N_of_ascii c in
  if ((48 <=? n) && (n <=? 57))%N then Some (Z.of_N (n - 48)) else None.

(** Decimal digits, single underscores allowed between two digits. *)
Fixpoint parse_digits (s : string) (acc : Z) (after_digit : bool) : option Z :=
  match s with
  | EmptyString => if after_digit then Some acc else None
  | String c r =>
      match digit_val c with
      | Some d => parse_digits r (10 * acc + d) true
      | None =>
          if Ascii.eqb c "_" && after_digit then parse_digits r acc false
          else None
      end
  end.

(** The blanks [int()] skips around a literal: the ASCII ones, and the
    blanks above 127, which it first turns into spaces.  The separators
    28 to 31, blanks for [str.strip], are none for [int()]. *)
Definition int_blank (c : ascii) : bool :=
  let n := N_of_ascii c in
  (((9 <=? n) && (n <=? 13)) || (n =? 32) || (n =? 133) || (n =? 160))%N.

(** [int(s)] for a text.  CPython also refuses, by default, a text of more
    than 4300 digits ([sys.int_max_str_digits]), as [str()] refuses such an
    integer; the model has neither limit, and the facts that read an
    arbitrary text bound its digits. *)
Definition int_of_str (s : string) : option Z :=
  match rstrip_by int_blank (lstrip_by int_blank s) with
  | String "+" r => parse_digits r 0 false
  | String "-" r => option_map Z.opp (parse_digits r 0 false)
  | t => parse_digits t 0 false
  end.

(** [int(x)] of a float: the integer part, towards zero. *)
Definition int_of_float (f : spec_float) : result Z :=
  match f with
  | S754_zero _ => Ok 0
  | S754_finite s m e =>
      let a := Z.shiftl (Zpos m) e in
      Ok (if s then - a else a)
  | S754_nan =>
      Raise (Exn ValueError "cannot convert float NaN to integer" None)
  | S754_infinity _ =>
      Raise (Exn OverflowError "cannot convert float infinity to integer" None)
  end.

Definition py_int (v : json) : result Z :=
  match v with
  | JInt z => Ok z
  | JBool b => Ok (if b then 1 else 0)
  | JFloat f => int_of_float f
  | JStr s =>
      match int_of_str s with
      | Some z => Ok z
      | None => Raise (Exn ValueError "invalid literal for int() with base 10" None)
      end
  | JNull | JList _ | JDict _ =>
      Raise (Exn TypeError "int() argument must be a string, a bytes-like object or a real number" None)
  end.

(** [obj.get(k, default)]; only a [dict] has the method. *)
Definition py_get (obj : json) (k : string) (default : json) : result json :=
  match obj with
  | JDict d => Ok (dict_get_default k default d)
  | _ => Raise (Exn AttributeError "object has no attribute 'get'" None)
  end.

End Py.
Import Py.

(** *** More of Python, for the configuration flow *)

Module PyMore.

(** [str(n)] of an integer. *)
Definition str_of_int (z : Z) : string := NilZero.string_of_int (Z.to_int z).

(** [bool(v)]: the truth value of a decoded value. *)
Definition truthy (v : json) : bool :=
  match v with
  | JNull => false
  | JBool b => b
  | JInt z => negb (z =? 0)%Z
  | JFloat (S754_zero _) => false
  | JFloat _ => true
  | JStr s => negb (String.eqb s "")
  | JList l => match l with [] => false | _ => true end
  | JDict d => match d with [] => false | _ => true end
  end.

Fixpoint chars (s : string) : list json :=
  match s with
  | EmptyString => []
  | String c r => JStr (String c "") :: chars r
  end.

(** [for x in v]: the elements of a list, the keys of a dict, the characters
    of a text. *)
Definition py_iter (v : json) : result (list json) :=
  match v with
  | JList l => Ok l
  | JDict d => Ok (map (fun kv => JStr (fst kv)) d)
  | JStr s => Ok (chars s)
  | _ => Raise (Exn TypeError "object is not iterable" None)
  end.

(** [obj[k]] for a text [k]. *)
Definition py_getitem (obj : json) (k : string) : result json :=
  match obj with
  | JDict d =>
      match dict_get k d with
      | Some v => Ok v
      | None => Raise (Exn KeyError k None)
      end
  | JList _ => Raise (Exn TypeError "list indices must be integers or slices, not str" None)
  | JStr _ => Raise (Exn TypeError "string indices must be integers, not 'str'" None)
  | _ => Raise (Exn TypeError "object is not subscriptable" None)
  end.

End PyMore.
Import PyMore.

(** ** The effect monad: session state and exceptions *)

Module Eff.

Definition M (W A : Type) : Type := W -> result A * W.

Definition ret {W A} (a : A) : M W A := fun w => (Ok a, w).

Definition raise {W A} (e : exn) : M W A := fun w => (Raise e, w).

Definition bind {W A B} (m : M W A) (k : A -> M W B) : M W B :=
  fun w =>
    match m w with
    | (Ok a, w') => k a w'
    | (Raise e, w') => (Raise e, w')
    end.

(** [try: body / except ...: handler]; the handler re-raises what no clause
    matches. *)
Definition try_except {W A} (body : M W A) (handler : exn -> M W A) : M W A :=
  fun w =>
    match body w with
    | (Ok a, w') => (Ok a, w')
    | (Raise e, w') => handler e w'
    end.

(** A pure step that may raise. *)
Definition lift {W A} (r : result A) : M W A := fun w => (r, w).

(** [for x in xs: body], threading what the body updates. *)
Fixpoint for_each {W A S} (xs : list A) (body : A -> S -> M W S) (s : S)
  : M W S :=
  match xs with
  | [] => ret s
  | x :: r => bind (body x s) (for_each r body)
  end.

End Eff.
Import Eff.

Declare Scope eff_scope.
Delimit Scope eff_scope with eff.
Notation "x <- m ;; k" := (bind m (fun x => k))
  (at level 61, m at next level, right associativity) : eff_scope.
Notation "m ;;; k" := (bind m (fun _ => k))
  (at level 61, right associativity) : eff_scope.
Notation "x <~ r ;; k" := (rbind r (fun x => k))
  (at level 61, r at next level, right associativity) : eff_scope.
Local Open Scope eff_scope.

(** ** Metric extractors ([sensor.py]) *)

Module Sensor.

(** [int(val) if val is not None else None] *)
Definition int_or_none (val : json) : result (option Z) :=
  match val with
  | JNull => Ok None
  | _ => n <~ py_int val ;; Ok (Some n)
  end.

(** [_site_value(period, key)]: the closure [_get] applied to [data]. *)
Definition _site_value (period key : string) (data : json)
  : result (option Z) :=
  site <~ py_get data "site" (JDict []) ;;
  per <~ py_get site period (JDict []) ;;
  val <~ py_get per key JNull ;;
  int_or_none val.

(** [_live_value(key)] *)
Definition _live_value (key : string) (data : json) : result (option Z) :=
  live <~ py_get data "live" (JDict []) ;;
  val <~ py_get live key JNull ;;
  int_or_none val.

(** [_aggregate_value(period, key)] *)
Definition _aggregate_value (period key : string) (data : json)
  : result (option Z) :=
  agg <~ py_get data "aggregate" (JDict []) ;;
  per <~ py_get agg period (JDict []) ;;
  val <~ py_get per key JNull ;;
  int_or_none val.

End Sensor.

(** ** The sensor platform ([sensor.py]) *)

Module Platform.

Inductive SensorStateClass : Type := MEASUREMENT.

(** [MatomoSensorEntityDescription]: the fields the platform sets. *)
Record MatomoSensorEntityDescription : Type := {
  key : string;
  translation_key : string;
  icon : string;
  state_class : SensorStateClass;
  native_unit_of_measurement : string;
  value_fn : json -> result (option Z);
  is_aggregate : bool
}.

(** A description of a per-site sensor; [is_aggregate] keeps its default. *)
Definition site_sensor (name icon unit : string)
    (fn : json -> result (option Z)) : MatomoSensorEntityDescription :=
  {| key := name; translation_key := name; icon := icon;
     state_class := MEASUREMENT; native_unit_of_measurement := unit;
     value_fn := fn; is_aggregate := false |}.

(** A description with [is_aggregate=True]. *)
Definition aggregate_sensor (name icon unit : string)
    (fn : json -> result (option Z)) : MatomoSensorEntityDescription :=
  {| key := name; translation_key := name; icon := icon;
     state_class := MEASUREMENT; native_unit_of_measurement := unit;
     value_fn := fn; is_aggregate := true |}.

Definition SITE_SENSORS : list MatomoSensorEntityDescription :=
  [site_sensor "unique_visitors_today" "mdi:account-multiple" "visitors"
     (Sensor._site_value "day" "nb_uniq_visitors");
   site_sensor "unique_visitors_week" "mdi:account-multiple" "visitors"
     (Sensor._site_value "week" "nb_uniq_visitors");
   site_sensor "unique_visitors_month" "mdi:account-multiple" "visitors"
     (Sensor._site_value "month" "nb_uniq_visitors");
   site_sensor "pageviews_today" "mdi:file-document-outline" "views"
     (Sensor._site_value "day" "nb_pageviews");
   site_sensor "pageviews_week" "mdi:file-document-outline" "views"
     (Sensor._site_value "week" "nb_pageviews");
   site_sensor "pageviews_month" "mdi:file-document-outline" "views"
     (Sensor._site_value "month" "nb_pageviews");
   site_sensor "visits_today" "mdi:web" "visits"
     (Sensor._site_value "day" "nb_visits");
   site_sensor "visits_week" "mdi:web" "visits"
     (Sensor._site_value "week" "nb_visits");
   site_sensor "visits_month" "mdi:web" "visits"
     (Sensor._site_value "month" "nb_visits");
   site_sensor "actions_today" "mdi:cursor-default-click" "actions"
     (Sensor._site_value "day" "nb_actions");
   site_sensor "actions_week" "mdi:cursor-default-click" "actions"
     (Sensor._site_value "week" "nb_actions");
   site_sensor "actions_month" "mdi:cursor-default-click" "actions"
     (Sensor._site_value "month" "nb_actions");
   site_sensor "live_visitors" "mdi:account-eye" "visitors"
     (Sensor._live_value "visitors");
   site_sensor "live_visits" "mdi:account-eye" "visits"
     (Sensor._live_value "visits");
   site_sensor "live_actions" "mdi:cursor-default-click-outline" "actions"
     (Sensor._live_value "actions")].

Definition AGGREGATE_SENSORS : list MatomoSensorEntityDescription :=
  [aggregate_sensor "all_sites_visits_today" "mdi:earth" "visits"
     (Sensor._aggregate_value "day" "nb_visits");
   aggregate_sensor "all_sites_visits_week" "mdi:earth" "visits"
     (Sensor._aggregate_value "week" "nb_visits");
   aggregate_sensor "all_sites_visits_month" "mdi:earth" "visits"
     (Sensor._aggregate_value "month" "nb_visits");
   aggregate_sensor "all_sites_pageviews_today" "mdi:earth" "views"
     (Sensor._aggregate_value "day" "nb_pageviews");
   aggregate_sensor "all_sites_pageviews_week" "mdi:earth" "views"
     (Sensor._aggregate_value "week" "nb_pageviews");
   aggregate_sensor "all_sites_pageviews_month" "mdi:earth" "views"
     (Sensor._aggregate_value "month" "nb_pageviews");
   aggregate_sensor "all_sites_actions_today" "mdi:earth" "actions"
     (Sensor._aggregate_value "day" "nb_actions");
   aggregate_sensor "all_sites_actions_week" "mdi:earth" "actions"
     (Sensor._aggregate_value "week" "nb_actions");
   aggregate_sensor "all_sites_actions_month" "mdi:earth" "actions"
     (Sensor._aggregate_value "month" "nb_actions")].

(** The descriptions [async_setup_entry] makes entities of, in its order. *)
Definition entity_descriptions (include_aggregate : bool)
  : list MatomoSensorEntityDescription :=
  (SITE_SENSORS ++ (if include_aggregate then AGGREGATE_SENSORS else []))%list.

(** [MatomoSensor.native_value]; [data] is [coordinator.data], [None] until
    a first cycle has returned. *)
Definition native_value (data : option json)
    (description : MatomoSensorEntityDescription) : result (option Z) :=
  match data with
  | None => Ok None
  | Some d => value_fn description d
  end.

End Platform.

(** ** The HTTP exchange *)

(** What [session.post] hands back: the status line, what [await resp.text()]
    gives (it may raise), and the text of the [ClientResponseError] that
    [raise_for_status] would build from this response. *)
Record ClientResponse : Type := {
  status : Z;
  text : result string;
  status_error : string
}.

(** ** Reporting client ([api.py]) and refresh pipeline ([coordinator.py]) *)

Section Pipeline.

(** State of the session and of the server behind it. *)
Context {W : Type}.

(** [aiohttp.ClientSession], as far as the client uses it:
    [post(url, params=..., data=..., timeout=...)].  Connection failures and
    timeouts are exceptions raised by the call. *)
Record ClientSession : Type := {
  post : string -> pydict -> pydict -> M W ClientResponse
}.

(** The client object.  [json_loads] stands for the [json.loads] that
    [_request] imports; a failure is the [JSONDecodeError] it raises. *)
Record MatomoAPI : Type := {
  _session : ClientSession;
  _base_url : string;
  _token_auth : string;
  json_loads : string -> result json
}.

(** [MatomoAPI._normalize_url] *)
Definition _normalize_url (url : string) : string :=
  let url := rstrip_by (Ascii.eqb "/") url in
  if negb (endswith url "index.php") then url ++ "/index.php" else url.

(** [MatomoAPI.__init__] *)
Definition new_MatomoAPI (session : ClientSession) (url token_auth : string)
    (loads : string -> result json) : MatomoAPI :=
  {| _session := session; _base_url := _normalize_url url;
     _token_auth := token_auth; json_loads := loads |}.

(** [resp.raise_for_status()]: aiohttp raises for a status of 400 or more. *)
Definition raise_for_status (resp : ClientResponse) : M W unit :=
  if (400 <=? status resp)%Z
  then raise (Exn ClientResponseError (status_error resp) None)
  else ret tt.

(** [v == text] for a decoded value [v]. *)
Definition eq_str (v : option json) (text : string) : bool :=
  match v with
  | Some (JStr s) => String.eqb s text
  | _ => false
  end.

(** The server's error envelope, lines 95-100 of [_request]. *)
Definition check_error_envelope (data : json) : M W json :=
  match data with
  | JDict d =>
      if eq_str (dict_get "result" d) "error"
      then
        match dict_get_default "message" (JStr "Unknown Matomo API error") d with
        | JStr msg =>
            if str_in "token" (lower msg) || str_in "auth" (lower msg)
               || str_in "access" (lower msg)
            then raise (Exn MatomoAuthError msg None)
            else raise (Exn MatomoAPIError msg None)
        | _ => raise (Exn AttributeError "object has no attribute 'lower'" None)
        end
      else ret data
  | _ => ret data
  end.

(** What travels in the query string: no secret. *)
Definition url_params (method : string) : pydict :=
  [("module", JStr "API"); ("method", JStr method); ("format", JStr "JSON")].

(** What travels in the body: the token, then [post_data.update(params)]. *)
Definition post_data (self : MatomoAPI) (params : pydict) : pydict :=
  dict_update [("token_auth", JStr (_token_auth self))] params.

(** Lines 62-93 of [_request]: the [try] statement that posts the call and
    decodes the body. *)
Definition post_and_decode (self : MatomoAPI) (method : string) (params : pydict)
  : M W json :=
  try_except
    (resp <- post (_session self) (_base_url self) (url_params method)
               (post_data self params) ;;
     if (status resp =? 401)%Z
     then raise (Exn MatomoAuthError "Invalid authentication token (HTTP 401)" None)
     else
       text <- lift (text resp) ;;
       raise_for_status resp ;;;
       if startswith (strip text) "<!" || startswith (strip text) "<html"
       then raise (Exn MatomoAPIError
                     ("Matomo returned HTML instead of JSON. Check if URL is correct: "
                      ++ _base_url self) None)
       else
         try_except (lift (json_loads self text))
           (fun err =>
              if isinstance err JSONDecodeError
              then raise (Exn MatomoAPIError
                            ("Invalid JSON response from Matomo: " ++ take 200 text)
                            (Some err))
              else raise err))
    (fun err =>
       if isinstance err MatomoAPIError then raise err
       else if isinstance err ClientError
       then raise (Exn MatomoAPIError
                     ("Error communicating with Matomo: " ++ str err) (Some err))
       else raise err).

(** [MatomoAPI._request(method, **params)] *)
Definition _request (self : MatomoAPI) (method : string) (params : pydict)
  : M W json :=
  data <- post_and_decode self method params ;;
  check_error_envelope data.

(** [if isinstance(result, list) and len(result) == 0: return {}] *)
Definition empty_list_to_dict (result : json) : json :=
  match result with
  | JList [] => JDict []
  | _ => result
  end.

(** [MatomoAPI.get_visit_summary(site_id, period, date)] *)
Definition get_visit_summary (self : MatomoAPI) (site_id : json)
    (period date : string) : M W json :=
  result <- _request self "VisitsSummary.get"
              [("idSite", site_id); ("period", JStr period); ("date", JStr date)] ;;
  ret (empty_list_to_dict result).

(** [MatomoAPI.get_actions(site_id, period, date)] *)
Definition get_actions (self : MatomoAPI) (site_id : json)
    (period date : string) : M W json :=
  result <- _request self "Actions.get"
              [("idSite", site_id); ("period", JStr period); ("date", JStr date)] ;;
  ret (empty_list_to_dict result).

(** [MatomoAPI.get_live_counters(site_id, last_minutes)] *)
Definition get_live_counters (self : MatomoAPI) (site_id : json)
    (last_minutes : Z) : M W json :=
  _request self "Live.getCounters"
    [("idSite", site_id); ("lastMinutes", JInt last_minutes)].

(** One [key, value] of a site's sub-mapping:
    [totals[key] = totals.get(key, 0) + int(value)] for a number. *)
Definition add_metric (kv : string * json) (totals : dict Z) : M W (dict Z) :=
  let (key, value) := kv in
  if is_int_or_float value
  then n <- lift (py_int value) ;;
       ret (dict_set key (dict_get_default key 0 totals + n) totals)
  else ret totals.

(** One [_site_id, site_data] of a response. *)
Definition add_site (entry : string * json) (totals : dict Z) : M W (dict Z) :=
  match snd entry with
  | JDict site_data => for_each site_data add_metric totals
  | _ => ret totals
  end.

(** The body of [if isinstance(result, dict)]. *)
Definition add_response (result : json) (totals : dict Z) : M W (dict Z) :=
  match result with
  | JDict sites => for_each sites add_site totals
  | _ => ret totals
  end.

Definition totals_to_json (totals : dict Z) : json :=
  JDict (map (fun kv => (fst kv, JInt (snd kv))) totals).

(** [MatomoAPI.get_all_sites_summary(period, date)] *)
Definition get_all_sites_summary (self : MatomoAPI) (period date : string)
  : M W json :=
  totals <-
    for_each ["VisitsSummary.get"; "Actions.get"]
      (fun api_method totals =>
         result <- _request self api_method
                     [("idSite", JStr "all"); ("period", JStr period);
                      ("date", JStr date)] ;;
         add_response result totals)
      [] ;;
  ret (totals_to_json totals).

(** [MatomoAPI.validate_connection] *)
Definition validate_connection (self : MatomoAPI) : M W bool :=
  _request self "API.getMatomoVersion" [] ;;;
  sites <- _request self "SitesManager.getSitesWithAtLeastViewAccess" [] ;;
  ret (match sites with JList _ => true | _ => false end).

(** [MatomoAPI.get_sites] *)
Definition get_sites (self : MatomoAPI) : M W json :=
  _request self "SitesManager.getSitesWithAtLeastViewAccess" [].

(** [MatomoAPI.get_site_from_id(site_id)] *)
Definition get_site_from_id (self : MatomoAPI) (site_id : json) : M W json :=
  _request self "SitesManager.getSiteFromId" [("idSite", site_id)].

(** *** The coordinator *)

Record MatomoDataCoordinator : Type := {
  api : MatomoAPI;
  site_id : Z;
  site_name : string;
  include_aggregate : bool
}.

Definition PERIODS : list string := ["day"; "week"; "month"].

(** [merged = {}], then the two guarded [merged.update(...)]. *)
Definition merge_summary (summary actions : json) : pydict :=
  let merged := [] in
  let merged := match summary with JDict s => dict_update merged s | _ => merged end in
  match actions with JDict a => dict_update merged a | _ => merged end.

(** [data[part][period] = v] *)
Definition set_item2 (part period : string) (v : json) (data : pydict)
  : M W pydict :=
  match dict_get part data with
  | Some (JDict inner) =>
      ret (dict_set part (JDict (dict_set period v inner)) data)
  | Some _ => raise (Exn TypeError "object does not support item assignment" None)
  | None => raise (Exn KeyError part None)
  end.

(** Lines 47-54: the body of the loop over the periods. *)
Definition fetch_period (self : MatomoDataCoordinator) (period : string)
    (data : pydict) : M W pydict :=
  summary <- get_visit_summary (api self) (JInt (site_id self)) period "today" ;;
  actions <- get_actions (api self) (JInt (site_id self)) period "today" ;;
  set_item2 "site" period (JDict (merge_summary summary actions)) data.

(** Lines 46-54: the per-period summaries of the tracked site. *)
Definition fetch_site (self : MatomoDataCoordinator) (data : pydict)
  : M W pydict :=
  for_each PERIODS (fetch_period self) data.

(** Lines 56-65: live counters, with their own [except MatomoAPIError]. *)
Definition fetch_live (self : MatomoDataCoordinator) (data : pydict)
  : M W pydict :=
  try_except
    (live_result <- get_live_counters (api self) (JInt (site_id self)) 30 ;;
     match live_result with
     | JList (first :: _) => ret (dict_set "live" first data)
     | _ => ret (dict_set "live" (JDict []) data)
     end)
    (fun err =>
       if isinstance err MatomoAPIError
       then ret (dict_set "live" (JDict []) data)
       else raise err).

(** Lines 70-72: the body of the loop inside the second [try]. *)
Definition aggregate_period (self : MatomoDataCoordinator) (period : string)
    (data : pydict) : M W pydict :=
  agg_result <- get_all_sites_summary (api self) period "today" ;;
  set_item2 "aggregate" period agg_result data.

Definition aggregate_loop (self : MatomoDataCoordinator) (data : pydict)
  : M W pydict :=
  for_each PERIODS (aggregate_period self) data.

(** Lines 67-75.  The handler replaces the whole partition, so what an
    interrupted loop had already stored in it is not kept. *)
Definition fetch_aggregate (self : MatomoDataCoordinator) (data : pydict)
  : M W pydict :=
  if include_aggregate self
  then
    try_except (aggregate_loop self data)
      (fun err =>
         if isinstance err MatomoAPIError
         then ret (dict_set "aggregate" (JDict []) data)
         else raise err)
  else ret data.

(** [MatomoDataCoordinator._async_update_data] *)
Definition _async_update_data (self : MatomoDataCoordinator) : M W json :=
  try_except
    (let data := [("site", JDict []); ("live", JDict []); ("aggregate", JDict [])] in
     data <- fetch_site self data ;;
     data <- fetch_live self data ;;
     data <- fetch_aggregate self data ;;
     ret (JDict data))
    (fun err =>
       if isinstance err MatomoAuthError
       then raise (Exn UpdateFailed ("Authentication failed: " ++ str err) (Some err))
       else if isinstance err MatomoAPIError
       then raise (Exn UpdateFailed ("Error fetching Matomo data: " ++ str err) (Some err))
       else raise err).

End Pipeline.

Arguments ClientSession W : clear implicits.
Arguments MatomoAPI W : clear implicits.
Arguments MatomoDataCoordinator W : clear implicits.

(** ** The configuration flow ([config_flow.py]) *)

Section ConfigFlow.

Context {W : Type}.

(** What the flow takes from its host: the shared session
    ([async_get_clientsession]), the decoder of the client it builds, the
    unique ids of the entries already configured, and Python's text for a
    float, a list or a dict. *)
Variable session : ClientSession W.
Variable loads : string -> result json.
Variable configured : list string.
Variable repr_other : json -> string.

(** [str(v)], as the f-strings of the flow use it. *)
Definition py_str (v : json) : string :=
  match v with
  | JNull => "None"
  | JBool true => "True"
  | JBool false => "False"
  | JInt z => str_of_int z
  | JStr s => s
  | _ => repr_other v
  end.

(** The flow object: [__init__] sets [""], [""] and [[]]. *)
Record MatomoConfigFlow : Type := {
  _url : string;
  _token : string;
  _sites : json
}.

Definition new_MatomoConfigFlow : MatomoConfigFlow :=
  {| _url := ""; _token := ""; _sites := JList [] |}.

(** The two forms' inputs, as their schemas type them. *)
Record UserInput : Type := {
  input_url : string;
  input_token : string
}.

Record SiteInput : Type := {
  input_site_id : string;
  input_include_aggregate : option bool
}.

Inductive Schema : Type :=
| UserSchema
| SiteSchema (site_options : dict string).

(** [async_show_form] and [async_create_entry]; the entry is created under
    the unique id set just before. *)
Inductive ConfigFlowResult : Type :=
| ShowForm (step_id : string) (data_schema : Schema) (errors : dict string)
| CreateEntry (title : string) (data : pydict) (unique_id : string).

(** One item of the comprehension of lines 116-119. *)
Definition site_option (site : json) : result (string * string) :=
  idsite <~ py_getitem site "idsite" ;;
  name <~ py_getitem site "name" ;;
  idsite' <~ py_getitem site "idsite" ;;
  Ok (py_str idsite, py_str name ++ " (ID: " ++ py_str idsite' ++ ")").

Fixpoint build_options (sites : list json) (options : dict string)
  : result (dict string) :=
  match sites with
  | [] => Ok options
  | site :: rest =>
      kv <~ site_option site ;;
      build_options rest (dict_set (fst kv) (snd kv) options)
  end.

Definition site_options_of (sites : json) : result (dict string) :=
  l <~ py_iter sites ;; build_options l [].

(** The loop of lines 93-97. *)
Fixpoint find_site_name (sites : list json) (site_id : Z) : result json :=
  match sites with
  | [] => Ok (JStr "")
  | site :: rest =>
      idsite <~ py_getitem site "idsite" ;;
      n <~ py_int idsite ;;
      if (n =? site_id)%Z then py_getitem site "name"
      else find_site_name rest site_id
  end.

(** [MatomoConfigFlow.async_step_site]; [_abort_if_unique_id_configured]
    raises the host's [AbortFlow]. *)
Definition async_step_site (flow : MatomoConfigFlow)
    (user_input : option SiteInput) : result ConfigFlowResult :=
  match user_input with
  | Some input =>
      site_id <~ py_int (JStr (input_site_id input)) ;;
      sites <~ py_iter (_sites flow) ;;
      site_name <~ find_site_name sites site_id ;;
      let unique_id := _url flow ++ "_" ++ str_of_int site_id in
      if existsb (String.eqb unique_id) configured
      then Raise (Exn (OtherError "AbortFlow") "already_configured" None)
      else
        Ok (CreateEntry ("Matomo - " ++ py_str site_name)
              [("url", JStr (_url flow));
               ("token_auth", JStr (_token flow));
               ("site_id", JInt site_id);
               ("site_name", site_name);
               ("include_aggregate",
                JBool (match input_include_aggregate input with
                       | Some b => b
                       | None => false
                       end))]
              unique_id)
  | None =>
      options <~ site_options_of (_sites flow) ;;
      Ok (ShowForm "site" (SiteSchema options) [])
  end.

(** The [except] clauses of [async_step_user], in their order. *)
Definition user_step_errors (err : exn) : result (dict string) :=
  if isinstance err MatomoAuthError then Ok [("token_auth", "invalid_auth")]
  else if isinstance err MatomoAPIError then Ok [("url", "cannot_connect")]
  else if isinstance err ClientError || isinstance err (OtherError "TimeoutError")
  then Ok [("url", "cannot_connect")]
  else if isinstance err Exception then Ok [("url", "cannot_connect")]
  else Raise err.

(** [MatomoConfigFlow.async_step_user].  The flow object is returned with the
    result: it keeps what was assigned to it before an exception. *)
Definition async_step_user (flow : MatomoConfigFlow)
    (user_input : option UserInput)
  : M W (MatomoConfigFlow * ConfigFlowResult) :=
  match user_input with
  | None => ret (flow, ShowForm "user" UserSchema [])
  | Some input =>
      let flow :=
        {| _url := rstrip_by (Ascii.eqb "/") (input_url input);
           _token := input_token input;
           _sites := _sites flow |} in
      let api := new_MatomoAPI session (_url flow) (_token flow) loads in
      let failed flow err : M W (MatomoConfigFlow * ConfigFlowResult) :=
        errors <- lift (user_step_errors err) ;;
        ret (flow, ShowForm "user" UserSchema errors) in
      fun w =>
        match get_sites api w with
        | (Ok sites, w1) =>
            let flow := {| _url := _url flow; _token := _token flow;
                           _sites := sites |} in
            if negb (truthy sites)
            then (Ok (flow, ShowForm "user" UserSchema [("base", "no_sites")]), w1)
            else
              match async_step_site flow None with
              | Ok form => (Ok (flow, form), w1)
              | Raise err => failed flow err w1
              end
        | (Raise err, w1) => failed flow err w1
        end
  end.

End ConfigFlow.

Arguments MatomoConfigFlow : clear implicits.

(** ** A scripted session, to run the model on concrete exchanges *)

Module Script.

(** The outcomes of the coming [post] calls, in order. *)
Definition World : Type := list (result ClientResponse).

Definition session : ClientSession World :=
  {| post := fun url params data w =>
       match w with
       | [] => (Raise (Exn ClientError "Cannot connect to host" None), [])
       | r :: w' => (r, w')
       end |}.

(** A decoder that knows the bodies of a table. *)
Definition loads (table : dict json) (body : string) : result json :=
  match dict_get body table with
  | Some v => Ok v
  | None => Raise (Exn JSONDecodeError "Expecting value" None)
  end.

Definition ok200 (body : string) : result ClientResponse :=
  Ok {| status := 200; text := Ok body; status_error := "" |}.

Definition failed (code : Z) (reason : string) : result ClientResponse :=
  Ok {| status := code; text := Ok ""; status_error := reason |}.

Definition visits : json :=
  JDict [("nb_uniq_visitors", JInt 12); ("nb_visits", JInt 20)].

Definition actions : json :=
  JDict [("nb_pageviews", JInt 45); ("nb_actions", JInt 50)].

(** An actions summary that also defines [nb_visits]. *)
Definition overlap : json :=
  JDict [("nb_visits", JInt 99); ("nb_actions", JInt 50)].

(** A visit summary as the API sends it, with a percentage as text. *)
Definition rates : json :=
  JDict [("nb_visits", JInt 20); ("bounce_rate", JStr "50%")].

Definition sites : json :=
  JDict [("1", JDict [("nb_visits", JInt 3)]);
         ("2", JDict [("nb_visits", JInt 5)])].

Definition bad_token : json :=
  JDict [("result", JStr "error"); ("message", JStr "Invalid token_auth")].

Definition bad_call : json :=
  JDict [("result", JStr "error"); ("message", JStr "Unknown parameter")].

Definition bodies : dict json :=
  [("[]", JList []);
   ("{}", JDict []);
   ("visits", visits);
   ("actions", actions);
   ("overlap", overlap);
   ("rates", rates);
   ("live", JList [JDict [("visits", JStr "3"); ("visitors", JInt 2)]]);
   ("sites", sites);
   ("bad token", bad_token);
   ("bad call", bad_call)].

Definition client : MatomoAPI World :=
  new_MatomoAPI session "https://stats.example.org/" "secret" (loads bodies).

Definition coordinator (aggregate : bool) : MatomoDataCoordinator World :=
  {| api := client; site_id := 7; site_name := "Example";
     include_aggregate := aggregate |}.

(** A cycle whose live fetch and whose last wildcard fetch are refused. *)
Definition degraded_cycle : World :=
  map ok200 ["visits"; "actions"; "visits"; "overlap"; "[]"; "actions";
             "bad token";
             "sites"; "{}"; "sites"; "sites"; "bad call"].

Definition degraded_snapshot : json :=
  JDict [("site",
          JDict [("day", JDict [("nb_uniq_visitors", JInt 12); ("nb_visits", JInt 20);
                                ("nb_pageviews", JInt 45); ("nb_actions", JInt 50)]);
                 ("week", JDict [("nb_uniq_visitors", JInt 12); ("nb_visits", JInt 99);
                                 ("nb_actions", JInt 50)]);
                 ("month", JDict [("nb_pageviews", JInt 45); ("nb_actions", JInt 50)])]);
         ("live", JDict []);
         ("aggregate", JDict [])].

(** A Snapshot holding a float, a [None] and no aggregate partition. *)
Definition sample_snapshot : json :=
  JDict [("site", JDict [("day", JDict [("nb_visits", JFloat (S754_finite true 11 (-2)));
                                        ("nb_actions", JNull)])]);
         ("live", JDict [("visitors", JInt 0)])].


End Script.


(** ** Vocabulary of the specification *)

Module Spec.

(** The letters, each capital with its lower case. *)
Definition alphabet : list (ascii * ascii) :=
  combine (list_ascii_of_string "ABCDEFGHIJKLMNOPQRSTUVWXYZ")
          (list_ascii_of_string "abcdefghijklmnopqrstuvwxyz").

(** The two characters are equal, or the two cases of one letter. *)
Definition same_letter (c k : ascii) : bool :=
  Ascii.eqb c k
  || existsb (fun p => Ascii.eqb (fst p) c && Ascii.eqb (snd p) k
                       || Ascii.eqb (fst p) k && Ascii.eqb (snd p) c)
       alphabet.

(** [mid] spells [word], character by character, up to letter case. *)
Fixpoint spells (mid word : string) : bool :=
  match mid, word with
  | EmptyString, EmptyString => true
  | String c mid', String k word' => same_letter c k && spells mid' word'
  | _, _ => false
  end.

(** [word] occurs in [msg] up to letter case. *)
Definition occurs_ci (word msg : string) : Prop :=
  exists pre mid post, msg = pre ++ mid ++ post /\ spells mid word = true.

(** A word written in lower-case letters only. *)
Fixpoint lower_case_word (word : string) : bool :=
  match word with
  | EmptyString => true
  | String k word' =>
      existsb (fun p => Ascii.eqb (snd p) k) alphabet && lower_case_word word'
  end.

(** The message names a credential problem. *)
Definition mentions_credentials (msg : string) : Prop :=
  occurs_ci "token" msg \/ occurs_ci "auth" msg \/ occurs_ci "access" msg.

(** No [except] clause tells the two exceptions apart. *)
Definition same_kind (e1 e2 : exn) : Prop :=
  forall c, isinstance e1 c = isinstance e2 c.

(** A mapping names each of its keys once, as every Python [dict] does. *)
Definition unique_keys {V} (d : dict V) : Prop := NoDup (map fst d).

(** *** Numbers *)

(** The value [(-1)^s * m * 2^e] of a finite float, cut to its integer part:
    [Z.quot] rounds towards zero. *)
Definition truncate_float (f : spec_float) : Z :=
  match f with
  | S754_finite s m e =>
      Z.quot ((if s then -1 else 1) * Zpos m * 2 ^ Z.max e 0) (2 ^ Z.max (- e) 0)
  | _ => 0
  end.

(** The integer a number stands for. *)
Definition int_part (v : json) : Z :=
  match v with
  | JInt z => z
  | JBool b => if b then 1 else 0
  | JFloat f => truncate_float f
  | _ => 0
  end.

(** A JSON number: an integer, or a float that is neither NaN nor infinite. *)
Definition finite_number (v : json) : bool :=
  match v with
  | JInt _ | JBool _ => true
  | JFloat (S754_zero _) | JFloat (S754_finite _ _ _) => true
  | _ => false
  end.

(** *** Cross-site totals *)

(** The numbers filed under [key] in one site's sub-mapping. *)
Definition site_metrics (key : string) (site_data : json) : list json :=
  match site_data with
  | JDict m =>
      map snd (filter (fun kv => String.eqb key (fst kv) && is_int_or_float (snd kv)) m)
  | _ => []
  end.

(** The numbers filed under [key] in all per-site sub-mappings of a response. *)
Definition metric_values (key : string) (response : json) : list json :=
  match response with
  | JDict sites => flat_map (fun entry => site_metrics key (snd entry)) sites
  | _ => []
  end.

Definition sum_int_parts (vs : list json) : Z :=
  fold_right Z.add 0 (map int_part vs).

(** What the totals hold for a key whose numbers are [vs]: nothing when there
    are none. *)
Definition total_of (vs : list json) : option json :=
  match vs with
  | [] => None
  | _ => Some (JInt (sum_int_parts vs))
  end.

(** Every number of every per-site sub-mapping is finite. *)
Definition finite_site (site_data : json) : bool :=
  match site_data with
  | JDict m => forallb (fun kv => negb (is_int_or_float (snd kv)) || finite_number (snd kv)) m
  | _ => true
  end.

Definition finite_response (response : json) : bool :=
  match response with
  | JDict sites => forallb (fun entry => finite_site (snd entry)) sites
  | _ => true
  end.

(** The running totals after one more [key, value], one more site, one more
    response: the loops of [get_all_sites_summary] without their effects. *)
Definition tally_metric (kv : string * json) (totals : dict Z) : dict Z :=
  if is_int_or_float (snd kv)
  then dict_set (fst kv) (dict_get_default (fst kv) 0 totals + int_part (snd kv)) totals
  else totals.

Definition tally_site (entry : string * json) (totals : dict Z) : dict Z :=
  match snd entry with
  | JDict m => fold_left (fun t kv => tally_metric kv t) m totals
  | _ => totals
  end.

Definition tally_response (response : json) (totals : dict Z) : dict Z :=
  match response with
  | JDict sites => fold_left (fun t entry => tally_site entry t) sites totals
  | _ => totals
  end.

(** A running total [o] after the numbers [vs]. *)
Definition bump (o : option Z) (vs : list json) : option Z :=
  match vs with
  | [] => o
  | _ => Some (match o with Some z => z | None => 0 end + sum_int_parts vs)
  end.

(** The parameters of a wildcard call. *)
Definition all_sites (period date : string) : pydict :=
  [("idSite", JStr "all"); ("period", JStr period); ("date", JStr date)].

(** *** Refresh cycles *)

Section Cycles.

Context {W : Type}.

(** The six summary calls of a cycle, in the order the loop issues them. *)
Definition load_bearing_fetches (self : MatomoDataCoordinator W)
  : list (M W json) :=
  flat_map
    (fun period =>
       [get_visit_summary (api self) (JInt (site_id self)) period "today";
        get_actions (api self) (JInt (site_id self)) period "today"])
    PERIODS.

(** The three wildcard fetches of a cycle. *)
Definition aggregate_fetches (self : MatomoDataCoordinator W)
  : list (M W json) :=
  map (fun period => get_all_sites_summary (api self) period "today") PERIODS.

(** The live-counters fetch of a cycle. *)
Definition live_fetch (self : MatomoDataCoordinator W) : M W json :=
  get_live_counters (api self) (JInt (site_id self)) 30.

(** Run in turn from [w], the calls return [results] and leave [w']. *)
Fixpoint all_return (calls : list (M W json)) (w : W) (results : list json)
    (w' : W) : Prop :=
  match calls, results with
  | [], [] => w' = w
  | m :: ms, r :: rs => exists w1, m w = (Ok r, w1) /\ all_return ms w1 rs w'
  | _, _ => False
  end.

(** Run in turn from [w], the calls return until one raises [e], leaving [w']. *)
Inductive first_failure : list (M W json) -> W -> exn -> W -> Prop :=
| failure_here m ms w e w' :
    m w = (Raise e, w') -> first_failure (m :: ms) w e w'
| failure_later m ms w r w1 e w' :
    m w = (Ok r, w1) -> first_failure ms w1 e w' ->
    first_failure (m :: ms) w e w'.

(** What lines 56-65 store in the live partition. *)
Inductive live_step (self : MatomoDataCoordinator W) : W -> json -> W -> Prop :=
| live_counters w first rest w' :
    live_fetch self w = (Ok (JList (first :: rest)), w') ->
    live_step self w first w'
| live_nothing w r w' :
    live_fetch self w = (Ok r, w') ->
    (forall first rest, r <> JList (first :: rest)) ->
    live_step self w (JDict []) w'
| live_degraded w e w' :
    live_fetch self w = (Raise e, w') ->
    isinstance e MatomoAPIError = true ->
    live_step self w (JDict []) w'.

(** What lines 67-75 leave in the aggregate partition. *)
Inductive aggregate_step (self : MatomoDataCoordinator W)
  : W -> json -> W -> Prop :=
| aggregate_disabled w :
    include_aggregate self = false ->
    aggregate_step self w (JDict []) w
| aggregate_complete w a1 a2 a3 w' :
    include_aggregate self = true ->
    all_return (aggregate_fetches self) w [a1; a2; a3] w' ->
    aggregate_step self w (JDict [("day", a1); ("week", a2); ("month", a3)]) w'
| aggregate_degraded w e w' :
    include_aggregate self = true ->
    first_failure (aggregate_fetches self) w e w' ->
    isinstance e MatomoAPIError = true ->
    aggregate_step self w (JDict []) w'.

End Cycles.

(** The site partition built from the six summary responses. *)
Definition site_partition (s1 a1 s2 a2 s3 a3 : json) : json :=
  JDict [("day", JDict (merge_summary s1 a1));
         ("week", JDict (merge_summary s2 a2));
         ("month", JDict (merge_summary s3 a3))].

(** The fields of a Snapshot. *)
Definition snapshot_fields (site live aggregate : json) : pydict :=
  [("site", site); ("live", live); ("aggregate", aggregate)].

(** [snapshot["site"][period]], when the path resolves. *)
Definition site_entry (snapshot : json) (period : string) : option json :=
  match snapshot with
  | JDict d =>
      match dict_get "site" d with
      | Some (JDict periods) => dict_get period periods
      | _ => None
      end
  | _ => None
  end.

(** *** Readings *)

(** A metric value of a Snapshot: a JSON number, or [None]. *)
Definition metric_value_ok (v : json) : bool :=
  match v with
  | JNull => true
  | _ => finite_number v
  end.

(** A mapping of metric names to metric values. *)
Definition metrics_ok (m : json) : bool :=
  match m with
  | JDict d => forallb (fun kv => metric_value_ok (snd kv)) d
  | _ => false
  end.

(** A mapping of period names to such mappings. *)
Definition periods_ok (p : json) : bool :=
  match p with
  | JDict d => forallb (fun kv => metrics_ok (snd kv)) d
  | _ => false
  end.

Definition partition_ok (check : json -> bool) (partition : option json) : bool :=
  match partition with
  | Some v => check v
  | None => true
  end.

(** A Snapshot of section 3 of the specification: a mapping whose partitions,
    where present, have the shapes above. *)
Definition snapshot_ok (data : json) : bool :=
  match data with
  | JDict d =>
      partition_ok periods_ok (dict_get "site" d)
      && partition_ok metrics_ok (dict_get "live" d)
      && partition_ok periods_ok (dict_get "aggregate" d)
  | _ => false
  end.

(** [data[part][key]] and [data[part][period][key]], when the path resolves. *)
Definition at_path1 (part key : string) (data : json) : option json :=
  match data with
  | JDict d =>
      match dict_get part d with
      | Some (JDict m) => dict_get key m
      | _ => None
      end
  | _ => None
  end.

Definition at_path2 (part period key : string) (data : json) : option json :=
  match data with
  | JDict d =>
      match dict_get part d with
      | Some (JDict periods) =>
          match dict_get period periods with
          | Some (JDict m) => dict_get key m
          | _ => None
          end
      | _ => None
      end
  | _ => None
  end.

(** The reading of what a path holds: absent for a missing path and for
    [None], the integer part otherwise. *)
Definition reading (value : option json) : option Z :=
  match value with
  | None | Some JNull => None
  | Some v => Some (int_part v)
  end.

(** *** What [int()] reads in a text *)

(** The blanks allowed around a literal. *)
Definition literal_blanks : list ascii :=
  map ascii_of_nat [9; 10; 11; 12; 13; 32; 133; 160]%nat.

Definition digit_chars : list (ascii * Z) :=
  [("0", 0); ("1", 1); ("2", 2); ("3", 3); ("4", 4);
   ("5", 5); ("6", 6); ("7", 7); ("8", 8); ("9", 9)]%char.

(** [body] writes the decimal digits [ds], the most significant first; one
    underscore may stand between two digits. *)
Inductive writes : string -> list Z -> Prop :=
| writes_last c d :
    In (c, d) digit_chars -> writes (String c "") [d]
| writes_next c d body ds :
    In (c, d) digit_chars -> writes body ds -> writes (String c body) (d :: ds)
| writes_grouped c d body ds :
    In (c, d) digit_chars -> writes body ds ->
    writes (String c (String "_" body)) (d :: ds).

(** The number that digits write: each digit counts for its place. *)
Fixpoint positional (ds : list Z) : Z :=
  match ds with
  | [] => 0
  | d :: rest => d * 10 ^ Z.of_nat (List.length rest) + positional rest
  end.

(** [s] is a decimal literal of the integer [z]: blanks, a sign or none,
    digits, blanks.  Python reads no more than 4300 digits. *)
Definition integer_literal (s : string) (z : Z) : Prop :=
  exists lead sign body trail ds,
    s = lead ++ sign ++ body ++ trail
    /\ Forall (fun c => In c literal_blanks) (list_ascii_of_string lead)
    /\ Forall (fun c => In c literal_blanks) (list_ascii_of_string trail)
    /\ writes body ds
    /\ (List.length ds <= 4300)%nat
    /\ ((sign = "" \/ sign = "+") /\ z = positional ds
        \/ sign = "-" /\ z = - positional ds).

(** The value [v] stands for the integer [z]: a number by its integer part,
    a text by the literal it is. *)
Definition coerces (v : json) (z : Z) : Prop :=
  match v with
  | JInt n => z = n
  | JBool b => z = if b then 1 else 0
  | JFloat f => finite_number (JFloat f) = true /\ z = truncate_float f
  | JStr s => integer_literal s z
  | JNull | JList _ | JDict _ => False
  end.

(** The value stands for no integer: a text that is no literal, a float that
    is NaN or infinite, a list, a mapping. *)
Definition refused (v : json) : Prop :=
  match v with
  | JStr s => forall z, ~ integer_literal s z
  | JFloat f => finite_number (JFloat f) = false
  | JList _ | JDict _ => True
  | JNull | JBool _ | JInt _ => False
  end.

(** What a selector may answer for what its path holds: absent for a
    missing path and for [None], and for nothing else; the integer a present
    value stands for; an exception only for a value that stands for none. *)
Definition selects (answer : result (option Z)) (value : option json) : Prop :=
  match value with
  | None | Some JNull => answer = Ok None
  | Some v =>
      (forall z, coerces v z -> answer = Ok (Some z))
      /\ (forall e, answer = Raise e -> refused v)
      /\ answer <> Ok None
  end.

(** A mapping of period names to mappings. *)
Definition periods_shaped (p : json) : bool :=
  match p with
  | JDict d => forallb (fun kv => is_dict (snd kv)) d
  | _ => false
  end.

(** A mapping whose partitions, where present, are mappings, of mappings for
    [site] and [aggregate]; their values are any. *)
Definition snapshot_shaped (data : json) : bool :=
  match data with
  | JDict d =>
      partition_ok periods_shaped (dict_get "site" d)
      && partition_ok is_dict (dict_get "live" d)
      && partition_ok periods_shaped (dict_get "aggregate" d)
  | _ => false
  end.

(** *** Calls on the wire *)

(** One [post]: the URL, the query string and the body. *)
Record Call : Type := {
  call_url : string;
  call_params : pydict;
  call_data : pydict
}.

(** A session that also keeps the list of the calls made through it. *)
Definition logged {W} (s : ClientSession W) : ClientSession (W * list Call) :=
  {| post := fun url params data st =>
       let (r, w') := post s url params data (fst st) in
       (r, (w', (snd st ++ [{| call_url := url; call_params := params;
                               call_data := data |}])%list)) |}.

(** The call a client makes for a method and its parameters. *)
Definition call_of {W} (self : MatomoAPI W) (method : string) (params : pydict)
  : Call :=
  {| call_url := _base_url self;
     call_params := url_params method;
     call_data := post_data self params |}.

(** The decoded payload is the server's error envelope. *)
Definition is_error_envelope (data : json) : bool :=
  match data with
  | JDict d => eq_str (dict_get "result" d) "error"
  | _ => false
  end.

(** The body looks like a page, not like JSON. *)
Definition looks_like_html (body : string) : bool :=
  startswith (strip body) "<!" || startswith (strip body) "<html".

(** The parameters of a summary call for the tracked site. *)
Definition summary_params (site : Z) (period : string) : pydict :=
  [("idSite", JInt site); ("period", JStr period); ("date", JStr "today")].

(** The calls of the six summary fetches, of the live fetch and of the three
    wildcard fetches, in the order of the code. *)
Definition site_calls {W} (self : MatomoDataCoordinator W) : list Call :=
  flat_map
    (fun period =>
       [call_of (api self) "VisitsSummary.get" (summary_params (site_id self) period);
        call_of (api self) "Actions.get" (summary_params (site_id self) period)])
    PERIODS.

Definition live_call {W} (self : MatomoDataCoordinator W) : Call :=
  call_of (api self) "Live.getCounters"
    [("idSite", JInt (site_id self)); ("lastMinutes", JInt 30)].

Definition aggregate_calls {W} (self : MatomoDataCoordinator W) : list Call :=
  flat_map
    (fun period =>
       [call_of (api self) "VisitsSummary.get" (all_sites period "today");
        call_of (api self) "Actions.get" (all_sites period "today")])
    PERIODS.

Definition cycle_calls {W} (self : MatomoDataCoordinator W) : list Call :=
  (site_calls self ++ live_call self :: aggregate_calls self)%list.

(** Every fetch a cycle may make, in the order of the code. *)
Definition cycle_fetches {W} (self : MatomoDataCoordinator W) : list (M W json) :=
  (load_bearing_fetches self
   ++ live_fetch self
   :: (if include_aggregate self then aggregate_fetches self else []))%list.

(** Over a logged session, [m] makes the calls [L]: all of them when it
    returns, the first few (one at least) when it raises. *)
Definition emits {W A} (m : M (W * list Call) A) (L : list Call) : Prop :=
  forall w log r w' log',
    m (w, log) = (r, (w', log')) ->
    match r with
    | Ok _ => log' = (log ++ L)%list
    | Raise _ =>
        exists n, (1 <= n <= List.length L)%nat /\ log' = (log ++ firstn n L)%list
    end.

(** A summary response the merge takes in is a mapping of metric values;
    one that is no mapping is left out by the merge. *)
Definition summary_ok (response : json) : bool :=
  match response with
  | JDict _ => metrics_ok response
  | _ => true
  end.

(** The per-site entries of a response; none when it is no mapping. *)
Definition entries (response : json) : list (string * json) :=
  match response with
  | JDict sites => sites
  | _ => []
  end.

(** *** The site list *)

(** The id and the name of a site of the list, when it is a mapping that
    holds an integer [idsite] and a [name]. *)
Definition site_id_of (site : json) : option Z :=
  match site with
  | JDict d =>
      match dict_get "idsite" d with
      | Some (JInt z) => Some z
      | _ => None
      end
  | _ => None
  end.

Definition site_name_of (site : json) : option json :=
  match site with
  | JDict d => dict_get "name" d
  | _ => None
  end.

Definition listed (site : json) : bool :=
  match site_id_of site, site_name_of site with
  | Some _, Some _ => true
  | _, _ => false
  end.

(** The name of the first site of the list with the id [z]. *)
Fixpoint first_named (sites : list json) (z : Z) : option json :=
  match sites with
  | [] => None
  | site :: rest =>
      match site_id_of site with
      | Some z' => if (z' =? z)%Z then site_name_of site else first_named rest z
      | None => first_named rest z
      end
  end.

(** The outcome is a returned value. *)
Definition is_ok {A} (r : result A) : bool :=
  match r with
  | Ok _ => true
  | Raise _ => false
  end.

(** What [UpdateFailed] says for the cause [e]. *)
Definition failure_text (e : exn) : string :=
  (if isinstance e MatomoAuthError then "Authentication failed: "
   else "Error fetching Matomo data: ") ++ str e.

End Spec.
Import Spec.

(** ** More scripted servers

    A server that also knows its version and its list of sites, a client
    whose session records its calls, and a configuration flow over them. *)

Module Samples.

Definition site_list : json :=
  JList [JDict [("idsite", JInt 1); ("name", JStr "Blog")];
         JDict [("idsite", JInt 2); ("name", JStr "Shop")]].

(** The per-site sub-mappings of [Script.sites], the other way round. *)
Definition sites_swapped : json :=
  JDict [("2", JDict [("nb_visits", JInt 5)]);
         ("1", JDict [("nb_visits", JInt 3)])].

Definition bodies : dict json :=
  ([("version", JDict [("value", JStr "5.1.0")]);
    ("site list", site_list);
    ("sites swapped", sites_swapped);
    ("counters", JList [JDict [("visits", JInt 3); ("visitors", JInt 2)]]);
   ("capitals", JDict [("result", JStr "error"); ("message", JStr "ACCESS Denied")]);
   ("no message", JDict [("result", JStr "error")]);
   ("null message", JDict [("result", JStr "error"); ("message", JNull)])]
   ++ Script.bodies)%list.

Definition client : MatomoAPI Script.World :=
  new_MatomoAPI Script.session "https://stats.example.org/" "secret"
    (Script.loads bodies).

Definition coordinator (aggregate : bool) : MatomoDataCoordinator Script.World :=
  {| api := client; site_id := 7; site_name := "Example";
     include_aggregate := aggregate |}.

(** The same client over a session that records its calls. *)
Definition traced_client : MatomoAPI (Script.World * list Call) :=
  new_MatomoAPI (logged Script.session) "https://stats.example.org/" "secret"
    (Script.loads bodies).

Definition traced_coordinator (aggregate : bool)
  : MatomoDataCoordinator (Script.World * list Call) :=
  {| api := traced_client; site_id := 7; site_name := "Example";
     include_aggregate := aggregate |}.

(** A full cycle with the aggregate option on. *)
Definition full_cycle : Script.World :=
  map Script.ok200
    ["visits"; "actions"; "visits"; "overlap"; "[]"; "actions";
     "counters";
     "sites"; "{}"; "sites swapped"; "{}"; "sites"; "sites swapped"].

(** The Snapshot of that cycle. *)
Definition full_snapshot : json :=
  JDict [("site",
          JDict [("day", JDict [("nb_uniq_visitors", JInt 12); ("nb_visits", JInt 20);
                                ("nb_pageviews", JInt 45); ("nb_actions", JInt 50)]);
                 ("week", JDict [("nb_uniq_visitors", JInt 12); ("nb_visits", JInt 99);
                                 ("nb_actions", JInt 50)]);
                 ("month", JDict [("nb_pageviews", JInt 45); ("nb_actions", JInt 50)])]);
         ("live", JDict [("visits", JInt 3); ("visitors", JInt 2)]);
         ("aggregate",
          JDict [("day", JDict [("nb_visits", JInt 8)]);
                 ("week", JDict [("nb_visits", JInt 8)]);
                 ("month", JDict [("nb_visits", JInt 16)])])].

(** A Snapshot with a float of -2.75, a [None], counts written as text and
    a percentage. *)
Definition mixed_snapshot : json :=
  JDict [("site",
          JDict [("day", JDict [("nb_visits", JFloat (S754_finite true 11 (-2)));
                                ("nb_actions", JNull);
                                ("bounce_rate", JStr "50%")])]);
         ("live", JDict [("visits", JStr "3"); ("visitors", JStr " -1_250 ")]);
         ("aggregate", JDict [("day", JDict [("nb_visits", JInt 8)])])].

(** A Snapshot with an infinite float and a list for values, and a live
    partition that is no mapping. *)
Definition odd_snapshot : json :=
  JDict [("site",
          JDict [("day", JDict [("nb_visits", JFloat (S754_infinity false));
                                ("nb_actions", JList [JInt 1])])]);
         ("live", JInt 3)].

(** The text of a float, a list or a dict is not needed by the samples. *)
Definition repr_other (v : json) : string := "...".

(** A flow that has fetched [site_list] from [https://stats.example.org]. *)
Definition flow : MatomoConfigFlow :=
  {| _url := "https://stats.example.org"; _token := "secret";
     _sites := site_list |}.

(** The unique ids of the entries the host holds already. *)
Definition configured : list string := ["https://stats.example.org_2"].

End Samples.

(** ** Facts about the effect monad *)

Section EffFacts.

Context {W : Type}.

Lemma bind_ok {A B} (m : M W A) (k : A -> M W B) w a w' :
  m w = (Ok a, w') -> bind m k w = k a w'.
Proof. intros H. unfold bind. now rewrite H. Qed.

Lemma bind_raise {A B} (m : M W A) (k : A -> M W B) w e w' :
  m w = (Raise e, w') -> bind m k w = (Raise e, w').
Proof. intros H. unfold bind. now rewrite H. Qed.

Lemma bind_ok_inv {A B} (m : M W A) (k : A -> M W B) w b w2 :
  bind m k w = (Ok b, w2) ->
  exists a w1, m w = (Ok a, w1) /\ k a w1 = (Ok b, w2).
Proof.
  unfold bind. destruct (m w) as [[a | e] w1]; intros H.
  - now exists a, w1.
  - discriminate.
Qed.

Lemma bind_raise_inv {A B} (m : M W A) (k : A -> M W B) w e w2 :
  bind m k w = (Raise e, w2) ->
  m w = (Raise e, w2)
  \/ exists a w1, m w = (Ok a, w1) /\ k a w1 = (Raise e, w2).
Proof.
  unfold bind. destruct (m w) as [[a | e'] w1]; intros H.
  - right. now exists a, w1.
  - left. now inversion H.
Qed.

Lemma try_ok {A} (body : M W A) handler w a w' :
  body w = (Ok a, w') -> try_except body handler w = (Ok a, w').
Proof. intros H. unfold try_except. now rewrite H. Qed.

Lemma try_raise {A} (body : M W A) handler w e w' :
  body w = (Raise e, w') -> try_except body handler w = handler e w'.
Proof. intros H. unfold try_except. now rewrite H. Qed.

Lemma try_inv {A} (body : M W A) handler w r w2 :
  try_except body handler w = (r, w2) ->
  (exists a, body w = (Ok a, w2) /\ r = Ok a)
  \/ exists e w1, body w = (Raise e, w1) /\ handler e w1 = (r, w2).
Proof.
  unfold try_except. destruct (body w) as [[a | e] w1]; intros H.
  - left. exists a. now inversion H.
  - right. now exists e, w1.
Qed.

End EffFacts.

(** ** Facts about text *)

Lemma prefix_split p s :
  String.prefix p s = true <-> exists post, s = p ++ post.
Proof.
  revert s. induction p as [| c p IH]; intros s.
  - split; [intros _; now exists s | intros _; now destruct s].
  - destruct s as [| d s]; simpl.
    + split; [discriminate | intros [post H]; discriminate].
    + destruct (Ascii.ascii_dec c d) as [-> | n].
      * rewrite IH. split; intros [post H]; exists post.
        -- now rewrite H.
        -- simpl in H. now inversion H.
      * split; [discriminate |].
        intros [post H]. simpl in H. inversion H. congruence.
Qed.

Lemma str_in_split sub s :
  str_in sub s = true <-> exists pre post, s = pre ++ sub ++ post.
Proof.
  induction s as [| c s IH].
  - cbn [str_in]. rewrite orb_false_r, prefix_split. split.
    + intros [post H]. now exists "", post.
    + intros [pre [post H]]. destruct pre; simpl in H.
      * now exists post.
      * discriminate.
  - cbn [str_in]. rewrite orb_true_iff, prefix_split, IH. split.
    + intros [[post H] | [pre [post H]]].
      * now exists "", post.
      * exists (String c pre), post. simpl. now rewrite H.
    + intros [pre [post H]]. destruct pre as [| d pre]; simpl in H.
      * left. now exists post.
      * right. exists pre, post. now inversion H.
Qed.

Lemma lower_app a b : lower (a ++ b) = lower a ++ lower b.
Proof. induction a as [| c a IH]; simpl; [reflexivity | now rewrite IH]. Qed.

Lemma lower_unapp s a b :
  lower s = a ++ b -> exists a' b', s = a' ++ b' /\ lower a' = a /\ lower b' = b.
Proof.
  revert s. induction a as [| c a IH]; intros s H; simpl in H.
  - now exists "", s.
  - destruct s as [| d s]; simpl in H; [discriminate |].
    inversion H as [[Hc Hs]]. destruct (IH s Hs) as [a' [b' [-> [Ha Hb]]]].
    exists (String d a'), b'. simpl. now rewrite Ha, Hb.
Qed.

(** [lower] sends to a lower-case letter that letter and its capital, and
    nothing else. *)
Lemma lower_char_letter c k :
  existsb (fun p => Ascii.eqb (snd p) k) alphabet = true ->
  Ascii.eqb (lower_char c) k = same_letter c k.
Proof.
  intros Hk.
  destruct (Ascii.eqb_spec (lower_char c) k) as [<- | Hne].
  - revert Hk. destruct c as [[] [] [] [] [] [] [] []]; vm_compute;
      intros Hk; first [reflexivity | discriminate Hk].
  - destruct (same_letter c k) eqn:E; [| reflexivity].
    exfalso. apply Hne. clear Hne.
    unfold same_letter in E. apply orb_true_iff in E as [E | E].
    + apply Ascii.eqb_eq in E. subst c.
      apply existsb_exists in Hk as [p [Hin Hp]]. apply Ascii.eqb_eq in Hp.
      subst k. vm_compute in Hin.
      repeat (destruct Hin as [<- | Hin]; [reflexivity |]). destruct Hin.
    + apply existsb_exists in E as [p [Hin Hp]].
      vm_compute in Hin.
      repeat (destruct Hin as [<- | Hin];
              [ cbn [fst snd] in Hp;
                apply orb_true_iff in Hp as [Hp | Hp];
                apply andb_true_iff in Hp as [Hc Hk'];
                apply Ascii.eqb_eq in Hc; apply Ascii.eqb_eq in Hk';
                subst; first [reflexivity | discriminate Hk] |]).
      destruct Hin.
Qed.

Lemma lower_spells mid word :
  lower_case_word word = true ->
  String.eqb (lower mid) word = spells mid word.
Proof.
  revert word. induction mid as [| c mid IH]; intros [| k word] Hw;
    try reflexivity.
  cbn [lower_case_word] in Hw. apply andb_true_iff in Hw as [Hk Hw].
  cbn [lower spells String.eqb].
  rewrite <- (lower_char_letter c k Hk), <- (IH word Hw).
  now destruct (Ascii.eqb (lower_char c) k).
Qed.

(** For a word in lower case, the test [word in msg.lower()] decides
    occurrence up to letter case. *)
Lemma str_in_lower word msg :
  lower_case_word word = true ->
  str_in word (lower msg) = true <-> occurs_ci word msg.
Proof.
  intros Hw. rewrite str_in_split. unfold occurs_ci. split.
  - intros [pre [post H]].
    destruct (lower_unapp _ _ _ H) as [pre' [rest [-> [_ Hrest]]]].
    destruct (lower_unapp _ _ _ Hrest) as [mid [post' [-> [Hmid _]]]].
    exists pre', mid, post'. split; [reflexivity |].
    rewrite <- (lower_spells mid word Hw). now apply String.eqb_eq.
  - intros [pre [mid [post [-> Hmid]]]].
    rewrite <- (lower_spells mid word Hw) in Hmid. apply String.eqb_eq in Hmid.
    exists (lower pre), (lower post). now rewrite !lower_app, Hmid.
Qed.

(** ** The reporting client *)

Section ClientFacts.

Context {W : Type}.

Lemma below_api_error c :
  issubclass c MatomoAPIError = true -> c = MatomoAPIError \/ c = MatomoAuthError.
Proof. destruct c; cbn; intros H; try discriminate; auto. Qed.

Lemma credentials_test msg :
  str_in "token" (lower msg) || str_in "auth" (lower msg)
  || str_in "access" (lower msg) = true
  <-> mentions_credentials msg.
Proof.
  unfold mentions_credentials.
  rewrite !orb_true_iff, !str_in_lower by reflexivity. tauto.
Qed.

(** C7, as the code has it.  When the body decodes to a mapping whose
    [result] is ["error"], [_request] raises.  When the message (the
    [message] field, or the stock text when the server sent none) is the text
    [msg], the exception carries [msg]; it is a [MatomoAuthError] exactly when
    [msg] contains "token", "auth" or "access" up to letter case, and a plain
    [MatomoAPIError] otherwise.  When the message is no text, [msg.lower()]
    fails: the exception is an [AttributeError], of neither kind. *)
Theorem error_envelope_classified
    (self : MatomoAPI W) method params w w' d :
  post_and_decode self method params w = (Ok (JDict d), w') ->
  dict_get "result" d = Some (JStr "error") ->
  match dict_get_default "message" (JStr "Unknown Matomo API error") d with
  | JStr msg =>
      exists cls,
        _request self method params w = (Raise (Exn cls msg None), w')
        /\ (cls = MatomoAuthError \/ cls = MatomoAPIError)
        /\ (cls = MatomoAuthError <-> mentions_credentials msg)
  | _ =>
      exists e,
        _request self method params w = (Raise e, w')
        /\ exn_class e = AttributeError
        /\ isinstance e MatomoAPIError = false
  end.
Proof.
  intros Hdec Hres.
  unfold _request. rewrite (bind_ok _ _ _ _ _ Hdec).
  unfold check_error_envelope. rewrite Hres. cbn [eq_str].
  rewrite String.eqb_refl.
  destruct (dict_get_default "message" (JStr "Unknown Matomo API error") d)
    as [| b | z | f | msg | l | m];
    try (eexists; split; [reflexivity | split; reflexivity]).
  pose proof (credentials_test msg) as Hc.
  destruct (str_in "token" (lower msg) || str_in "auth" (lower msg)
            || str_in "access" (lower msg)).
  - exists MatomoAuthError. repeat split; auto. intros _. now apply Hc.
  - exists MatomoAPIError. repeat split; auto.
    + discriminate.
    + intros H. apply Hc in H. discriminate.
Qed.

(** C8.  When the API answers the empty sequence, [get_visit_summary] and
    [get_actions] return the empty mapping. *)
Theorem empty_summary_is_empty_mapping
    (self : MatomoAPI W) site period date w w' :
  (_request self "VisitsSummary.get"
     [("idSite", site); ("period", JStr period); ("date", JStr date)] w
   = (Ok (JList []), w') ->
   get_visit_summary self site period date w = (Ok (JDict []), w'))
  /\ (_request self "Actions.get"
        [("idSite", site); ("period", JStr period); ("date", JStr date)] w
      = (Ok (JList []), w') ->
      get_actions self site period date w = (Ok (JDict []), w')).
Proof.
  split; intros H.
  - unfold get_visit_summary. now rewrite (bind_ok _ _ _ _ _ H).
  - unfold get_actions. now rewrite (bind_ok _ _ _ _ _ H).
Qed.

(** What [post_and_decode] lets out of its [try]. *)
Lemma post_and_decode_raises (self : MatomoAPI W) method params w e w' :
  post_and_decode self method params w = (Raise e, w') ->
  exn_class e = MatomoAuthError \/ exn_class e = MatomoAPIError
  \/ (isinstance e MatomoAPIError = false /\ isinstance e ClientError = false).
Proof.
  unfold post_and_decode. intros H.
  apply try_inv in H as [[a [_ Ha]] | [e0 [w1 [_ Hh]]]]; [discriminate |].
  destruct (isinstance e0 MatomoAPIError) eqn:Hapi.
  - inversion Hh; subst. apply below_api_error in Hapi. tauto.
  - destruct (isinstance e0 ClientError) eqn:Hcl; inversion Hh; subst; auto.
Qed.

Lemma check_error_envelope_raises data (w : W) e w' :
  check_error_envelope data w = (Raise e, w') ->
  exn_class e = MatomoAuthError \/ exn_class e = MatomoAPIError
  \/ (isinstance e MatomoAPIError = false /\ isinstance e ClientError = false).
Proof.
  unfold check_error_envelope. intros H.
  destruct data as [| | | | | | d]; try discriminate.
  destruct (eq_str _ _); [| discriminate].
  destruct (dict_get_default _ _ d) as [| | | | msg | |];
    try (inversion H; subst; now auto).
  destruct (_ || _); inversion H; subst; auto.
Qed.

(** A status of 400 or more, other than 401. *)
Lemma request_bad_status (self : MatomoAPI W) method params w resp w' body :
  post (_session self) (_base_url self) (url_params method)
    (post_data self params) w = (Ok resp, w') ->
  400 <= status resp -> status resp <> 401 -> text resp = Ok body ->
  _request self method params w
  = (Raise (Exn MatomoAPIError
              ("Error communicating with Matomo: " ++ status_error resp)
              (Some (Exn ClientResponseError (status_error resp) None))), w').
Proof.
  intros Hpost Hge Hne Htext.
  unfold _request. apply bind_raise.
  unfold post_and_decode. erewrite try_raise.
  2:{ rewrite (bind_ok _ _ _ _ _ Hpost).
      apply Z.eqb_neq in Hne. rewrite Hne.
      unfold bind, lift, raise_for_status. rewrite Htext.
      apply Z.leb_le in Hge. rewrite Hge. reflexivity. }
  reflexivity.
Qed.

(** A [ClientError] raised by the call itself. *)
Lemma request_client_error (self : MatomoAPI W) method params w err w' :
  post (_session self) (_base_url self) (url_params method)
    (post_data self params) w = (Raise err, w') ->
  isinstance err MatomoAPIError = false ->
  isinstance err ClientError = true ->
  _request self method params w
  = (Raise (Exn MatomoAPIError ("Error communicating with Matomo: " ++ str err)
              (Some err)), w').
Proof.
  intros Hpost Hapi Hcl.
  unfold _request. apply bind_raise.
  unfold post_and_decode. erewrite try_raise.
  2:{ apply bind_raise. exact Hpost. }
  cbv beta. now rewrite Hapi, Hcl.
Qed.

(** A status of 400 or more, other than 401, on a response whose body cannot
    be read: [resp.text()] comes before [raise_for_status], and what it
    raises goes through the two [except] clauses. *)
Lemma request_unread_body (self : MatomoAPI W) method params w resp w' err :
  post (_session self) (_base_url self) (url_params method)
    (post_data self params) w = (Ok resp, w') ->
  status resp <> 401 -> text resp = Raise err ->
  _request self method params w
  = (Raise (if isinstance err MatomoAPIError then err
            else if isinstance err ClientError
            then Exn MatomoAPIError
                   ("Error communicating with Matomo: " ++ str err) (Some err)
            else err), w').
Proof.
  intros Hpost Hne Htext.
  unfold _request. apply bind_raise.
  unfold post_and_decode. erewrite try_raise.
  2:{ rewrite (bind_ok _ _ _ _ _ Hpost).
      apply Z.eqb_neq in Hne. rewrite Hne.
      unfold bind, lift. rewrite Htext. reflexivity. }
  cbv beta.
  destruct (isinstance err MatomoAPIError); [reflexivity |].
  now destruct (isinstance err ClientError).
Qed.

(** C9, as the code has it.  The client has two error kinds of its own:
    a failing call raises a [MatomoAuthError], or a plain [MatomoAPIError], or
    lets through an exception that is neither a [MatomoAPIError] nor an
    [aiohttp.ClientError].  A response with a status of 400 or more other than
    401 whose body can be read raises the plain [MatomoAPIError], with the
    transport's error as cause: the kind of an application error.  When
    reading its body raises, the call fails with what reading raised, wrapped
    into a [MatomoAPIError] only when it is an [aiohttp.ClientError]. *)
Theorem client_error_kinds (self : MatomoAPI W) method params w :
  (forall resp w',
      post (_session self) (_base_url self) (url_params method)
        (post_data self params) w = (Ok resp, w') ->
      400 <= status resp -> status resp <> 401 ->
      match text resp with
      | Ok _ =>
          exists e,
            _request self method params w = (Raise e, w')
            /\ exn_class e = MatomoAPIError
            /\ exn_cause e
               = Some (Exn ClientResponseError (status_error resp) None)
            /\ forall msg, same_kind e (Exn MatomoAPIError msg None)
      | Raise err =>
          _request self method params w
          = (Raise (if isinstance err MatomoAPIError then err
                    else if isinstance err ClientError
                    then Exn MatomoAPIError
                           ("Error communicating with Matomo: " ++ str err)
                           (Some err)
                    else err), w')
      end)
  /\ (forall e w',
        _request self method params w = (Raise e, w') ->
        exn_class e = MatomoAuthError \/ exn_class e = MatomoAPIError
        \/ (isinstance e MatomoAPIError = false
            /\ isinstance e ClientError = false)).
Proof.
  split.
  - intros resp w' Hpost Hge Hne.
    destruct (text resp) as [body | err] eqn:Htext.
    + eexists.
      split; [exact (request_bad_status _ _ _ _ _ _ _ Hpost Hge Hne Htext) |].
      repeat split.
    + exact (request_unread_body _ _ _ _ _ _ _ Hpost Hne Htext).
  - intros e w' H. unfold _request in H.
    apply bind_raise_inv in H as [H | [a [w1 [_ H]]]].
    + now apply post_and_decode_raises in H.
    + now apply check_error_envelope_raises in H.
Qed.

End ClientFacts.

(** ** Dictionaries *)

Section DictFacts.

Context {V : Type}.

Lemma dict_get_set_same (k : string) (v : V) d :
  dict_get k (dict_set k v d) = Some v.
Proof.
  induction d as [| [k' v'] d IH]; simpl.
  - now rewrite String.eqb_refl.
  - destruct (String.eqb k k') eqn:E; simpl.
    + now rewrite String.eqb_refl.
    + now rewrite E.
Qed.

Lemma dict_get_set_other (k k0 : string) (v : V) d :
  k <> k0 -> dict_get k (dict_set k0 v d) = dict_get k d.
Proof.
  intros Hne. induction d as [| [k' v'] d IH]; simpl.
  - apply String.eqb_neq in Hne. now rewrite Hne.
  - destruct (String.eqb k0 k') eqn:E; simpl.
    + apply String.eqb_eq in E. subst k'.
      apply String.eqb_neq in Hne. now rewrite Hne.
    + now rewrite IH.
Qed.

Lemma dict_get_set (k k0 : string) (v : V) d :
  dict_get k (dict_set k0 v d) = if String.eqb k k0 then Some v else dict_get k d.
Proof.
  destruct (String.eqb_spec k k0) as [-> | Hne].
  - apply dict_get_set_same.
  - now apply dict_get_set_other.
Qed.

Lemma dict_get_absent (k : string) (d : dict V) :
  ~ In k (map fst d) -> dict_get k d = None.
Proof.
  induction d as [| [k' v'] d IH]; simpl; intros H.
  - reflexivity.
  - destruct (String.eqb_spec k k') as [-> | Hne].
    + exfalso. apply H. now left.
    + apply IH. intros Hin. apply H. now right.
Qed.

(** [d.update(other)]: the keys of [other] win. *)
Lemma dict_get_update (k : string) (d other : dict V) :
  unique_keys other ->
  dict_get k (dict_update d other)
  = match dict_get k other with
    | Some v => Some v
    | None => dict_get k d
    end.
Proof.
  unfold dict_update, unique_keys. revert d.
  induction other as [| [k' v'] other IH]; intros d Hnd; simpl.
  - reflexivity.
  - inversion Hnd as [| x l Hnotin Hnd']; subst.
    rewrite (IH _ Hnd'). destruct (String.eqb_spec k k') as [-> | Hne].
    + rewrite (dict_get_absent _ _ Hnotin). apply dict_get_set_same.
    + destruct (dict_get k other); [reflexivity |].
      now apply dict_get_set_other.
Qed.

End DictFacts.

(** ** Cross-site totals *)

Section AggregateFacts.

Context {W : Type}.

Lemma int_of_float_finite s m e :
  int_of_float (S754_finite s m e) = Ok (truncate_float (S754_finite s m e)).
Proof.
  unfold int_of_float, truncate_float. f_equal.
  destruct (Z.le_gt_cases 0 e) as [Hpos | Hneg].
  - rewrite Z.max_l, Z.max_r by lia. rewrite Z.shiftl_mul_pow2 by lia.
    change (2 ^ 0) with 1. rewrite Z.quot_1_r. destruct s; lia.
  - rewrite Z.max_r, Z.max_l by lia.
    assert (Hshift : Z.shiftl (Z.pos m) e = Z.pos m / 2 ^ (- e)).
    { rewrite <- (Z.opp_involutive e) at 1.
      rewrite Z.shiftl_opp_r. now rewrite Z.shiftr_div_pow2 by lia. }
    rewrite Hshift. change (2 ^ 0) with 1.
    assert (Hd : 0 < 2 ^ (- e)) by (apply Z.pow_pos_nonneg; lia).
    destruct s.
    + replace (-1 * Z.pos m * 1) with (- Z.pos m) by lia.
      rewrite Z.quot_opp_l by lia. now rewrite Z.quot_div_nonneg by lia.
    + replace (1 * Z.pos m * 1) with (Z.pos m) by lia.
      now rewrite Z.quot_div_nonneg by lia.
Qed.

(** [int(x)] of a JSON number is its integer part. *)
Lemma py_int_number v :
  is_int_or_float v = true -> finite_number v = true ->
  py_int v = Ok (int_part v).
Proof.
  destruct v as [| b | z | f | | |]; try discriminate; intros _ Hf.
  - reflexivity.
  - reflexivity.
  - destruct f; try discriminate.
    + reflexivity.
    + apply int_of_float_finite.
Qed.

Lemma for_each_pure {A S} (body : A -> S -> M W S) (f : A -> S -> S)
    (ok : A -> bool) (xs : list A) :
  (forall x s w, ok x = true -> body x s w = (Ok (f x s), w)) ->
  forallb ok xs = true ->
  forall s w, for_each xs body s w = (Ok (fold_left (fun s x => f x s) xs s), w).
Proof.
  intros Hbody. induction xs as [| x xs IH]; simpl; intros Hok s w.
  - reflexivity.
  - apply andb_true_iff in Hok as [Hx Hxs].
    rewrite (bind_ok _ _ _ _ _ (Hbody x s w Hx)). now apply IH.
Qed.

Lemma add_metric_ok kv totals (w : W) :
  negb (is_int_or_float (snd kv)) || finite_number (snd kv) = true ->
  add_metric kv totals w = (Ok (tally_metric kv totals), w).
Proof.
  destruct kv as [key value]. unfold add_metric, tally_metric. simpl.
  destruct (is_int_or_float value) eqn:Hn; simpl; intros Hf.
  - unfold bind, lift. now rewrite (py_int_number _ Hn Hf).
  - reflexivity.
Qed.

Lemma add_site_ok entry totals (w : W) :
  finite_site (snd entry) = true ->
  add_site entry totals w = (Ok (tally_site entry totals), w).
Proof.
  unfold add_site, tally_site, finite_site.
  destruct (snd entry); try reflexivity. intros Hf.
  refine (for_each_pure add_metric tally_metric _ d _ Hf totals w).
  intros x s w0. apply add_metric_ok.
Qed.

Lemma add_response_ok response totals (w : W) :
  finite_response response = true ->
  add_response response totals w = (Ok (tally_response response totals), w).
Proof.
  unfold add_response, tally_response, finite_response.
  destruct response; try reflexivity. intros Hf.
  refine (for_each_pure add_site tally_site _ d _ Hf totals w).
  intros x s w0. apply add_site_ok.
Qed.

Lemma sum_int_parts_app a b :
  sum_int_parts (a ++ b) = sum_int_parts a + sum_int_parts b.
Proof.
  unfold sum_int_parts. induction a as [| v a IH]; simpl; [reflexivity | lia].
Qed.

Lemma bump_app o a b : bump (bump o a) b = bump o (a ++ b).
Proof.
  destruct a as [| x a]; [reflexivity |].
  destruct b as [| y b].
  - now rewrite app_nil_r.
  - unfold bump at 2. simpl app. unfold bump.
    change (x :: (a ++ y :: b)%list) with ((x :: a) ++ (y :: b))%list.
    rewrite sum_int_parts_app. f_equal. lia.
Qed.

Lemma tally_metric_get key kv totals :
  dict_get key (tally_metric kv totals)
  = bump (dict_get key totals)
      (if String.eqb key (fst kv) && is_int_or_float (snd kv) then [snd kv] else []).
Proof.
  destruct kv as [k v]. unfold tally_metric. simpl.
  destruct (is_int_or_float v); [| now rewrite andb_false_r].
  rewrite andb_true_r, dict_get_set.
  destruct (String.eqb_spec key k) as [-> | Hne]; [| reflexivity].
  unfold bump, dict_get_default, sum_int_parts. simpl.
  destruct (dict_get k totals); f_equal; lia.
Qed.

Lemma tally_site_get key entry totals :
  dict_get key (tally_site entry totals)
  = bump (dict_get key totals) (site_metrics key (snd entry)).
Proof.
  unfold tally_site, site_metrics. destruct (snd entry); try reflexivity.
  revert totals. induction d as [| kv m IH]; intros totals; simpl.
  - reflexivity.
  - rewrite IH, tally_metric_get.
    destruct (String.eqb key (fst kv) && is_int_or_float (snd kv)); simpl.
    + apply (bump_app _ [snd kv]).
    + reflexivity.
Qed.

Lemma tally_response_get key response totals :
  dict_get key (tally_response response totals)
  = bump (dict_get key totals) (metric_values key response).
Proof.
  unfold tally_response, metric_values. destruct response; try reflexivity.
  revert totals. induction d as [| entry sites IH]; intros totals; simpl.
  - reflexivity.
  - rewrite IH, tally_site_get. apply bump_app.
Qed.

Lemma totals_to_json_get key totals :
  match totals_to_json totals with
  | JDict d => dict_get key d = option_map JInt (dict_get key totals)
  | _ => False
  end.
Proof.
  unfold totals_to_json. induction totals as [| [k z] totals IH]; simpl.
  - reflexivity.
  - destruct (String.eqb key k); [reflexivity | exact IH].
Qed.

(** C5, as the code has it.  When both wildcard calls return and the numbers
    they hold are finite, [get_all_sites_summary] returns one flat mapping; a
    metric key is in it exactly when some per-site sub-mapping of either
    response files a number under it, and its value is then the sum of the
    integer parts of all those numbers, the first response's followed by the
    second's.  Values that are not numbers are not counted. *)
Theorem all_sites_summary_sums
    (self : MatomoAPI W) period date w visits w1 actions w2 :
  _request self "VisitsSummary.get" (all_sites period date) w = (Ok visits, w1) ->
  _request self "Actions.get" (all_sites period date) w1 = (Ok actions, w2) ->
  finite_response visits = true ->
  finite_response actions = true ->
  exists totals,
    get_all_sites_summary self period date w = (Ok (JDict totals), w2)
    /\ forall key,
        dict_get key totals
        = total_of (metric_values key visits ++ metric_values key actions).
Proof.
  intros Hv Ha Fv Fa.
  exists (map (fun kv => (fst kv, JInt (snd kv)))
            (tally_response actions (tally_response visits []))).
  split.
  - unfold get_all_sites_summary. cbn [for_each].
    unfold all_sites in Hv, Ha.
    erewrite bind_ok; [reflexivity |].
    erewrite bind_ok.
    2:{ erewrite bind_ok; [| exact Hv]. now apply add_response_ok. }
    erewrite bind_ok.
    2:{ erewrite bind_ok; [| exact Ha]. now apply add_response_ok. }
    reflexivity.
  - intros key.
    pose proof (totals_to_json_get key
                  (tally_response actions (tally_response visits []))) as H.
    unfold totals_to_json in H. rewrite H.
    rewrite !tally_response_get, bump_app. simpl.
    now destruct (metric_values key visits ++ metric_values key actions)%list.
Qed.

End AggregateFacts.

(** ** The refresh pipeline *)

Section CoordinatorFacts.

Context {W : Type}.
Implicit Types (self : MatomoDataCoordinator W) (w : W) (e : exn).

Lemma for_each_raise {A S} (body : A -> S -> M W S) x xs (s : S) w e w' :
  body x s w = (Raise e, w') -> for_each (x :: xs) body s w = (Raise e, w').
Proof. intros H. cbn [for_each]. now apply bind_raise. Qed.

Lemma for_each_ok {A S} (body : A -> S -> M W S) x xs (s s1 : S) w w1 :
  body x s w = (Ok s1, w1) ->
  for_each (x :: xs) body s w = for_each xs body s1 w1.
Proof. intros H. cbn [for_each]. now apply bind_ok. Qed.

(** *** One period *)

Lemma fetch_period_ok self period site rest summary actions w w1 w2 :
  get_visit_summary (api self) (JInt (site_id self)) period "today" w
  = (Ok summary, w1) ->
  get_actions (api self) (JInt (site_id self)) period "today" w1
  = (Ok actions, w2) ->
  fetch_period self period (("site", JDict site) :: rest) w
  = (Ok (("site", JDict (dict_set period (JDict (merge_summary summary actions)) site))
         :: rest), w2).
Proof.
  intros Hs Ha. unfold fetch_period.
  rewrite (bind_ok _ _ _ _ _ Hs), (bind_ok _ _ _ _ _ Ha). reflexivity.
Qed.

Lemma fetch_period_raise_summary self period data w e w' :
  get_visit_summary (api self) (JInt (site_id self)) period "today" w
  = (Raise e, w') ->
  fetch_period self period data w = (Raise e, w').
Proof. intros H. unfold fetch_period. now apply bind_raise. Qed.

Lemma fetch_period_raise_actions self period data summary w w1 e w' :
  get_visit_summary (api self) (JInt (site_id self)) period "today" w
  = (Ok summary, w1) ->
  get_actions (api self) (JInt (site_id self)) period "today" w1
  = (Raise e, w') ->
  fetch_period self period data w = (Raise e, w').
Proof.
  intros Hs Ha. unfold fetch_period.
  rewrite (bind_ok _ _ _ _ _ Hs). now apply bind_raise.
Qed.

Lemma fetch_period_inv self period site rest w data' w' :
  fetch_period self period (("site", JDict site) :: rest) w = (Ok data', w') ->
  exists summary w1 actions,
    get_visit_summary (api self) (JInt (site_id self)) period "today" w
    = (Ok summary, w1)
    /\ get_actions (api self) (JInt (site_id self)) period "today" w1
       = (Ok actions, w')
    /\ data' = ("site", JDict (dict_set period (JDict (merge_summary summary actions)) site))
               :: rest.
Proof.
  unfold fetch_period. intros H.
  apply bind_ok_inv in H as [summary [w1 [Hs H]]].
  apply bind_ok_inv in H as [actions [w2 [Ha H]]].
  exists summary, w1, actions. cbn in H. inversion H; subst. auto.
Qed.

(** *** The site partition *)

Lemma fetch_site_ok self live agg w s1 a1 s2 a2 s3 a3 w' :
  all_return (load_bearing_fetches self) w [s1; a1; s2; a2; s3; a3] w' ->
  fetch_site self (snapshot_fields (JDict []) live agg) w
  = (Ok (snapshot_fields (site_partition s1 a1 s2 a2 s3 a3) live agg), w').
Proof.
  cbn [all_return load_bearing_fetches PERIODS flat_map app].
  intros [w1 [H1 [w2 [H2 [w3 [H3 [w4 [H4 [w5 [H5 [w6 [H6 ->]]]]]]]]]]]].
  unfold fetch_site, PERIODS, snapshot_fields.
  rewrite (for_each_ok _ _ _ _ _ _ _ (fetch_period_ok _ _ _ _ _ _ _ _ _ H1 H2)).
  rewrite (for_each_ok _ _ _ _ _ _ _ (fetch_period_ok _ _ _ _ _ _ _ _ _ H3 H4)).
  rewrite (for_each_ok _ _ _ _ _ _ _ (fetch_period_ok _ _ _ _ _ _ _ _ _ H5 H6)).
  reflexivity.
Qed.

Lemma fetch_site_fail self live agg w e w' :
  first_failure (load_bearing_fetches self) w e w' ->
  fetch_site self (snapshot_fields (JDict []) live agg) w = (Raise e, w').
Proof.
  cbn [load_bearing_fetches PERIODS flat_map app].
  unfold fetch_site, PERIODS, snapshot_fields. intros H.
  inversion H as [? ? ? ? ? H1 | ? ? ? s1 w1 ? ? H1 T1]; subst; clear H.
  { apply for_each_raise. now apply fetch_period_raise_summary. }
  inversion T1 as [? ? ? ? ? H2 | ? ? ? a1 w2 ? ? H2 T2]; subst; clear T1.
  { apply for_each_raise. now apply (fetch_period_raise_actions _ _ _ s1 _ w1). }
  rewrite (for_each_ok _ _ _ _ _ _ _ (fetch_period_ok _ _ _ _ _ _ _ _ _ H1 H2)).
  inversion T2 as [? ? ? ? ? H3 | ? ? ? s2 w3 ? ? H3 T3]; subst; clear T2.
  { apply for_each_raise. now apply fetch_period_raise_summary. }
  inversion T3 as [? ? ? ? ? H4 | ? ? ? a2 w4 ? ? H4 T4]; subst; clear T3.
  { apply for_each_raise. now apply (fetch_period_raise_actions _ _ _ s2 _ w3). }
  rewrite (for_each_ok _ _ _ _ _ _ _ (fetch_period_ok _ _ _ _ _ _ _ _ _ H3 H4)).
  inversion T4 as [? ? ? ? ? H5 | ? ? ? s3 w5 ? ? H5 T5]; subst; clear T4.
  { apply for_each_raise. now apply fetch_period_raise_summary. }
  inversion T5 as [? ? ? ? ? H6 | ? ? ? a3 w6 ? ? H6 T6]; subst; clear T5.
  { apply for_each_raise. now apply (fetch_period_raise_actions _ _ _ s3 _ w5). }
  inversion T6.
Qed.

Lemma fetch_site_inv self live agg w data w' :
  fetch_site self (snapshot_fields (JDict []) live agg) w = (Ok data, w') ->
  exists s1 a1 s2 a2 s3 a3,
    all_return (load_bearing_fetches self) w [s1; a1; s2; a2; s3; a3] w'
    /\ data = snapshot_fields (site_partition s1 a1 s2 a2 s3 a3) live agg.
Proof.
  unfold fetch_site, PERIODS, snapshot_fields. cbn [for_each]. intros H.
  apply bind_ok_inv in H as [d1 [w2 [P1 H]]].
  apply fetch_period_inv in P1 as [s1 [w1 [a1 [H1 [H2 ->]]]]].
  apply bind_ok_inv in H as [d2 [w4 [P2 H]]].
  apply fetch_period_inv in P2 as [s2 [w3 [a2 [H3 [H4 ->]]]]].
  apply bind_ok_inv in H as [d3 [w6 [P3 H]]].
  apply fetch_period_inv in P3 as [s3 [w5 [a3 [H5 [H6 ->]]]]].
  inversion H; subst.
  exists s1, a1, s2, a2, s3, a3. split; [| reflexivity].
  cbn [all_return load_bearing_fetches PERIODS flat_map app].
  repeat (eexists; split; [eassumption |]). reflexivity.
Qed.

(** A run of calls ends one way or the other. *)
Lemma calls_outcome (calls : list (M W json)) w :
  (exists results w', all_return calls w results w')
  \/ (exists e w', first_failure calls w e w').
Proof.
  revert w. induction calls as [| m ms IH]; intros w.
  - left. now exists [], w.
  - destruct (m w) as [[r | e] w1] eqn:Hm.
    + destruct (IH w1) as [[rs [w' H]] | [e [w' H]]].
      * left. exists (r :: rs), w'. cbn. eauto.
      * right. exists e, w'. now apply (failure_later _ _ _ r w1).
    + right. exists e, w1. now apply failure_here.
Qed.

(** *** The live partition *)

Lemma fetch_live_step self site live0 agg w live w' :
  live_step self w live w' ->
  fetch_live self (snapshot_fields site live0 agg) w
  = (Ok (snapshot_fields site live agg), w').
Proof.
  unfold fetch_live, live_fetch. intros H.
  destruct H as [w first rest w' H | w r w' H Hr | w e w' H He].
  - apply try_ok. now rewrite (bind_ok _ _ _ _ _ H).
  - apply try_ok. rewrite (bind_ok _ _ _ _ _ H).
    destruct r as [| | | | | [| first rest] |]; try reflexivity.
    now destruct (Hr first rest).
  - erewrite try_raise; [| apply bind_raise; exact H].
    cbv beta. now rewrite He.
Qed.

Lemma fetch_live_inv self site live0 agg w data w' :
  fetch_live self (snapshot_fields site live0 agg) w = (Ok data, w') ->
  exists live,
    live_step self w live w' /\ data = snapshot_fields site live agg.
Proof.
  unfold fetch_live. intros H.
  apply try_inv in H as [[d [H Hd]] | [e [w1 [H Hh]]]].
  - inversion Hd; subst d; clear Hd.
    apply bind_ok_inv in H as [r [w1 [Hr H]]].
    destruct r as [| | | | | [| first rest] |]; inversion H; subst;
      try (exists (JDict []); split; [| reflexivity];
           apply (live_nothing _ _ _ _ Hr); intros; discriminate).
    exists first. split; [| reflexivity]. now apply (live_counters _ _ _ rest).
  - apply bind_raise_inv in H as [H | [r [w2 [Hr H]]]].
    + destruct (isinstance e MatomoAPIError) eqn:He; inversion Hh; subst.
      exists (JDict []). split; [| reflexivity]. now apply (live_degraded _ _ e).
    + now destruct r as [| | | | | [| first rest] |].
Qed.

(** *** The aggregate partition *)

Lemma aggregate_period_ok self period site live agg a w w1 :
  get_all_sites_summary (api self) period "today" w = (Ok a, w1) ->
  aggregate_period self period (snapshot_fields site live (JDict agg)) w
  = (Ok (snapshot_fields site live (JDict (dict_set period a agg))), w1).
Proof.
  intros H. unfold aggregate_period. now rewrite (bind_ok _ _ _ _ _ H).
Qed.

Lemma aggregate_period_raise self period data w e w' :
  get_all_sites_summary (api self) period "today" w = (Raise e, w') ->
  aggregate_period self period data w = (Raise e, w').
Proof. intros H. unfold aggregate_period. now apply bind_raise. Qed.

Lemma aggregate_loop_ok self site live w a1 a2 a3 w' :
  all_return (aggregate_fetches self) w [a1; a2; a3] w' ->
  aggregate_loop self (snapshot_fields site live (JDict [])) w
  = (Ok (snapshot_fields site live
           (JDict [("day", a1); ("week", a2); ("month", a3)])), w').
Proof.
  cbn [all_return aggregate_fetches PERIODS map].
  intros [w1 [H1 [w2 [H2 [w3 [H3 ->]]]]]].
  unfold aggregate_loop, PERIODS.
  rewrite (for_each_ok _ _ _ _ _ _ _ (aggregate_period_ok _ _ _ _ _ _ _ _ H1)).
  rewrite (for_each_ok _ _ _ _ _ _ _ (aggregate_period_ok _ _ _ _ _ _ _ _ H2)).
  rewrite (for_each_ok _ _ _ _ _ _ _ (aggregate_period_ok _ _ _ _ _ _ _ _ H3)).
  reflexivity.
Qed.

Lemma aggregate_loop_fail self site live w e w' :
  first_failure (aggregate_fetches self) w e w' ->
  aggregate_loop self (snapshot_fields site live (JDict [])) w = (Raise e, w').
Proof.
  cbn [aggregate_fetches PERIODS map]. unfold aggregate_loop, PERIODS.
  intros H.
  inversion H as [? ? ? ? ? H1 | ? ? ? a1 w1 ? ? H1 T1]; subst; clear H.
  { apply for_each_raise. now apply aggregate_period_raise. }
  rewrite (for_each_ok _ _ _ _ _ _ _ (aggregate_period_ok _ _ _ _ _ _ _ _ H1)).
  inversion T1 as [? ? ? ? ? H2 | ? ? ? a2 w2 ? ? H2 T2]; subst; clear T1.
  { apply for_each_raise. now apply aggregate_period_raise. }
  rewrite (for_each_ok _ _ _ _ _ _ _ (aggregate_period_ok _ _ _ _ _ _ _ _ H2)).
  inversion T2 as [? ? ? ? ? H3 | ? ? ? a3 w3 ? ? H3 T3]; subst; clear T2.
  { apply for_each_raise. now apply aggregate_period_raise. }
  inversion T3.
Qed.

Lemma fetch_aggregate_step self site live w agg w' :
  aggregate_step self w agg w' ->
  fetch_aggregate self (snapshot_fields site live (JDict [])) w
  = (Ok (snapshot_fields site live agg), w').
Proof.
  unfold fetch_aggregate. intros H.
  destruct H as [w Hoff | w a1 a2 a3 w' Hon H | w e w' Hon H He].
  - now rewrite Hoff.
  - rewrite Hon. apply try_ok. now apply aggregate_loop_ok.
  - rewrite Hon. erewrite try_raise; [| apply aggregate_loop_fail; exact H].
    cbv beta. now rewrite He.
Qed.

Lemma fetch_aggregate_inv self site live w data w' :
  fetch_aggregate self (snapshot_fields site live (JDict [])) w = (Ok data, w') ->
  exists agg,
    aggregate_step self w agg w' /\ data = snapshot_fields site live agg.
Proof.
  unfold fetch_aggregate. intros H.
  destruct (include_aggregate self) eqn:Hon.
  - destruct (calls_outcome (aggregate_fetches self) w)
      as [[rs [w1 Hall]] | [e [w1 Hfail]]].
    + assert (exists a1 a2 a3, rs = [a1; a2; a3]) as [a1 [a2 [a3 ->]]].
      { cbn [aggregate_fetches PERIODS map] in Hall.
        destruct rs as [| a1 [| a2 [| a3 [| a4 rs]]]];
          cbn [all_return] in Hall.
        - contradiction.
        - now destruct Hall as [? [_ []]].
        - now destruct Hall as [? [_ [? [_ []]]]].
        - now exists a1, a2, a3.
        - now destruct Hall as [? [_ [? [_ [? [_ []]]]]]]. }
      rewrite (try_ok _ _ _ _ _ (aggregate_loop_ok _ site live _ _ _ _ _ Hall)) in H.
      inversion H; subst. eexists. split; [| reflexivity].
      now apply aggregate_complete.
    + rewrite (try_raise _ _ _ _ _ (aggregate_loop_fail _ site live _ _ _ Hfail)) in H.
      cbv beta in H.
      destruct (isinstance e MatomoAPIError) eqn:He; inversion H; subst.
      eexists. split; [| reflexivity]. now apply (aggregate_degraded _ _ e).
  - inversion H; subst. exists (JDict []). split; [| reflexivity].
    now apply aggregate_disabled.
Qed.

(** *** A whole cycle *)

Lemma update_ok self w s1 a1 s2 a2 s3 a3 w1 live w2 agg w3 :
  all_return (load_bearing_fetches self) w [s1; a1; s2; a2; s3; a3] w1 ->
  live_step self w1 live w2 ->
  aggregate_step self w2 agg w3 ->
  _async_update_data self w
  = (Ok (JDict (snapshot_fields (site_partition s1 a1 s2 a2 s3 a3) live agg)), w3).
Proof.
  intros Hsite Hlive Hagg. unfold _async_update_data. apply try_ok.
  change [("site", JDict []); ("live", JDict []); ("aggregate", JDict [])]
    with (snapshot_fields (JDict []) (JDict []) (JDict [])).
  rewrite (bind_ok _ _ _ _ _ (fetch_site_ok _ _ _ _ _ _ _ _ _ _ _ Hsite)).
  rewrite (bind_ok _ _ _ _ _ (fetch_live_step _ _ _ _ _ _ _ Hlive)).
  rewrite (bind_ok _ _ _ _ _ (fetch_aggregate_step _ _ _ _ _ _ Hagg)).
  reflexivity.
Qed.

Lemma update_inv self w snapshot w3 :
  _async_update_data self w = (Ok snapshot, w3) ->
  exists s1 a1 s2 a2 s3 a3 w1 live w2 agg,
    all_return (load_bearing_fetches self) w [s1; a1; s2; a2; s3; a3] w1
    /\ live_step self w1 live w2
    /\ aggregate_step self w2 agg w3
    /\ snapshot
       = JDict (snapshot_fields (site_partition s1 a1 s2 a2 s3 a3) live agg).
Proof.
  unfold _async_update_data. intros H.
  apply try_inv in H as [[d [H Hd]] | [e [w1 [_ Hh]]]].
  - inversion Hd; subst d; clear Hd.
    change [("site", JDict []); ("live", JDict []); ("aggregate", JDict [])]
      with (snapshot_fields (JDict []) (JDict []) (JDict [])) in H.
    apply bind_ok_inv in H as [d1 [w1 [Hsite H]]].
    apply fetch_site_inv in Hsite as [s1 [a1 [s2 [a2 [s3 [a3 [Hsite ->]]]]]]].
    apply bind_ok_inv in H as [d2 [w2 [Hlive H]]].
    apply fetch_live_inv in Hlive as [live [Hlive ->]].
    apply bind_ok_inv in H as [d3 [w3' [Hagg H]]].
    apply fetch_aggregate_inv in Hagg as [agg [Hagg ->]].
    inversion H; subst.
    exists s1, a1, s2, a2, s3, a3, w1, live, w2, agg. auto.
  - destruct (isinstance e MatomoAuthError); [discriminate |].
    destruct (isinstance e MatomoAPIError); [discriminate |].
    (* an exception let through is not a returned snapshot *)
    discriminate.
Qed.


Lemma all_return_not_failure (calls : list (M W json)) w rs w1 e w2 :
  all_return calls w rs w1 -> first_failure calls w e w2 -> False.
Proof.
  intros Hall Hfail. revert rs Hall.
  induction Hfail as [m ms w e w' Hm | m ms w r v e w' Hm _ IH]; intros rs Hall;
    destruct rs as [| r0 rs]; cbn in Hall; try contradiction;
    destruct Hall as [v0 [Hm0 Hall]]; rewrite Hm in Hm0.
  - discriminate.
  - inversion Hm0; subst. now apply (IH rs).
Qed.


(** C1, as the code has it.  When one of the six summary fetches of the
    tracked site raises, the cycle returns no Snapshot.  An error of the
    client (a [MatomoAuthError], or the [MatomoAPIError] that also wraps the
    transport failures [aiohttp] reports) becomes one [UpdateFailed] whose
    cause is that error; any other exception, such as the [TimeoutError] of a
    call that took too long, leaves the cycle as it is. *)
Theorem load_bearing_failure_aborts self w e w' :
  first_failure (load_bearing_fetches self) w e w' ->
  _async_update_data self w
  = (Raise (if isinstance e MatomoAPIError
            then Exn UpdateFailed (failure_text e) (Some e)
            else e), w')
  /\ forall snapshot w2, _async_update_data self w <> (Ok snapshot, w2).
Proof.
  intros Hfail.
  assert (H : _async_update_data self w
              = (Raise (if isinstance e MatomoAPIError
                        then Exn UpdateFailed (failure_text e) (Some e)
                        else e), w')).
  { unfold _async_update_data. erewrite try_raise.
    2:{ apply bind_raise.
        apply (fetch_site_fail self (JDict []) (JDict [])). exact Hfail. }
    cbv beta. unfold failure_text.
    destruct (isinstance e MatomoAPIError) eqn:He.
    - now destruct (isinstance e MatomoAuthError).
    - destruct (isinstance e MatomoAuthError) eqn:Ha; [| reflexivity].
      unfold isinstance in *. destruct (exn_class e); cbn in *; discriminate. }
  split; [exact H |]. intros snapshot w2. rewrite H. discriminate.
Qed.



(** C3.  A Snapshot returned by a cycle is a mapping with exactly the entries
    site, live and aggregate; site holds a mapping for each of day, week and
    month, and aggregate is a mapping.  With [w1] the state after the six
    summary fetches and [w2] the state after the live fetch: if the live fetch
    raised, live is the empty mapping, and if a wildcard fetch raised, or the
    aggregate option is off, aggregate is the empty mapping. *)
Theorem snapshot_fully_formed self w snapshot w' :
  _async_update_data self w = (Ok snapshot, w') ->
  exists day week month live aggregate w1 w2,
    snapshot
    = JDict [("site", JDict [("day", JDict day); ("week", JDict week);
                             ("month", JDict month)]);
             ("live", live);
             ("aggregate", JDict aggregate)]
    /\ (exists results, all_return (load_bearing_fetches self) w results w1)
    /\ snd (live_fetch self w1) = w2
    /\ (forall e, fst (live_fetch self w1) = Raise e -> live = JDict [])
    /\ (forall e w3, first_failure (aggregate_fetches self) w2 e w3 ->
        aggregate = [])
    /\ (include_aggregate self = false -> aggregate = []).
Proof.
  intros H.
  apply update_inv in H
    as [s1 [a1 [s2 [a2 [s3 [a3 [w1 [live [w2 [agg [Hs [Hl [Ha ->]]]]]]]]]]]]].
  assert (exists aggregate, agg = JDict aggregate) as [aggregate ->].
  { destruct Ha; eauto. }
  exists (merge_summary s1 a1), (merge_summary s2 a2), (merge_summary s3 a3),
    live, aggregate, w1, w2.
  split; [reflexivity |]. split; [eauto |].
  split; [| split; [| split]].
  - destruct Hl as [? ? ? ? H | ? ? ? H _ | ? ? ? H _]; now rewrite H.
  - intros e He.
    destruct Hl as [? ? ? ? H | ? ? ? H _ | ? ? ? H _];
      rewrite H in He; cbn in He; try discriminate; reflexivity.
  - intros e w3 Hfail. inversion Ha; subst; try reflexivity.
    exfalso. eapply all_return_not_failure; eassumption.
  - intros Hoff. inversion Ha; subst; try reflexivity; congruence.
Qed.


End CoordinatorFacts.

(** ** The metric extractors *)

Section UrlFacts.

Lemma string_app_assoc (a b c : string) : a ++ (b ++ c) = (a ++ b) ++ c.
Proof. induction a as [| x a IH]; simpl; [reflexivity | now rewrite IH]. Qed.

Lemma list_of_string_app a b :
  list_ascii_of_string (a ++ b)
  = (list_ascii_of_string a ++ list_ascii_of_string b)%list.
Proof. induction a as [| c a IH]; simpl; [reflexivity | now rewrite IH]. Qed.

Lemma string_of_list_app l1 l2 :
  string_of_list_ascii (l1 ++ l2)%list
  = string_of_list_ascii l1 ++ string_of_list_ascii l2.
Proof. induction l1 as [| c l1 IH]; simpl; [reflexivity | now rewrite IH]. Qed.

Lemma rev_string_app a b : rev_string (a ++ b) = rev_string b ++ rev_string a.
Proof.
  unfold rev_string. now rewrite list_of_string_app, rev_app_distr, string_of_list_app.
Qed.

Lemma rev_string_involutive s : rev_string (rev_string s) = s.
Proof.
  unfold rev_string.
  now rewrite list_ascii_of_string_of_list_ascii, rev_involutive,
    string_of_list_ascii_of_string.
Qed.

Lemma endswith_split s p :
  endswith s p = true <-> exists pre, s = pre ++ p.
Proof.
  unfold endswith. rewrite prefix_split. split.
  - intros [post H]. exists (rev_string post).
    rewrite <- (rev_string_involutive s), H, rev_string_app.
    now rewrite rev_string_involutive.
  - intros [pre ->]. exists (rev_string pre). apply rev_string_app.
Qed.

(** Nothing is stripped from a text that ends in a character to keep. *)
Lemma rstrip_by_kept p s c :
  p c = false -> rstrip_by p (s ++ String c "") = s ++ String c "".
Proof.
  intros Hc. unfold rstrip_by. rewrite rev_string_app.
  change (rev_string (String c "")) with (String c "").
  cbn [append lstrip_by]. rewrite Hc.
  change (String c (rev_string s)) with (rev_string (String c "") ++ rev_string s).
  now rewrite <- rev_string_app, rev_string_involutive.
Qed.

Lemma normalize_url_fixed url :
  endswith url "index.php" = true -> _normalize_url url = url.
Proof.
  intros H. pose proof H as H'. apply endswith_split in H' as [pre ->].
  unfold _normalize_url.
  assert (Hs : rstrip_by (Ascii.eqb "/") (pre ++ "index.php") = pre ++ "index.php").
  { change "index.php" with ("index.ph" ++ String "p" "").
    rewrite string_app_assoc. now apply rstrip_by_kept. }
  rewrite Hs, H. reflexivity.
Qed.

End UrlFacts.

Section SensorFacts.

Lemma dict_get_forallb {V} (check : V -> bool) k (d : dict V) v :
  forallb (fun kv => check (snd kv)) d = true ->
  dict_get k d = Some v -> check v = true.
Proof.
  induction d as [| [k' v'] d IH]; simpl; [discriminate |].
  intros Hall Hget. apply andb_true_iff in Hall as [Hv Hd].
  destruct (String.eqb k k').
  - now inversion Hget; subst.
  - now apply IH.
Qed.

Lemma int_or_none_reading v :
  metric_value_ok v = true -> Sensor.int_or_none v = Ok (reading (Some v)).
Proof.
  destruct v as [| b | z | f | | |]; try discriminate; intros Hv;
    try reflexivity.
  destruct f; try discriminate; try reflexivity.
  unfold Sensor.int_or_none, py_int, rbind. now rewrite int_of_float_finite.
Qed.

(** Reading a key of a mapping of metrics. *)
Lemma read_metrics m key :
  metrics_ok (JDict m) = true ->
  (val <~ py_get (JDict m) key JNull ;; Sensor.int_or_none val)
  = Ok (reading (dict_get key m)).
Proof.
  intros Hm. cbn [py_get rbind]. unfold dict_get_default.
  destruct (dict_get key m) as [v |] eqn:Hget; [| reflexivity].
  apply int_or_none_reading.
  now apply (dict_get_forallb metric_value_ok key m).
Qed.

Lemma read_one_level d part key :
  partition_ok metrics_ok (dict_get part d) = true ->
  (p <~ py_get (JDict d) part (JDict []) ;;
   val <~ py_get p key JNull ;;
   Sensor.int_or_none val)
  = Ok (reading (at_path1 part key (JDict d))).
Proof.
  intros Hp. cbn [py_get rbind at_path1]. unfold dict_get_default.
  destruct (dict_get part d) as [p |]; [| reflexivity].
  cbn in Hp. destruct p; try discriminate. now apply read_metrics.
Qed.

Lemma read_two_levels d part period key :
  partition_ok periods_ok (dict_get part d) = true ->
  (p <~ py_get (JDict d) part (JDict []) ;;
   per <~ py_get p period (JDict []) ;;
   val <~ py_get per key JNull ;;
   Sensor.int_or_none val)
  = Ok (reading (at_path2 part period key (JDict d))).
Proof.
  intros Hp. cbn [py_get rbind at_path2]. unfold dict_get_default at 1.
  destruct (dict_get part d) as [p |]; [| reflexivity].
  cbn in Hp. destruct p as [| | | | | | periods]; try discriminate.
  cbn [py_get rbind]. unfold dict_get_default at 1.
  destruct (dict_get period periods) as [m |] eqn:Hget; [| reflexivity].
  pose proof (dict_get_forallb metrics_ok period periods m Hp Hget) as Hm.
  destruct m; try discriminate. now apply read_metrics.
Qed.

(** *** Literals *)

Lemma digit_val_char c d : In (c, d) digit_chars -> digit_val c = Some d.
Proof.
  cbn. intros H.
  repeat (destruct H as [H | H]; [inversion H; subst; reflexivity |]).
  destruct H.
Qed.

Lemma digit_char_kept c d : In (c, d) digit_chars -> int_blank c = false.
Proof.
  cbn. intros H.
  repeat (destruct H as [H | H]; [inversion H; subst; reflexivity |]).
  destruct H.
Qed.

Lemma literal_blank_skipped c : In c literal_blanks -> int_blank c = true.
Proof.
  cbn. intros H.
  repeat (destruct H as [<- | H]; [reflexivity |]). destruct H.
Qed.

(** The parser computes the number the digits write, by Horner's rule. *)
Lemma parse_writes body ds :
  writes body ds ->
  forall acc b,
    parse_digits body acc b
    = Some (acc * 10 ^ Z.of_nat (List.length ds) + positional ds).
Proof.
  induction 1 as [c d Hc | c d body ds Hc _ IH | c d body ds Hc _ IH];
    intros acc b; cbn [parse_digits]; rewrite (digit_val_char c d Hc).
  - cbn [parse_digits positional List.length].
    change (Z.of_nat 1) with 1. change (Z.of_nat 0) with 0.
    rewrite Z.pow_1_r, Z.pow_0_r. f_equal. lia.
  - rewrite IH. cbn [positional List.length]. f_equal.
    rewrite Nat2Z.inj_succ, Z.pow_succ_r by lia. ring.
  - cbn [parse_digits]. change (digit_val "_") with (@None Z).
    cbv beta iota. change (Ascii.eqb "_" "_" && true) with true.
    cbv beta iota. rewrite IH. cbn [positional List.length]. f_equal.
    rewrite Nat2Z.inj_succ, Z.pow_succ_r by lia. ring.
Qed.

(** Digits begin and end with a digit. *)
Lemma writes_ends body ds :
  writes body ds ->
  (exists c r, body = String c r /\ exists d, In (c, d) digit_chars)
  /\ exists s c, body = s ++ String c "" /\ int_blank c = false.
Proof.
  induction 1 as [c d Hc | c d body ds Hc _ [_ IH] | c d body ds Hc _ [_ IH]].
  - split; [now exists c, ""; split; [| exists d] |].
    exists "", c. split; [reflexivity | now apply (digit_char_kept c d)].
  - split; [now exists c, body; split; [| exists d] |].
    destruct IH as [s [c' [-> Hc']]]. now exists (String c s), c'.
  - split; [now exists c, (String "_" body); split; [| exists d] |].
    destruct IH as [s [c' [-> Hc']]].
    now exists (String c (String "_" s)), c'.
Qed.

Lemma lstrip_blanks lead t :
  Forall (fun c => In c literal_blanks) (list_ascii_of_string lead) ->
  lstrip_by int_blank (lead ++ t) = lstrip_by int_blank t.
Proof.
  induction lead as [| c lead IH]; cbn [list_ascii_of_string]; intros H;
    [reflexivity |].
  inversion H as [| ? ? Hc Hl]; subst. cbn [append lstrip_by].
  rewrite (literal_blank_skipped c Hc). now apply IH.
Qed.

Lemma rev_blanks trail :
  Forall (fun c => In c literal_blanks) (list_ascii_of_string trail) ->
  Forall (fun c => In c literal_blanks)
    (list_ascii_of_string (rev_string trail)).
Proof.
  intros H. unfold rev_string. rewrite list_ascii_of_string_of_list_ascii.
  now apply Forall_rev.
Qed.

(** What is left of a literal once its blanks are skipped. *)
Lemma literal_stripped lead c0 r s c trail :
  Forall (fun c => In c literal_blanks) (list_ascii_of_string lead) ->
  Forall (fun c => In c literal_blanks) (list_ascii_of_string trail) ->
  String c0 r = s ++ String c "" ->
  int_blank c0 = false -> int_blank c = false ->
  rstrip_by int_blank (lstrip_by int_blank (lead ++ String c0 r ++ trail))
  = String c0 r.
Proof.
  intros Hlead Htrail Hcore H0 Hc.
  rewrite (lstrip_blanks lead _ Hlead). cbn [append lstrip_by]. rewrite H0.
  change (String c0 (r ++ trail)) with (String c0 r ++ trail).
  unfold rstrip_by. rewrite rev_string_app.
  rewrite (lstrip_blanks _ _ (rev_blanks trail Htrail)).
  rewrite Hcore, rev_string_app.
  change (rev_string (String c "")) with (String c "").
  cbn [append lstrip_by]. rewrite Hc.
  change (String c (rev_string s)) with (rev_string (String c "") ++ rev_string s).
  now rewrite <- rev_string_app, rev_string_involutive.
Qed.

(** [int()] reads every literal as the integer it writes. *)
Lemma literal_read s z : integer_literal s z -> int_of_str s = Some z.
Proof.
  intros (lead & sign & body & trail & ds & -> & Hlead & Htrail & Hw & _ & Hz).
  pose proof (parse_writes body ds Hw 0 false) as Hparse.
  rewrite Z.mul_0_l, Z.add_0_l in Hparse.
  destruct (writes_ends body ds Hw)
    as [(c0 & r & Hbody & d0 & Hd0) (s & c & Hend & Hc)].
  unfold int_of_str.
  destruct Hz as [[[-> | ->] ->] | [-> ->]].
  - cbn [append]. subst body.
    rewrite (literal_stripped lead c0 r s c trail Hlead Htrail Hend
               (digit_char_kept c0 d0 Hd0) Hc).
    cbn in Hd0.
    repeat (destruct Hd0 as [Hd0 | Hd0];
            [inversion Hd0; subst c0 d0; exact Hparse |]).
    destruct Hd0.
  - change ("+" ++ body ++ trail) with (String "+" body ++ trail).
    rewrite (literal_stripped lead "+" body (String "+" s) c trail Hlead Htrail);
      [exact Hparse | now rewrite Hend | reflexivity | exact Hc].
  - change ("-" ++ body ++ trail) with (String "-" body ++ trail).
    rewrite (literal_stripped lead "-" body (String "-" s) c trail Hlead Htrail);
      [cbv beta iota; now rewrite Hparse | now rewrite Hend | reflexivity
      | exact Hc].
Qed.

(** *** Selectors *)

(** [int(val) if val is not None else None], for a value that is there. *)
Lemma int_or_none_selects v :
  v <> JNull -> selects (Sensor.int_or_none v) (Some v).
Proof.
  intros Hv. destruct v as [| b | n | f | s | l | d]; [congruence | ..];
    cbn [selects]; unfold Sensor.int_or_none, rbind.
  - repeat split; [now intros z -> | discriminate | discriminate].
  - repeat split; [now intros z -> | discriminate | discriminate].
  - cbn [py_int]. destruct f as [sg | sg | | sg m e].
    + split; [| split]; [now intros z [_ ->] | discriminate | discriminate].
    + split; [| split]; [now intros z [Hf _] | now intros e _ | discriminate].
    + split; [| split]; [now intros z [Hf _] | now intros e _ | discriminate].
    + rewrite int_of_float_finite.
      split; [| split]; [now intros z [_ ->] | discriminate | discriminate].
  - cbn [py_int]. destruct (int_of_str s) as [n |] eqn:E.
    + repeat split; [| discriminate | discriminate].
      intros z Hz. apply literal_read in Hz. congruence.
    + repeat split; [| | discriminate].
      * intros z Hz. apply literal_read in Hz. congruence.
      * intros e _ z Hz. apply literal_read in Hz. congruence.
  - repeat split; [now intros z [] | discriminate].
  - repeat split; [now intros z [] | discriminate].
Qed.

Lemma int_or_none_at value :
  selects (match value with
           | Some v => Sensor.int_or_none v
           | None => Ok None
           end) value.
Proof.
  destruct value as [v |]; [| reflexivity].
  destruct v; try (apply int_or_none_selects; discriminate). reflexivity.
Qed.

Lemma get_metric m key :
  (val <~ py_get (JDict m) key JNull ;; Sensor.int_or_none val)
  = match dict_get key m with
    | Some v => Sensor.int_or_none v
    | None => Ok None
    end.
Proof.
  cbn [py_get rbind]. unfold dict_get_default. now destruct (dict_get key m).
Qed.

Lemma select_one_level d part key :
  partition_ok is_dict (dict_get part d) = true ->
  selects (p <~ py_get (JDict d) part (JDict []) ;;
           val <~ py_get p key JNull ;;
           Sensor.int_or_none val)
    (at_path1 part key (JDict d)).
Proof.
  intros Hp. cbn [py_get at_path1]. unfold dict_get_default at 1.
  destruct (dict_get part d) as [p |]; [| reflexivity].
  cbn in Hp. destruct p as [| | | | | | m]; try discriminate.
  cbn [rbind]. rewrite get_metric. apply int_or_none_at.
Qed.

Lemma select_two_levels d part period key :
  partition_ok periods_shaped (dict_get part d) = true ->
  selects (p <~ py_get (JDict d) part (JDict []) ;;
           per <~ py_get p period (JDict []) ;;
           val <~ py_get per key JNull ;;
           Sensor.int_or_none val)
    (at_path2 part period key (JDict d)).
Proof.
  intros Hp. cbn [py_get at_path2]. unfold dict_get_default at 1.
  destruct (dict_get part d) as [p |]; [| reflexivity].
  cbn in Hp. destruct p as [| | | | | | periods]; try discriminate.
  cbn [py_get rbind]. unfold dict_get_default at 1.
  destruct (dict_get period periods) as [m |] eqn:Hget; [| reflexivity].
  pose proof (dict_get_forallb is_dict period periods m Hp Hget) as Hm.
  destruct m as [| | | | | | m]; try discriminate.
  rewrite get_metric. apply int_or_none_at.
Qed.

(** C6, as the code has it.  On a Snapshot whose partitions, where present,
    are mappings, each selector answers for what its path holds: absent when
    the partition, the period or the key is missing or the value is [None],
    and then only; the integer part of a number; the integer a text writes
    when it is a decimal literal; and it raises only for a value [int()]
    refuses: a text that is no literal, a float that is NaN or infinite, a
    list or a mapping. *)
Theorem selectors_read_snapshot data period key :
  snapshot_shaped data = true ->
  selects (Sensor._site_value period key data)
    (at_path2 "site" period key data)
  /\ selects (Sensor._live_value key data) (at_path1 "live" key data)
  /\ selects (Sensor._aggregate_value period key data)
       (at_path2 "aggregate" period key data).
Proof.
  destruct data as [| | | | | | d]; try discriminate.
  unfold snapshot_shaped. rewrite !andb_true_iff. intros [[Hs Hl] Ha].
  repeat split.
  - now apply select_two_levels.
  - now apply select_one_level.
  - now apply select_two_levels.
Qed.

End SensorFacts.

(** ** Concrete exchanges *)

Section Runs.

Import Script.


(** Section 8 of the specification, end to end: site 7, one day. *)
Example end_to_end_scenario :
  exists snapshot,
    _async_update_data (coordinator false)
      (map ok200 ["visits"; "actions"; "[]"; "[]"; "[]"; "[]"; "live"])
    = (Ok snapshot, [])
    /\ site_entry snapshot "day"
       = Some (JDict [("nb_uniq_visitors", JInt 12); ("nb_visits", JInt 20);
                      ("nb_pageviews", JInt 45); ("nb_actions", JInt 50)])
    /\ Sensor._site_value "day" "nb_pageviews" snapshot = Ok (Some 45)
    /\ Sensor._live_value "visits" snapshot = Ok (Some 3).
Proof. eexists. split; [reflexivity |]. repeat split. Qed.

Example invalid_token_is_auth_error :
  _request client "VisitsSummary.get" [] [ok200 "bad token"]
  = (Raise (Exn MatomoAuthError "Invalid token_auth" None), []).
Proof. reflexivity. Qed.

Example unknown_parameter_is_api_error :
  _request client "VisitsSummary.get" [] [ok200 "bad call"]
  = (Raise (Exn MatomoAPIError "Unknown parameter" None), []).
Proof. reflexivity. Qed.

(** A status below 400 is no error for [raise_for_status]: the body is read. *)
Example status_below_400_is_read :
  _request client "VisitsSummary.get" []
    [Ok {| status := 304; text := Ok "visits"; status_error := "304" |}]
  = (Ok visits, []).
Proof. reflexivity. Qed.

(** The connection fails: the script has no answer left. *)
Example connection_failure_is_api_error :
  _request client "VisitsSummary.get" [] []
  = (Raise (Exn MatomoAPIError
              "Error communicating with Matomo: Cannot connect to host"
              (Some (Exn ClientError "Cannot connect to host" None))), []).
Proof.
  apply (request_client_error client "VisitsSummary.get" [] []
           (Exn ClientError "Cannot connect to host" None) []);
    reflexivity.
Qed.

(** An exception of the session outside aiohttp's hierarchy is let through. *)
Example foreign_exception_is_let_through :
  _request client "VisitsSummary.get" []
    [Raise (Exn (OtherError "TimeoutError") "" None)]
  = (Raise (Exn (OtherError "TimeoutError") "" None), []).
Proof. reflexivity. Qed.

Example doctype_is_api_error :
  exists msg,
    _request client "API.getMatomoVersion" [] [ok200 "  <!DOCTYPE html><html>"]
    = (Raise (Exn MatomoAPIError msg None), []).
Proof. eexists. reflexivity. Qed.


(** A 401 on the first summary call; a 500 on the fourth; a call that takes
    too long on the second. *)
Lemma load_bearing_failure_aborts_witness :
  (_async_update_data (coordinator true) [failed 401 ""]
   = (Raise (Exn UpdateFailed
               "Authentication failed: Invalid authentication token (HTTP 401)"
               (Some (Exn MatomoAuthError "Invalid authentication token (HTTP 401)"
                        None))), [])
   /\ forall snapshot w2,
       _async_update_data (coordinator true) [failed 401 ""] <> (Ok snapshot, w2))
  /\ (_async_update_data (coordinator true)
        [ok200 "visits"; ok200 "actions"; ok200 "visits"; failed 500 "500"; ok200 "[]"]
      = (Raise (Exn UpdateFailed
                  "Error fetching Matomo data: Error communicating with Matomo: 500"
                  (Some (Exn MatomoAPIError "Error communicating with Matomo: 500"
                           (Some (Exn ClientResponseError "500" None))))),
         [ok200 "[]"])
      /\ forall snapshot w2,
          _async_update_data (coordinator true)
            [ok200 "visits"; ok200 "actions"; ok200 "visits"; failed 500 "500";
             ok200 "[]"]
          <> (Ok snapshot, w2))
  /\ (_async_update_data (coordinator true)
        [ok200 "visits"; Raise (Exn (OtherError "TimeoutError") "" None);
         ok200 "visits"]
      = (Raise (Exn (OtherError "TimeoutError") "" None), [ok200 "visits"])
      /\ forall snapshot w2,
          _async_update_data (coordinator true)
            [ok200 "visits"; Raise (Exn (OtherError "TimeoutError") "" None);
             ok200 "visits"]
          <> (Ok snapshot, w2)).
Proof.
  split; [| split].
  - apply (load_bearing_failure_aborts (coordinator true) [failed 401 ""]
             (Exn MatomoAuthError "Invalid authentication token (HTTP 401)" None) []).
    apply failure_here. reflexivity.
  - apply (load_bearing_failure_aborts (coordinator true)
             [ok200 "visits"; ok200 "actions"; ok200 "visits"; failed 500 "500";
              ok200 "[]"]
             (Exn MatomoAPIError "Error communicating with Matomo: 500"
                (Some (Exn ClientResponseError "500" None)))
             [ok200 "[]"]).
    cbn [load_bearing_fetches flat_map app PERIODS].
    eapply failure_later; [reflexivity |].
    eapply failure_later; [reflexivity |].
    eapply failure_later; [reflexivity |].
    apply failure_here. reflexivity.
  - apply (load_bearing_failure_aborts (coordinator true)
             [ok200 "visits"; Raise (Exn (OtherError "TimeoutError") "" None);
              ok200 "visits"]
             (Exn (OtherError "TimeoutError") "" None)
             [ok200 "visits"]).
    cbn [load_bearing_fetches flat_map app PERIODS].
    eapply failure_later; [reflexivity |].
    apply failure_here. reflexivity.
Defined.

(** C1, the claim as stated: the first summary call takes too long, a
    transport failure of the specification.  The fetch raises the
    [TimeoutError] and the cycle raises it as it is: no [UpdateFailed], and
    nothing that carries the error as its cause. *)
Lemma timeout_leaves_the_cycle_unwrapped :
  first_failure (load_bearing_fetches (coordinator true))
    [Raise (Exn (OtherError "TimeoutError") "" None)]
    (Exn (OtherError "TimeoutError") "" None) []
  /\ _async_update_data (coordinator true)
       [Raise (Exn (OtherError "TimeoutError") "" None)]
     = (Raise (Exn (OtherError "TimeoutError") "" None), [])
  /\ forall msg,
      _async_update_data (coordinator true)
        [Raise (Exn (OtherError "TimeoutError") "" None)]
      <> (Raise (Exn UpdateFailed msg
                   (Some (Exn (OtherError "TimeoutError") "" None))), []).
Proof.
  split; [| split].
  - apply failure_here. reflexivity.
  - reflexivity.
  - intros msg. discriminate.
Qed.



(** A cycle whose live fetch and last wildcard fetch fail. *)
Lemma snapshot_fully_formed_witness :
  exists day week month live aggregate w1 w2,
    degraded_snapshot
    = JDict [("site", JDict [("day", JDict day); ("week", JDict week);
                             ("month", JDict month)]);
             ("live", live);
             ("aggregate", JDict aggregate)]
    /\ (exists results,
          all_return (load_bearing_fetches (coordinator true)) degraded_cycle
            results w1)
    /\ snd (live_fetch (coordinator true) w1) = w2
    /\ (forall e, fst (live_fetch (coordinator true) w1) = Raise e ->
        live = JDict [])
    /\ (forall e w3,
          first_failure (aggregate_fetches (coordinator true)) w2 e w3 ->
          aggregate = [])
    /\ (include_aggregate (coordinator true) = false -> aggregate = []).
Proof.
  apply (snapshot_fully_formed (coordinator true) degraded_cycle
           degraded_snapshot []).
  reflexivity.
Defined.


(** Two sites in the visit summary, none in the actions summary. *)
Lemma all_sites_summary_sums_witness :
  exists totals,
    get_all_sites_summary client "day" "today" [ok200 "sites"; ok200 "{}"]
    = (Ok (JDict totals), [])
    /\ dict_get "nb_visits" totals = Some (JInt 8)
    /\ dict_get "nb_pageviews" totals = None.
Proof.
  destruct (all_sites_summary_sums client "day" "today"
              [ok200 "sites"; ok200 "{}"] sites [ok200 "{}"] (JDict []) []
              eq_refl eq_refl eq_refl eq_refl) as [totals [Hrun Hget]].
  exists totals. split; [exact Hrun |].
  split; rewrite Hget; reflexivity.
Defined.

(** C5, the claim as stated: the two sites in both responses give 16. *)
Lemma both_responses_are_added :
  exists totals,
    get_all_sites_summary client "day" "today" [ok200 "sites"; ok200 "sites"]
    = (Ok (JDict totals), [])
    /\ dict_get "nb_visits" totals = Some (JInt 16)
    /\ dict_get "nb_visits" totals <> Some (JInt 8).
Proof.
  exists [("nb_visits", JInt 16)]. repeat split. discriminate.
Qed.

(** Picks an entry of a table. *)
Ltac pick_entry := vm_compute; repeat first [now left | right].

(** A float of -2.75, counts written as text, an integer, a [None], a
    missing period and a missing key; the percentage, on which the selector
    raises; a zero, and a missing partition. *)
Lemma selectors_read_snapshot_witness :
  snapshot_shaped Samples.mixed_snapshot = true
  /\ Sensor._site_value "day" "nb_visits" Samples.mixed_snapshot = Ok (Some (-2))
  /\ Sensor._live_value "visits" Samples.mixed_snapshot = Ok (Some 3)
  /\ Sensor._live_value "visitors" Samples.mixed_snapshot = Ok (Some (-1250))
  /\ Sensor._aggregate_value "day" "nb_visits" Samples.mixed_snapshot
     = Ok (Some 8)
  /\ Sensor._site_value "day" "nb_actions" Samples.mixed_snapshot = Ok None
  /\ Sensor._site_value "week" "nb_visits" Samples.mixed_snapshot = Ok None
  /\ Sensor._live_value "nb_visits" Samples.mixed_snapshot = Ok None
  /\ (Sensor._site_value "day" "bounce_rate" Samples.mixed_snapshot
      = Raise (Exn ValueError "invalid literal for int() with base 10" None)
      -> forall z, ~ integer_literal "50%" z)
  /\ Sensor._live_value "visitors" sample_snapshot = Ok (Some 0)
  /\ Sensor._aggregate_value "day" "nb_visits" sample_snapshot = Ok None.
Proof.
  split; [reflexivity |].
  split.
  { apply (proj1 (proj1 (selectors_read_snapshot Samples.mixed_snapshot
                           "day" "nb_visits" eq_refl))).
    split; reflexivity. }
  split.
  { apply (proj1 (proj1 (proj2 (selectors_read_snapshot Samples.mixed_snapshot
                                  "day" "visits" eq_refl)))).
    exists "", "", "3", "", [3].
    split; [reflexivity |].
    split; [constructor |].
    split; [constructor |].
    split; [apply writes_last; pick_entry |].
    split; [cbn [List.length]; lia |].
    left. split; [now left | reflexivity]. }
  split.
  { apply (proj1 (proj1 (proj2 (selectors_read_snapshot Samples.mixed_snapshot
                                  "day" "visitors" eq_refl)))).
    exists " ", "-", "1_250", " ", [1; 2; 5; 0].
    split; [reflexivity |].
    split; [apply Forall_cons; [pick_entry | apply Forall_nil] |].
    split; [apply Forall_cons; [pick_entry | apply Forall_nil] |].
    split.
    { apply writes_grouped; [pick_entry |].
      apply writes_next; [pick_entry |].
      apply writes_next; [pick_entry |].
      apply writes_last. pick_entry. }
    split; [cbn [List.length]; lia |].
    right. split; reflexivity. }
  split.
  { apply (proj1 (proj2 (proj2 (selectors_read_snapshot Samples.mixed_snapshot
                                  "day" "nb_visits" eq_refl)))).
    reflexivity. }
  split.
  { exact (proj1 (selectors_read_snapshot Samples.mixed_snapshot
                    "day" "nb_actions" eq_refl)). }
  split.
  { exact (proj1 (selectors_read_snapshot Samples.mixed_snapshot
                    "week" "nb_visits" eq_refl)). }
  split.
  { exact (proj1 (proj2 (selectors_read_snapshot Samples.mixed_snapshot
                           "day" "nb_visits" eq_refl))). }
  split.
  { exact (proj1 (proj2 (proj1 (selectors_read_snapshot Samples.mixed_snapshot
                                  "day" "bounce_rate" eq_refl)))
             (Exn ValueError "invalid literal for int() with base 10" None)). }
  split.
  { apply (proj1 (proj1 (proj2 (selectors_read_snapshot sample_snapshot
                                  "day" "visitors" eq_refl)))).
    reflexivity. }
  exact (proj2 (proj2 (selectors_read_snapshot sample_snapshot
                         "day" "nb_visits" eq_refl))).
Defined.

(** C6, the claim as stated: a cycle stores the percentage the API sent as
    text, and the selector of that key raises.  So do the selectors of a
    float that is infinite and of a list, and the selector of a partition
    that is no mapping. *)
Lemma selector_raises_on_text :
  (exists snapshot,
      _async_update_data (coordinator false)
        (map ok200 ["rates"; "actions"; "[]"; "[]"; "[]"; "[]"; "live"])
      = (Ok snapshot, [])
      /\ at_path2 "site" "day" "bounce_rate" snapshot = Some (JStr "50%")
      /\ Sensor._site_value "day" "bounce_rate" snapshot
         = Raise (Exn ValueError "invalid literal for int() with base 10" None))
  /\ Sensor._site_value "day" "nb_visits" Samples.odd_snapshot
     = Raise (Exn OverflowError "cannot convert float infinity to integer" None)
  /\ Sensor._site_value "day" "nb_actions" Samples.odd_snapshot
     = Raise (Exn TypeError
                "int() argument must be a string, a bytes-like object or a real number"
                None)
  /\ Sensor._live_value "visits" Samples.odd_snapshot
     = Raise (Exn AttributeError "object has no attribute 'get'" None).
Proof.
  split; [| repeat split].
  eexists. split; [reflexivity |]. split; reflexivity.
Qed.

(** The two messages of section 8, a message in capitals, and an envelope
    without a message. *)
Lemma error_envelope_classified_witness :
  (exists cls,
      _request client "VisitsSummary.get" [] [ok200 "bad token"]
      = (Raise (Exn cls "Invalid token_auth" None), [])
      /\ (cls = MatomoAuthError \/ cls = MatomoAPIError)
      /\ (cls = MatomoAuthError <-> mentions_credentials "Invalid token_auth"))
  /\ (exists cls,
        _request client "VisitsSummary.get" [] [ok200 "bad call"]
        = (Raise (Exn cls "Unknown parameter" None), [])
        /\ (cls = MatomoAuthError \/ cls = MatomoAPIError)
        /\ (cls = MatomoAuthError <-> mentions_credentials "Unknown parameter"))
  /\ (exists cls,
        _request Samples.client "VisitsSummary.get" [] [ok200 "capitals"]
        = (Raise (Exn cls "ACCESS Denied" None), [])
        /\ (cls = MatomoAuthError \/ cls = MatomoAPIError)
        /\ (cls = MatomoAuthError <-> mentions_credentials "ACCESS Denied"))
  /\ (exists cls,
        _request Samples.client "VisitsSummary.get" [] [ok200 "no message"]
        = (Raise (Exn cls "Unknown Matomo API error" None), [])
        /\ (cls = MatomoAuthError \/ cls = MatomoAPIError)
        /\ (cls = MatomoAuthError
            <-> mentions_credentials "Unknown Matomo API error"))
  /\ (exists e,
        _request Samples.client "VisitsSummary.get" [] [ok200 "null message"]
        = (Raise e, [])
        /\ exn_class e = AttributeError
        /\ isinstance e MatomoAPIError = false).
Proof.
  split; [| split; [| split; [| split]]].
  - apply (error_envelope_classified client "VisitsSummary.get" []
             [ok200 "bad token"] []
             [("result", JStr "error"); ("message", JStr "Invalid token_auth")]);
      reflexivity.
  - apply (error_envelope_classified client "VisitsSummary.get" []
             [ok200 "bad call"] []
             [("result", JStr "error"); ("message", JStr "Unknown parameter")]);
      reflexivity.
  - apply (error_envelope_classified Samples.client "VisitsSummary.get" []
             [ok200 "capitals"] []
             [("result", JStr "error"); ("message", JStr "ACCESS Denied")]);
      reflexivity.
  - apply (error_envelope_classified Samples.client "VisitsSummary.get" []
             [ok200 "no message"] []
             [("result", JStr "error")]);
      reflexivity.
  - apply (error_envelope_classified Samples.client "VisitsSummary.get" []
             [ok200 "null message"] []
             [("result", JStr "error"); ("message", JNull)]);
      reflexivity.
Defined.

(** The capitals are read as letters, and the stock text names no
    credential. *)
Example capitals_are_an_auth_error :
  _request Samples.client "VisitsSummary.get" [] [ok200 "capitals"]
  = (Raise (Exn MatomoAuthError "ACCESS Denied" None), [])
  /\ _request Samples.client "VisitsSummary.get" [] [ok200 "no message"]
     = (Raise (Exn MatomoAPIError "Unknown Matomo API error" None), []).
Proof. split; reflexivity. Qed.

(** C7, the claim as stated: an error envelope whose message is [null] makes
    the client raise an [AttributeError], which is neither an AuthError nor
    an ApplicationError and carries no message of the server. *)
Lemma null_message_is_of_neither_kind :
  dict_get "result" [("result", JStr "error"); ("message", JNull)]
  = Some (JStr "error")
  /\ post_and_decode Samples.client "VisitsSummary.get" [] [ok200 "null message"]
     = (Ok (JDict [("result", JStr "error"); ("message", JNull)]), [])
  /\ _request Samples.client "VisitsSummary.get" [] [ok200 "null message"]
     = (Raise (Exn AttributeError "object has no attribute 'lower'" None), [])
  /\ isinstance (Exn AttributeError "object has no attribute 'lower'" None)
       MatomoAuthError = false
  /\ isinstance (Exn AttributeError "object has no attribute 'lower'" None)
       MatomoAPIError = false.
Proof. repeat split. Qed.

(** The API answers [[]] to both summary calls. *)
Lemma empty_summary_is_empty_mapping_witness :
  get_visit_summary client (JInt 7) "day" "today" [ok200 "[]"]
  = (Ok (JDict []), [])
  /\ get_actions client (JInt 7) "day" "today" [ok200 "[]"]
     = (Ok (JDict []), []).
Proof.
  split.
  - apply (proj1 (empty_summary_is_empty_mapping client (JInt 7) "day" "today"
                    [ok200 "[]"] [])).
    reflexivity.
  - apply (proj2 (empty_summary_is_empty_mapping client (JInt 7) "day" "today"
                    [ok200 "[]"] [])).
    reflexivity.
Defined.

(** A 500 with a body, a 502 whose body is in an encoding Python does not
    know, and a 503 whose body stops short. *)
Lemma client_error_kinds_witness :
  (exists e,
      _request client "VisitsSummary.get" [] [failed 500 "500"] = (Raise e, [])
      /\ exn_class e = MatomoAPIError
      /\ exn_cause e = Some (Exn ClientResponseError "500" None)
      /\ forall msg, same_kind e (Exn MatomoAPIError msg None))
  /\ _request client "VisitsSummary.get" []
       [Ok {| status := 502;
              text := Raise (Exn (OtherError "LookupError")
                               "unknown encoding: x-none" None);
              status_error := "502" |}]
     = (Raise (Exn (OtherError "LookupError") "unknown encoding: x-none" None),
        [])
  /\ _request client "VisitsSummary.get" []
       [Ok {| status := 503;
              text := Raise (Exn ClientError "Response payload is not completed"
                               None);
              status_error := "503" |}]
     = (Raise (Exn MatomoAPIError
                 "Error communicating with Matomo: Response payload is not completed"
                 (Some (Exn ClientError "Response payload is not completed"
                          None))),
        []).
Proof.
  split; [| split].
  - apply (proj1 (client_error_kinds client "VisitsSummary.get" []
                    [failed 500 "500"])
             {| status := 500; text := Ok ""; status_error := "500" |} []).
    + reflexivity.
    + vm_compute. discriminate.
    + vm_compute. discriminate.
  - apply (proj1 (client_error_kinds client "VisitsSummary.get" [] _)
             {| status := 502;
                text := Raise (Exn (OtherError "LookupError")
                                 "unknown encoding: x-none" None);
                status_error := "502" |} []).
    + reflexivity.
    + vm_compute. discriminate.
    + vm_compute. discriminate.
  - apply (proj1 (client_error_kinds client "VisitsSummary.get" [] _)
             {| status := 503;
                text := Raise (Exn ClientError "Response payload is not completed"
                                 None);
                status_error := "503" |} []).
    + reflexivity.
    + vm_compute. discriminate.
    + vm_compute. discriminate.
Defined.

(** C9, the claim as stated: the failure of a 500 and the failure of an
    application error are of one kind; no [except] clause separates them. *)
Lemma transport_failure_has_no_kind_of_its_own :
  exists e500 eapp,
    _request client "VisitsSummary.get" [] [failed 500 "500"] = (Raise e500, [])
    /\ _request client "VisitsSummary.get" [] [ok200 "bad call"] = (Raise eapp, [])
    /\ exn_class e500 = exn_class eapp
    /\ same_kind e500 eapp.
Proof. do 2 eexists. repeat split. Qed.

End Runs.

(** ** More on the reporting client *)

Section EndpointFacts.

Lemma rstrip_by_dropped p s c :
  p c = true -> rstrip_by p (s ++ String c "") = rstrip_by p s.
Proof.
  intros Hc. unfold rstrip_by. rewrite rev_string_app.
  change (rev_string (String c "")) with (String c "").
  cbn [append lstrip_by]. now rewrite Hc.
Qed.

(** X1.  Whatever the configured URL, the endpoint the client keeps ends in
    [index.php]; normalising it again changes nothing; and a trailing slash
    on the configured URL makes no difference. *)
Theorem normalize_url_canonical url :
  endswith (_normalize_url url) "index.php" = true
  /\ _normalize_url (_normalize_url url) = _normalize_url url
  /\ _normalize_url (url ++ "/") = _normalize_url url.
Proof.
  assert (Hends : endswith (_normalize_url url) "index.php" = true).
  { unfold _normalize_url.
    destruct (endswith (rstrip_by (Ascii.eqb "/") url) "index.php") eqn:E;
      cbn [negb].
    - exact E.
    - apply endswith_split. exists (rstrip_by (Ascii.eqb "/") url ++ "/").
      now rewrite <- string_app_assoc. }
  repeat split.
  - exact Hends.
  - now apply normalize_url_fixed.
  - unfold _normalize_url. now rewrite rstrip_by_dropped.
Qed.

End EndpointFacts.

Section RequestFacts.

Context {W : Type}.
Implicit Types (self : MatomoAPI W) (w : W).

Lemma string_length_app (a b : string) :
  String.length (a ++ b) = (String.length a + String.length b)%nat.
Proof. induction a as [| c a IH]; simpl; [reflexivity | now rewrite IH]. Qed.

Lemma length_take n s : (String.length (take n s) <= n)%nat.
Proof.
  unfold take. revert s. induction n as [| n IH]; intros s.
  - destruct s; simpl; lia.
  - destruct s as [| c s]; simpl; [lia |]. specialize (IH s). lia.
Qed.

Lemma take_short n s : (String.length s <= n)%nat -> take n s = s.
Proof.
  unfold take. revert s. induction n as [| n IH]; intros s H.
  - destruct s; simpl in *; [reflexivity | lia].
  - destruct s as [| c s]; simpl in *; [reflexivity |].
    rewrite IH by lia. reflexivity.
Qed.

Lemma take_prefix n s : exists rest, s = take n s ++ rest.
Proof.
  unfold take. revert s. induction n as [| n IH]; intros s.
  - exists s. now destruct s.
  - destruct s as [| c s]; simpl; [now exists "" |].
    destruct (IH s) as [rest H]. exists rest. now rewrite <- H.
Qed.

(** What the [try] of [_request] does with a readable body that is no page,
    under a status below 400. *)
Lemma post_and_decode_body self method params w resp w' body :
  post (_session self) (_base_url self) (url_params method)
    (post_data self params) w = (Ok resp, w') ->
  status resp < 400 -> status resp <> 401 -> text resp = Ok body ->
  looks_like_html body = false ->
  post_and_decode self method params w
  = match json_loads self body with
    | Ok data => (Ok data, w')
    | Raise err =>
        if isinstance err JSONDecodeError
        then (Raise (Exn MatomoAPIError
                       ("Invalid JSON response from Matomo: " ++ take 200 body)
                       (Some err)), w')
        else if isinstance err MatomoAPIError then (Raise err, w')
        else if isinstance err ClientError
        then (Raise (Exn MatomoAPIError
                       ("Error communicating with Matomo: " ++ str err)
                       (Some err)), w')
        else (Raise err, w')
    end.
Proof.
  intros Hpost Hlt Hne Htext Hhtml.
  unfold post_and_decode, try_except at 1.
  rewrite (bind_ok _ _ _ _ _ Hpost).
  apply Z.eqb_neq in Hne. rewrite Hne.
  unfold bind, lift, raise_for_status. rewrite Htext.
  apply Z.leb_gt in Hlt. rewrite Hlt. unfold ret.
  unfold looks_like_html in Hhtml. rewrite Hhtml.
  unfold try_except, raise.
  destruct (json_loads self body) as [data | err]; [reflexivity |].
  destruct (isinstance err JSONDecodeError); [reflexivity |].
  cbv beta iota.
  destruct (isinstance err MatomoAPIError); [reflexivity |].
  now destruct (isinstance err ClientError).
Qed.

(** X2.  A 401 is an authentication failure whatever else the response
    holds: the body is not read (it may even be unreadable) and nothing is
    decoded. *)
Theorem unauthorized_status_is_auth_error self method params w resp w' :
  post (_session self) (_base_url self) (url_params method)
    (post_data self params) w = (Ok resp, w') ->
  status resp = 401 ->
  _request self method params w
  = (Raise (Exn MatomoAuthError "Invalid authentication token (HTTP 401)" None), w').
Proof.
  intros Hpost H401. unfold _request. apply bind_raise.
  unfold post_and_decode. erewrite try_raise.
  2:{ rewrite (bind_ok _ _ _ _ _ Hpost). rewrite H401. reflexivity. }
  reflexivity.
Qed.

(** X3.  A body that starts, after surrounding blanks, with [<!] or [<html]
    under a status below 400 is a [MatomoAPIError] that names the endpoint,
    whatever the decoder would make of the body. *)
Theorem html_body_is_api_error self method params w resp w' body :
  post (_session self) (_base_url self) (url_params method)
    (post_data self params) w = (Ok resp, w') ->
  status resp < 400 -> status resp <> 401 -> text resp = Ok body ->
  looks_like_html body = true ->
  _request self method params w
  = (Raise (Exn MatomoAPIError
              ("Matomo returned HTML instead of JSON. Check if URL is correct: "
               ++ _base_url self) None), w').
Proof.
  intros Hpost Hlt Hne Htext Hhtml. unfold _request. apply bind_raise.
  unfold post_and_decode. erewrite try_raise.
  2:{ rewrite (bind_ok _ _ _ _ _ Hpost).
      apply Z.eqb_neq in Hne. rewrite Hne.
      unfold bind, lift, raise_for_status. rewrite Htext.
      apply Z.leb_gt in Hlt. rewrite Hlt. unfold ret.
      unfold looks_like_html in Hhtml. rewrite Hhtml. reflexivity. }
  reflexivity.
Qed.

(** X4.  A body the decoder rejects is a [MatomoAPIError] whose cause is the
    decoder's error and whose text quotes at most the first 200 characters of
    the body: the whole body when it is that short. *)
Theorem undecodable_body_is_api_error self method params w resp w' body err :
  post (_session self) (_base_url self) (url_params method)
    (post_data self params) w = (Ok resp, w') ->
  status resp < 400 -> status resp <> 401 -> text resp = Ok body ->
  looks_like_html body = false ->
  json_loads self body = Raise err ->
  isinstance err JSONDecodeError = true ->
  exists quoted,
    _request self method params w
    = (Raise (Exn MatomoAPIError ("Invalid JSON response from Matomo: " ++ quoted)
                (Some err)), w')
    /\ (String.length quoted <= 200)%nat
    /\ (exists rest, body = quoted ++ rest)
    /\ ((String.length body <= 200)%nat -> quoted = body).
Proof.
  intros Hpost Hlt Hne Htext Hhtml Hloads Herr.
  exists (take 200 body). split; [| split; [| split]].
  - unfold _request. apply bind_raise.
    rewrite (post_and_decode_body _ _ _ _ _ _ _ Hpost Hlt Hne Htext Hhtml).
    now rewrite Hloads, Herr.
  - apply length_take.
  - apply take_prefix.
  - apply take_short.
Qed.

(** X5.  A readable body under a status below 400 that is no page and
    decodes to something other than an error envelope is returned as
    decoded. *)
Theorem decoded_answer_is_returned self method params w resp w' body data :
  post (_session self) (_base_url self) (url_params method)
    (post_data self params) w = (Ok resp, w') ->
  status resp < 400 -> status resp <> 401 -> text resp = Ok body ->
  looks_like_html body = false ->
  json_loads self body = Ok data ->
  is_error_envelope data = false ->
  _request self method params w = (Ok data, w').
Proof.
  intros Hpost Hlt Hne Htext Hhtml Hloads Henv.
  unfold _request. erewrite bind_ok.
  2:{ rewrite (post_and_decode_body _ _ _ _ _ _ _ Hpost Hlt Hne Htext Hhtml).
      now rewrite Hloads. }
  unfold check_error_envelope. destruct data; try reflexivity.
  cbn in Henv. now rewrite Henv.
Qed.

(** X6.  [_request] never hands an error envelope to its caller: what it
    returns is what was decoded, and it is no mapping whose [result] is
    ["error"]. *)
Theorem request_returns_no_error_envelope self method params w data w' :
  _request self method params w = (Ok data, w') ->
  post_and_decode self method params w = (Ok data, w')
  /\ is_error_envelope data = false
  /\ forall d, data = JDict d -> dict_get "result" d <> Some (JStr "error").
Proof.
  unfold _request. intros H.
  apply bind_ok_inv in H as [decoded [w1 [Hdec Hcheck]]].
  assert (Hsame : decoded = data /\ w1 = w' /\ is_error_envelope data = false).
  { unfold check_error_envelope in Hcheck.
    destruct decoded as [| | | | | | d];
      try (inversion Hcheck; subst; now auto).
    destruct (eq_str (dict_get "result" d) "error") eqn:E.
    - destruct (dict_get_default _ _ d); try discriminate.
      now destruct (_ || _).
    - inversion Hcheck; subst. auto. }
  destruct Hsame as [-> [-> Henv]].
  repeat split; auto.
  intros d -> Hres. cbn in Henv. rewrite Hres in Henv. cbn in Henv.
  discriminate.
Qed.

End RequestFacts.

(** ** Calls on the wire *)

Section WireFacts.

Context {W : Type}.
Implicit Types (self : MatomoAPI (W * list Call)) (s : ClientSession W)
  (log : list Call).

Lemma check_error_envelope_keeps_state {V} data (st : V) r st' :
  check_error_envelope data st = (r, st') -> st' = st.
Proof.
  unfold check_error_envelope. intros H.
  destruct data as [| | | | | | d]; try (now inversion H).
  destruct (eq_str _ _); [| now inversion H].
  destruct (dict_get_default _ _ d); try (now inversion H).
  destruct (_ || _); now inversion H.
Qed.

Lemma post_and_decode_logs self s method params w log r w' log' :
  _session self = logged s ->
  post_and_decode self method params (w, log) = (r, (w', log')) ->
  log' = (log ++ [call_of self method params])%list.
Proof.
  intros Hs. unfold post_and_decode, try_except, bind, lift, raise_for_status,
    raise, ret.
  rewrite Hs. cbn [post logged fst snd].
  destruct (post s (_base_url self) (url_params method) (post_data self params) w)
    as [[resp | e] w0].
  - destruct (status resp =? 401)%Z.
    + cbn. intros H. now inversion H.
    + destruct (text resp) as [body | e].
      * destruct (400 <=? status resp)%Z.
        -- cbn. intros H. now inversion H.
        -- destruct (startswith (strip body) "<!" || startswith (strip body) "<html").
           ++ cbn. intros H. now inversion H.
           ++ destruct (json_loads self body) as [data | err].
              ** intros H. now inversion H.
              ** destruct (isinstance err JSONDecodeError).
                 --- cbn. intros H. now inversion H.
                 --- destruct (isinstance err MatomoAPIError);
                       [| destruct (isinstance err ClientError)];
                       intros H; now inversion H.
      * destruct (isinstance e MatomoAPIError);
          [| destruct (isinstance e ClientError)]; intros H; now inversion H.
  - destruct (isinstance e MatomoAPIError);
      [| destruct (isinstance e ClientError)]; intros H; now inversion H.
Qed.

Lemma request_logs self s method params w log r w' log' :
  _session self = logged s ->
  _request self method params (w, log) = (r, (w', log')) ->
  log' = (log ++ [call_of self method params])%list.
Proof.
  intros Hs. unfold _request, bind.
  destruct (post_and_decode self method params (w, log)) as [[data | e] [w1 log1]] eqn:Hdec.
  - intros H. apply check_error_envelope_keeps_state in H. inversion H; subst.
    exact (post_and_decode_logs _ _ _ _ _ _ _ _ _ Hs Hdec).
  - intros H. inversion H; subst.
    exact (post_and_decode_logs _ _ _ _ _ _ _ _ _ Hs Hdec).
Qed.

(** X7.  Whatever its outcome, a [_request] makes exactly one call: a post
    to the client's endpoint whose query string is module, method and format
    and whose body is the token followed by the parameters. *)
Theorem request_posts_once self s method params w log r w' log' :
  _session self = logged s ->
  _request self method params (w, log) = (r, (w', log')) ->
  log' = (log ++ [{| call_url := _base_url self;
                     call_params := [("module", JStr "API");
                                     ("method", JStr method);
                                     ("format", JStr "JSON")];
                     call_data := dict_update [("token_auth", JStr (_token_auth self))]
                                    params |}])%list.
Proof. intros Hs H. exact (request_logs _ _ _ _ _ _ _ _ _ Hs H). Qed.

End WireFacts.

Section BodyFacts.

Context {W : Type}.

Lemma dict_get_update_other {V} (k : string) (d other : dict V) :
  dict_get k other = None -> dict_get k (dict_update d other) = dict_get k d.
Proof.
  unfold dict_update. revert d.
  induction other as [| [k' v'] other IH]; intros d; simpl; [reflexivity |].
  destruct (String.eqb_spec k k') as [-> | Hne]; [discriminate |].
  intros H. rewrite (IH _ H). now apply dict_get_set_other.
Qed.

(** X8.  The token never travels in the query string.  The body carries it
    under [token_auth], unless a parameter of that name takes its place; and
    every parameter of the call is in the body with its value. *)
Theorem token_travels_in_body (self : MatomoAPI W) method params :
  dict_get "token_auth" (call_params (call_of self method params)) = None
  /\ (dict_get "token_auth" params = None ->
      dict_get "token_auth" (call_data (call_of self method params))
      = Some (JStr (_token_auth self)))
  /\ (unique_keys params ->
      forall k v, dict_get k params = Some v ->
                  dict_get k (call_data (call_of self method params)) = Some v).
Proof.
  split; [reflexivity |]. split.
  - intros H. cbn [call_of call_data]. unfold post_data.
    now rewrite (dict_get_update_other _ _ _ H).
  - intros Hu k v H. cbn [call_of call_data]. unfold post_data.
    now rewrite (dict_get_update _ _ _ Hu), H.
Qed.

End BodyFacts.

(** ** What a cycle puts on the wire *)

Section TraceFacts.

Context {W : Type}.
Implicit Types (s : ClientSession W) (log : list Call).

Lemma emits_request (self : MatomoAPI (W * list Call)) s method params :
  _session self = logged s ->
  emits (_request self method params) [call_of self method params].
Proof.
  intros Hs w log r w' log' H.
  pose proof (request_logs _ _ _ _ _ _ _ _ _ Hs H) as ->.
  destruct r; [reflexivity |]. exists 1%nat. cbn. split; [lia | reflexivity].
Qed.

(** A pure continuation after a fetch changes nothing on the wire. *)
Lemma emits_then_ret {A B} (m : M (W * list Call) A) (f : A -> B) L :
  emits m L -> emits (bind m (fun x => ret (f x))) L.
Proof.
  intros Hm w log r w' log'. unfold bind.
  destruct (m (w, log)) as [[a | e] [w1 log1]] eqn:E; intros H;
    inversion H; subst; exact (Hm _ _ _ _ _ E).
Qed.

Lemma add_metric_keeps_state {V} kv totals (st : V) r st' :
  add_metric kv totals st = (r, st') -> st' = st.
Proof.
  destruct kv as [key value]. unfold add_metric, bind, lift, ret.
  destruct (is_int_or_float value); [| intros H; now inversion H].
  destruct (py_int value); intros H; now inversion H.
Qed.

Lemma for_each_keeps_state {V A S} (body : A -> S -> M V S) xs :
  (forall x acc st r st', body x acc st = (r, st') -> st' = st) ->
  forall acc st r st', for_each xs body acc st = (r, st') -> st' = st.
Proof.
  intros Hbody. induction xs as [| x xs IH]; intros acc st r st'; cbn [for_each].
  - intros H. now inversion H.
  - unfold bind. destruct (body x acc st) as [[acc1 | e] st1] eqn:E; intros H.
    + apply IH in H. apply Hbody in E. congruence.
    + inversion H; subst. now apply Hbody in E.
Qed.

Lemma add_response_keeps_state {V} response totals (st : V) r st' :
  add_response response totals st = (r, st') -> st' = st.
Proof.
  unfold add_response. destruct response; try (intros H; now inversion H).
  apply for_each_keeps_state. intros [site_key site_data] acc st0 r0 st0'.
  unfold add_site. cbn [snd].
  destruct site_data; try (intros H; now inversion H).
  apply for_each_keeps_state. intros kv. apply add_metric_keeps_state.
Qed.

Lemma emits_all_sites_summary (self : MatomoAPI (W * list Call)) s period date :
  _session self = logged s ->
  emits (get_all_sites_summary self period date)
    [call_of self "VisitsSummary.get" (all_sites period date);
     call_of self "Actions.get" (all_sites period date)].
Proof.
  intros Hs w log r w' log'.
  unfold get_all_sites_summary. cbn [for_each]. unfold bind at 1 2 3.
  destruct (_request self "VisitsSummary.get" _ (w, log))
    as [[r1 | e1] [w1 log1]] eqn:E1;
    pose proof (request_logs _ _ _ _ _ _ _ _ _ Hs E1) as ->.
  2:{ intros H. inversion H; subst. exists 1%nat. cbn. split; [lia | reflexivity]. }
  destruct (add_response r1 [] (w1, (log ++ [call_of self "VisitsSummary.get" _])%list))
    as [[t1 | e] st1] eqn:A1; pose proof (add_response_keeps_state _ _ _ _ _ A1) as ->.
  2:{ intros H. inversion H; subst. exists 1%nat. cbn. split; [lia | reflexivity]. }
  unfold bind at 1 2.
  destruct (_request self "Actions.get" _ _) as [[r2 | e2] [w2 log2]] eqn:E2;
    pose proof (request_logs _ _ _ _ _ _ _ _ _ Hs E2) as ->.
  2:{ intros H. inversion H; subst. exists 2%nat. cbn. split; [lia |].
      now rewrite <- app_assoc. }
  destruct (add_response r2 t1 _) as [[t2 | e] st2] eqn:A2;
    pose proof (add_response_keeps_state _ _ _ _ _ A2) as ->.
  2:{ intros H. inversion H; subst. exists 2%nat. cbn. split; [lia |].
      now rewrite <- app_assoc. }
  cbn. intros H. inversion H; subst. now rewrite <- app_assoc.
Qed.

(** A run of fetches, each with its calls. *)
Lemma all_return_emits (ms : list (M (W * list Call) json)) Ls :
  Forall2 emits ms Ls ->
  forall w log rs w' log',
    all_return ms (w, log) rs (w', log') -> log' = (log ++ List.concat Ls)%list.
Proof.
  induction 1 as [| m L ms Ls Hm _ IH]; intros w log rs w' log'.
  - destruct rs; cbn; [| contradiction]. intros H. inversion H.
    now rewrite app_nil_r.
  - destruct rs as [| r rs]; cbn [all_return]; [contradiction |].
    intros [[w1 log1] [Hr Hrest]].
    pose proof (Hm _ _ _ _ _ Hr) as Hlog. cbn in Hlog. subst log1.
    rewrite (IH _ _ _ _ _ Hrest). cbn [List.concat]. now rewrite app_assoc.
Qed.

Lemma first_failure_emits (ms : list (M (W * list Call) json)) Ls :
  Forall2 emits ms Ls ->
  forall w log e w' log',
    first_failure ms (w, log) e (w', log') ->
    exists n, (1 <= n <= List.length (List.concat Ls))%nat
              /\ log' = (log ++ firstn n (List.concat Ls))%list.
Proof.
  induction 1 as [| m L ms Ls Hm _ IH]; intros w log e w' log' Hf.
  - inversion Hf.
  - cbn [List.concat]. rewrite List.length_app.
    inversion Hf as [? ? ? ? ? Hr | ? ? ? r [w1 log1] ? ? Hr Hrest]; subst.
    + pose proof (Hm _ _ _ _ _ Hr) as [n [Hn ->]].
      exists n. split; [lia |].
      rewrite firstn_app. replace (n - List.length L)%nat with 0%nat by lia.
      cbn. now rewrite app_nil_r.
    + pose proof (Hm _ _ _ _ _ Hr) as Hlog. cbn in Hlog. subst log1.
      destruct (IH _ _ _ _ _ Hrest) as [n [Hn ->]].
      exists (List.length L + n)%nat. split; [lia |].
      rewrite firstn_app_2. now rewrite app_assoc.
Qed.

End TraceFacts.

(** ** More on the refresh pipeline *)

Section CycleFacts.

Context {W : Type}.
Implicit Types (self : MatomoDataCoordinator W) (w : W) (e : exn).

Lemma not_api_not_auth e :
  isinstance e MatomoAPIError = false -> isinstance e MatomoAuthError = false.
Proof.
  unfold isinstance. destruct (exn_class e); cbn; congruence.
Qed.

Lemma all_return_length (calls : list (M W json)) w rs w' :
  all_return calls w rs w' -> List.length rs = List.length calls.
Proof.
  revert w rs. induction calls as [| m ms IH]; intros w rs.
  - destruct rs; cbn; [reflexivity | contradiction].
  - destruct rs as [| r rs]; cbn; [contradiction |].
    intros [w1 [_ H]]. now rewrite (IH _ _ H).
Qed.

Lemma six_results self w rs w' :
  all_return (load_bearing_fetches self) w rs w' ->
  exists s1 a1 s2 a2 s3 a3, rs = [s1; a1; s2; a2; s3; a3].
Proof.
  intros H. apply all_return_length in H.
  cbn in H.
  destruct rs as [| s1 [| a1 [| s2 [| a2 [| s3 [| a3 [| x rs]]]]]]];
    try discriminate.
  now exists s1, a1, s2, a2, s3, a3.
Qed.

Lemma three_results self w rs w' :
  all_return (aggregate_fetches self) w rs w' ->
  exists a1 a2 a3, rs = [a1; a2; a3].
Proof.
  intros H. apply all_return_length in H. cbn in H.
  destruct rs as [| a1 [| a2 [| a3 [| x rs]]]]; try discriminate.
  now exists a1, a2, a3.
Qed.

Lemma first_failure_app (l1 l2 : list (M W json)) w e w' :
  first_failure (l1 ++ l2) w e w' ->
  first_failure l1 w e w'
  \/ exists rs w1, all_return l1 w rs w1 /\ first_failure l2 w1 e w'.
Proof.
  revert w. induction l1 as [| m l1 IH]; intros w; cbn [app].
  - intros H. right. now exists [], w.
  - intros H.
    inversion H as [? ? ? ? ? Hm | ? ? ? r w1 ? ? Hm Hrest]; subst.
    + left. now apply failure_here.
    + destruct (IH _ Hrest) as [Hf | [rs [w2 [Hall Hf]]]].
      * left. now apply (failure_later _ _ _ r w1).
      * right. exists (r :: rs), w2. split; [| exact Hf]. cbn. eauto.
Qed.

(** The live fetch, seen as a step: it returns, or raises what the cycle
    absorbs, or raises something else. *)
Lemma live_fetch_outcome self w :
  (exists live, live_step self w live (snd (live_fetch self w)))
  \/ exists e, live_fetch self w = (Raise e, snd (live_fetch self w))
               /\ isinstance e MatomoAPIError = false.
Proof.
  destruct (live_fetch self w) as [[r | e] w2] eqn:E; cbn [snd].
  - left. destruct r as [| | | | | [| first rest] |];
      try (exists (JDict []); apply (live_nothing _ _ _ _ E); intros; discriminate).
    exists first. now apply (live_counters _ _ _ rest).
  - destruct (isinstance e MatomoAPIError) eqn:He.
    + left. exists (JDict []). now apply (live_degraded _ _ e).
    + right. now exists e.
Qed.

Lemma cycle_raises_in_site self w e w' :
  first_failure (load_bearing_fetches self) w e w' ->
  exists e',
    _async_update_data self w = (Raise e', w')
    /\ (isinstance e MatomoAPIError = false -> e' = e).
Proof.
  intros Hf. unfold _async_update_data.
  erewrite try_raise.
  2:{ apply bind_raise.
      apply (fetch_site_fail self (JDict []) (JDict [])). exact Hf. }
  cbv beta.
  destruct (isinstance e MatomoAuthError) eqn:Ha.
  - eexists. split; [reflexivity |]. intros Hn.
    apply not_api_not_auth in Hn. congruence.
  - destruct (isinstance e MatomoAPIError) eqn:Hp.
    + eexists. split; [reflexivity |]. discriminate.
    + eexists. split; reflexivity.
Qed.

Lemma cycle_raises_in_live self w s1 a1 s2 a2 s3 a3 w1 e w2 :
  all_return (load_bearing_fetches self) w [s1; a1; s2; a2; s3; a3] w1 ->
  live_fetch self w1 = (Raise e, w2) ->
  isinstance e MatomoAPIError = false ->
  _async_update_data self w = (Raise e, w2).
Proof.
  intros Hs Hl He. unfold _async_update_data.
  erewrite try_raise.
  2:{ change [("site", JDict []); ("live", JDict []); ("aggregate", JDict [])]
        with (snapshot_fields (JDict []) (JDict []) (JDict [])).
      rewrite (bind_ok _ _ _ _ _ (fetch_site_ok _ _ _ _ _ _ _ _ _ _ _ Hs)).
      apply bind_raise. unfold fetch_live.
      erewrite try_raise; [| apply bind_raise; exact Hl].
      cbv beta. rewrite He. reflexivity. }
  cbv beta. now rewrite (not_api_not_auth _ He), He.
Qed.

Lemma cycle_raises_in_aggregate self w s1 a1 s2 a2 s3 a3 w1 live w2 e w3 :
  all_return (load_bearing_fetches self) w [s1; a1; s2; a2; s3; a3] w1 ->
  live_step self w1 live w2 ->
  include_aggregate self = true ->
  first_failure (aggregate_fetches self) w2 e w3 ->
  isinstance e MatomoAPIError = false ->
  _async_update_data self w = (Raise e, w3).
Proof.
  intros Hs Hl Hon Hf He. unfold _async_update_data.
  erewrite try_raise.
  2:{ change [("site", JDict []); ("live", JDict []); ("aggregate", JDict [])]
        with (snapshot_fields (JDict []) (JDict []) (JDict [])).
      rewrite (bind_ok _ _ _ _ _ (fetch_site_ok _ _ _ _ _ _ _ _ _ _ _ Hs)).
      rewrite (bind_ok _ _ _ _ _ (fetch_live_step _ _ _ _ _ _ _ Hl)).
      apply bind_raise. unfold fetch_aggregate. rewrite Hon.
      erewrite try_raise; [| apply aggregate_loop_fail; exact Hf].
      cbv beta. rewrite He. reflexivity. }
  cbv beta. now rewrite (not_api_not_auth _ He), He.
Qed.

(** X9.  An exception outside the client's hierarchy, raised by any fetch of
    a cycle (a summary fetch, the live fetch, a wildcard fetch), ends the
    cycle and is raised as it is: it is not absorbed, and not wrapped in
    [UpdateFailed]. *)
Theorem foreign_failure_escapes self w e w' :
  first_failure (cycle_fetches self) w e w' ->
  isinstance e MatomoAPIError = false ->
  _async_update_data self w = (Raise e, w').
Proof.
  unfold cycle_fetches. intros Hf He.
  apply first_failure_app in Hf as [Hf | [rs [w1 [Hall Hf]]]].
  - destruct (cycle_raises_in_site _ _ _ _ Hf) as [e' [H Heq]].
    now rewrite H, (Heq He).
  - destruct (six_results _ _ _ _ Hall) as [s1 [a1 [s2 [a2 [s3 [a3 ->]]]]]].
    inversion Hf as [? ? ? ? ? Hl | ? ? ? r w2 ? ? Hl Hrest]; subst.
    + now apply (cycle_raises_in_live _ _ s1 a1 s2 a2 s3 a3 w1).
    + destruct (include_aggregate self) eqn:Hon; [| inversion Hrest].
      assert (exists live, live_step self w1 live w2) as [live Hstep].
      { destruct r as [| | | | | [| first rest] |];
          try (exists (JDict []); apply (live_nothing _ _ _ _ Hl);
               intros; discriminate).
        exists first. now apply (live_counters _ _ _ rest). }
      now apply (cycle_raises_in_aggregate _ _ s1 a1 s2 a2 s3 a3 w1 live w2).
Qed.

(** X10.  With the aggregate option on, a [MatomoAPIError] in a wildcard
    fetch does not fail the cycle: the Snapshot keeps its site and live
    partitions and its aggregate partition is the empty mapping, also when
    earlier periods had already been fetched. *)
Theorem aggregate_failure_isolated
    self w s1 a1 s2 a2 s3 a3 w1 live w2 e w3 :
  all_return (load_bearing_fetches self) w [s1; a1; s2; a2; s3; a3] w1 ->
  live_step self w1 live w2 ->
  include_aggregate self = true ->
  first_failure (aggregate_fetches self) w2 e w3 ->
  isinstance e MatomoAPIError = true ->
  _async_update_data self w
  = (Ok (JDict [("site", JDict [("day", JDict (merge_summary s1 a1));
                                ("week", JDict (merge_summary s2 a2));
                                ("month", JDict (merge_summary s3 a3))]);
                ("live", live);
                ("aggregate", JDict [])]), w3).
Proof.
  intros Hs Hl Hon Hf He.
  apply (update_ok _ _ _ _ _ _ _ _ w1 _ w2); auto.
  now apply (aggregate_degraded _ _ e).
Qed.

(** X11.  When the live fetch returns, the live partition is the first
    element of the sequence it returned, and the empty mapping when it
    returned anything else: an empty sequence, a mapping, [None]. *)
Theorem live_partition_is_first_counter
    self w s1 a1 s2 a2 s3 a3 w1 counters w2 agg w3 :
  all_return (load_bearing_fetches self) w [s1; a1; s2; a2; s3; a3] w1 ->
  live_fetch self w1 = (Ok counters, w2) ->
  aggregate_step self w2 agg w3 ->
  _async_update_data self w
  = (Ok (JDict [("site", site_partition s1 a1 s2 a2 s3 a3);
                ("live", match counters with
                         | JList (first :: _) => first
                         | _ => JDict []
                         end);
                ("aggregate", agg)]), w3).
Proof.
  intros Hs Hl Ha.
  apply (update_ok _ _ _ _ _ _ _ _ w1 _ w2); auto.
  destruct counters as [| | | | | [| first rest] |];
    try (apply (live_nothing _ _ _ _ Hl); intros; discriminate).
  now apply (live_counters _ _ _ rest).
Qed.

(** Where a cycle stops, and how. *)
Lemma cycle_anatomy self w r w' :
  _async_update_data self w = (r, w') ->
  (exists e, first_failure (load_bearing_fetches self) w e w' /\ is_ok r = false)
  \/ exists rs w1,
      all_return (load_bearing_fetches self) w rs w1
      /\ ((w' = snd (live_fetch self w1) /\ is_ok r = false)
          \/ (include_aggregate self = false
              /\ w' = snd (live_fetch self w1) /\ is_ok r = true)
          \/ (include_aggregate self = true
              /\ (exists rs',
                     all_return (aggregate_fetches self)
                       (snd (live_fetch self w1)) rs' w')
              /\ is_ok r = true)
          \/ (include_aggregate self = true
              /\ exists e,
                  first_failure (aggregate_fetches self)
                    (snd (live_fetch self w1)) e w')).
Proof.
  intros H.
  destruct (calls_outcome (load_bearing_fetches self) w)
    as [[rs [w1 Hall]] | [e [w1 Hf]]].
  2:{ left. destruct (cycle_raises_in_site _ _ _ _ Hf) as [e' [H' _]].
      rewrite H' in H. inversion H; subst. exists e. auto. }
  right. exists rs, w1. split; [exact Hall |].
  destruct (six_results _ _ _ _ Hall) as [s1 [a1 [s2 [a2 [s3 [a3 ->]]]]]].
  destruct (live_fetch_outcome self w1) as [[live Hl] | [e [Hl He]]].
  2:{ left. rewrite (cycle_raises_in_live _ _ _ _ _ _ _ _ _ _ _ Hall Hl He) in H.
      inversion H; subst. auto. }
  right. destruct (include_aggregate self) eqn:Hon.
  - right.
    destruct (calls_outcome (aggregate_fetches self) (snd (live_fetch self w1)))
      as [[rs' [w3 Ha]] | [e [w3 Hf]]].
    + left. destruct (three_results _ _ _ _ Ha) as [b1 [b2 [b3 ->]]].
      rewrite (update_ok _ _ _ _ _ _ _ _ _ _ _ _ _ Hall Hl
                 (aggregate_complete _ _ _ _ _ _ Hon Ha)) in H.
      inversion H; subst. split; [reflexivity |]. split; [eauto | reflexivity].
    + right. split; [reflexivity |]. exists e.
      destruct (isinstance e MatomoAPIError) eqn:He.
      * rewrite (update_ok _ _ _ _ _ _ _ _ _ _ _ _ _ Hall Hl
                   (aggregate_degraded _ _ _ _ Hon Hf He)) in H.
        inversion H; subst. exact Hf.
      * rewrite (cycle_raises_in_aggregate _ _ _ _ _ _ _ _ _ _ _ _ _
                   Hall Hl Hon Hf He) in H.
        inversion H; subst. exact Hf.
  - left.
    rewrite (update_ok _ _ _ _ _ _ _ _ _ _ _ _ _ Hall Hl
               (aggregate_disabled _ _ Hon)) in H.
    inversion H; subst. auto.
Qed.

End CycleFacts.

Section CycleTrace.

Context {W : Type}.
Implicit Types (self : MatomoDataCoordinator (W * list Call))
  (s : ClientSession W) (log : list Call).

Lemma emits_site_fetches self s :
  _session (api self) = logged s ->
  Forall2 emits (load_bearing_fetches self) (map (fun c => [c]) (site_calls self)).
Proof.
  intros Hs. cbn [load_bearing_fetches site_calls PERIODS flat_map app map].
  repeat constructor;
    (apply emits_then_ret; apply (emits_request _ s); exact Hs).
Qed.

Lemma emits_aggregate_fetches self s :
  _session (api self) = logged s ->
  Forall2 emits (aggregate_fetches self)
    (map (fun period =>
            [call_of (api self) "VisitsSummary.get" (all_sites period "today");
             call_of (api self) "Actions.get" (all_sites period "today")])
       PERIODS).
Proof.
  intros Hs. cbn [aggregate_fetches PERIODS map].
  repeat constructor; apply (emits_all_sites_summary _ s); exact Hs.
Qed.

Lemma live_fetch_logs self s w log :
  _session (api self) = logged s ->
  snd (snd (live_fetch self (w, log))) = (log ++ [live_call self])%list.
Proof.
  intros Hs. unfold live_fetch, get_live_counters.
  destruct (_request (api self) "Live.getCounters" _ (w, log))
    as [r [w' log']] eqn:E.
  cbn [snd]. exact (request_logs _ _ _ _ _ _ _ _ _ Hs E).
Qed.

Lemma firstn_site_calls self n :
  (n <= 6)%nat -> firstn n (cycle_calls self) = firstn n (site_calls self).
Proof.
  intros Hn. unfold cycle_calls. rewrite firstn_app.
  replace (n - List.length (site_calls self))%nat with 0%nat by (cbn; lia).
  cbn [firstn]. now rewrite app_nil_r.
Qed.

Lemma firstn_past_live self n :
  firstn (7 + n) (cycle_calls self)
  = (site_calls self ++ live_call self :: firstn n (aggregate_calls self))%list.
Proof.
  unfold cycle_calls.
  change (7 + n)%nat with (List.length (site_calls self) + S n)%nat.
  now rewrite firstn_app_2.
Qed.

(** X12.  Over a session that keeps the list of its calls, a cycle makes a
    prefix of one fixed sequence of thirteen calls: the six summary calls of
    the tracked site, the live call, the six wildcard calls.  It makes one
    call at least; without the aggregate option it makes seven at most, and
    exactly seven when it returns a Snapshot; with the option, a cycle that
    returns a Snapshot makes eight to thirteen. *)
Theorem cycle_calls_in_order self s w log r w' log' :
  _session (api self) = logged s ->
  _async_update_data self (w, log) = (r, (w', log')) ->
  exists n,
    log' = (log ++ firstn n (cycle_calls self))%list
    /\ (1 <= n <= 13)%nat
    /\ (include_aggregate self = false -> (n <= 7)%nat)
    /\ (is_ok r = true ->
        (include_aggregate self = false -> n = 7%nat)
        /\ (include_aggregate self = true -> (8 <= n)%nat)).
Proof.
  intros Hs H.
  apply cycle_anatomy in H
    as [[e [Hf Hr]] | [rs [[w1 log1] [Hall Hcases]]]].
  - destruct (first_failure_emits _ _ (emits_site_fetches _ _ Hs) _ _ _ _ _ Hf)
      as [n [Hn Hlog]].
    change (List.concat (map (fun c => [c]) (site_calls self)))
      with (site_calls self) in Hn, Hlog.
    change (List.length (site_calls self)) with 6%nat in Hn.
    subst log'. exists n. rewrite firstn_site_calls by lia.
    repeat split; try lia; congruence.
  - pose proof (all_return_emits _ _ (emits_site_fetches _ _ Hs) _ _ _ _ _ Hall)
      as Hlog1.
    change (List.concat (map (fun c => [c]) (site_calls self)))
      with (site_calls self) in Hlog1.
    subst log1.
    pose proof (live_fetch_logs self s w1 (log ++ site_calls self)%list Hs) as Hlive.
    destruct (live_fetch self (w1, (log ++ site_calls self)%list))
      as [rl [w2 log2]] eqn:El.
    cbn [snd] in Hlive, Hcases. subst log2.
    assert (Hseven : ((log ++ site_calls self) ++ [live_call self])%list
                     = (log ++ firstn 7 (cycle_calls self))%list).
    { change 7%nat with (7 + 0)%nat. rewrite firstn_past_live.
      cbn [firstn]. now rewrite <- app_assoc. }
    destruct Hcases as [[Hw Hr] | [[Hoff [Hw Hr]] | [[Hon [[rs' Ha] Hr]] | [Hon [e Hf]]]]].
    + inversion Hw; subst. exists 7%nat. split; [exact Hseven |].
      repeat split; try lia; congruence.
    + inversion Hw; subst. exists 7%nat. split; [exact Hseven |].
      repeat split; try lia; congruence.
    + pose proof (all_return_emits _ _ (emits_aggregate_fetches _ _ Hs)
                    _ _ _ _ _ Ha) as ->.
      exists 13%nat. split.
      * change 13%nat with (7 + 6)%nat. rewrite firstn_past_live.
        rewrite <- !app_assoc. reflexivity.
      * repeat split; try lia; congruence.
    + destruct (first_failure_emits _ _ (emits_aggregate_fetches _ _ Hs)
                  _ _ _ _ _ Hf) as [n [Hn ->]].
      change (List.length (List.concat _)) with 6%nat in Hn.
      exists (7 + n)%nat. split.
      * rewrite firstn_past_live. rewrite <- !app_assoc. reflexivity.
      * repeat split; try lia; congruence.
Qed.

End CycleTrace.

(** ** Checking a connection *)

Section ValidateFacts.

Context {W : Type}.
Implicit Types (self : MatomoAPI W) (w : W).

(** X13.  [validate_connection] answers [True] exactly when the version call
    returns and the sites call then returns a sequence (an empty one will
    do).  An error of the version call is raised as it is, in the state that
    call left: the sites call is not made.  An error of the sites call is
    raised as it is. *)
Theorem validate_connection_outcomes self w :
  (forall w',
      validate_connection self w = (Ok true, w')
      <-> exists version w1 sites,
          _request self "API.getMatomoVersion" [] w = (Ok version, w1)
          /\ _request self "SitesManager.getSitesWithAtLeastViewAccess" [] w1
             = (Ok (JList sites), w'))
  /\ (forall e w',
        _request self "API.getMatomoVersion" [] w = (Raise e, w') ->
        validate_connection self w = (Raise e, w'))
  /\ (forall version w1 e w',
        _request self "API.getMatomoVersion" [] w = (Ok version, w1) ->
        _request self "SitesManager.getSitesWithAtLeastViewAccess" [] w1
        = (Raise e, w') ->
        validate_connection self w = (Raise e, w')).
Proof.
  unfold validate_connection. split; [| split].
  - intros w'. split.
    + intros H.
      apply bind_ok_inv in H as [version [w1 [Hv H]]].
      apply bind_ok_inv in H as [sites [w2 [Hs H]]].
      inversion H; subst.
      destruct sites as [| | | | | l |]; try discriminate.
      now exists version, w1, l.
    + intros [version [w1 [sites [Hv Hs]]]].
      rewrite (bind_ok _ _ _ _ _ Hv), (bind_ok _ _ _ _ _ Hs). reflexivity.
  - intros e w' Hv. now apply bind_raise.
  - intros version w1 e w' Hv Hs.
    rewrite (bind_ok _ _ _ _ _ Hv). now apply bind_raise.
Qed.

End ValidateFacts.

(** ** Reading the Snapshot of a cycle *)

Section ReadingFacts.

Context {W : Type}.
Implicit Types (self : MatomoDataCoordinator W) (w : W).

Lemma all_sites_summary_shape (client : MatomoAPI W) period date w a w' :
  get_all_sites_summary client period date w = (Ok a, w') ->
  exists totals, a = totals_to_json totals.
Proof.
  unfold get_all_sites_summary. intros H.
  apply bind_ok_inv in H as [totals [w1 [_ H]]].
  inversion H; subst. now exists totals.
Qed.

Lemma totals_are_metrics totals : metrics_ok (totals_to_json totals) = true.
Proof.
  unfold totals_to_json, metrics_ok.
  induction totals as [| [k z] totals IH]; simpl; [reflexivity | exact IH].
Qed.

Lemma aggregate_step_shape self w agg w' :
  aggregate_step self w agg w' ->
  agg = JDict []
  \/ exists t1 t2 t3,
      agg = JDict [("day", totals_to_json t1); ("week", totals_to_json t2);
                   ("month", totals_to_json t3)].
Proof.
  intros H. destruct H as [w Hoff | w a1 a2 a3 w' Hon H | w e w' Hon H He];
    auto.
  right. cbn [all_return aggregate_fetches PERIODS map] in H.
  destruct H as [w1 [H1 [w2 [H2 [w3 [H3 _]]]]]].
  apply all_sites_summary_shape in H1 as [t1 ->].
  apply all_sites_summary_shape in H2 as [t2 ->].
  apply all_sites_summary_shape in H3 as [t3 ->].
  now exists t1, t2, t3.
Qed.

Lemma aggregate_step_periods self w agg w' :
  aggregate_step self w agg w' -> periods_ok agg = true.
Proof.
  intros H. apply aggregate_step_shape in H as [-> | [t1 [t2 [t3 ->]]]].
  - reflexivity.
  - cbn [periods_ok forallb snd]. now rewrite !totals_are_metrics.
Qed.

(** X14.  On the Snapshot of any cycle, whatever the API answered, an
    aggregate selector does not raise: it returns the integer the aggregate
    partition holds at its path, as it is, and absent when the path is
    missing.  The partition holds integers only. *)
Theorem aggregate_selectors_never_raise self w snapshot w' period key :
  _async_update_data self w = (Ok snapshot, w') ->
  (forall v, at_path2 "aggregate" period key snapshot = Some v ->
             exists z, v = JInt z)
  /\ Sensor._aggregate_value period key snapshot
     = Ok (match at_path2 "aggregate" period key snapshot with
           | Some (JInt z) => Some z
           | _ => None
           end).
Proof.
  intros H.
  apply update_inv in H
    as [s1 [a1 [s2 [a2 [s3 [a3 [w1 [live [w2 [agg [_ [_ [Ha ->]]]]]]]]]]]]].
  pose proof (aggregate_step_periods _ _ _ _ Ha) as Hp.
  assert (Hint : forall v, at_path2 "aggregate" period key
                             (JDict (snapshot_fields
                                       (site_partition s1 a1 s2 a2 s3 a3) live agg))
                           = Some v -> exists z, v = JInt z).
  { intros v. cbn [at_path2 snapshot_fields dict_get String.eqb Ascii.eqb Bool.eqb].
    apply aggregate_step_shape in Ha as [-> | [t1 [t2 [t3 ->]]]].
    - cbn. discriminate.
    - cbn [dict_get].
      destruct (String.eqb period "day");
        [| destruct (String.eqb period "week");
           [| destruct (String.eqb period "month"); [| discriminate]]];
        match goal with
        | |- context [totals_to_json ?t] =>
            pose proof (totals_to_json_get key t) as Hg;
            unfold totals_to_json in *; rewrite Hg;
            destruct (dict_get key t); cbn; intros Hv; inversion Hv; eauto
        end. }
  split; [exact Hint |].
  unfold Sensor._aggregate_value.
  rewrite (read_two_levels _ "aggregate" period key) by exact Hp.
  destruct (at_path2 "aggregate" period key _) as [v |] eqn:E; [| reflexivity].
  destruct (Hint v eq_refl) as [z ->]. reflexivity.
Qed.

Lemma forallb_dict_set {V} (check : V -> bool) k v (d : dict V) :
  check v = true ->
  forallb (fun kv => check (snd kv)) d = true ->
  forallb (fun kv => check (snd kv)) (dict_set k v d) = true.
Proof.
  intros Hv. induction d as [| [k' v'] d IH]; simpl.
  - now rewrite Hv.
  - intros H. apply andb_true_iff in H as [H1 H2].
    destruct (String.eqb k k'); simpl.
    + now rewrite Hv, H2.
    + now rewrite H1, IH.
Qed.

Lemma forallb_dict_update {V} (check : V -> bool) (d other : dict V) :
  forallb (fun kv => check (snd kv)) d = true ->
  forallb (fun kv => check (snd kv)) other = true ->
  forallb (fun kv => check (snd kv)) (dict_update d other) = true.
Proof.
  unfold dict_update. revert d.
  induction other as [| [k v] other IH]; intros d Hd Ho; simpl; [exact Hd |].
  simpl in Ho. apply andb_true_iff in Ho as [Hv Ho].
  apply IH; [| exact Ho]. now apply forallb_dict_set.
Qed.

Lemma merge_summary_metrics summary actions :
  summary_ok summary = true -> summary_ok actions = true ->
  metrics_ok (JDict (merge_summary summary actions)) = true.
Proof.
  unfold merge_summary, summary_ok, metrics_ok. intros Hs Ha.
  assert (H1 : forallb (fun kv => metric_value_ok (snd kv))
                 match summary with
                 | JDict s => dict_update [] s
                 | _ => []
                 end = true).
  { destruct summary; try reflexivity. now apply forallb_dict_update. }
  destruct actions; try exact H1. now apply forallb_dict_update.
Qed.

(** What the three selectors do on a well-formed Snapshot. *)
Lemma selectors_return data :
  snapshot_ok data = true ->
  forall period key,
    Sensor._site_value period key data
    = Ok (reading (at_path2 "site" period key data))
    /\ Sensor._live_value key data = Ok (reading (at_path1 "live" key data))
    /\ Sensor._aggregate_value period key data
       = Ok (reading (at_path2 "aggregate" period key data)).
Proof.
  destruct data as [| | | | | | d]; try discriminate.
  unfold snapshot_ok. rewrite !andb_true_iff. intros [[Hs Hl] Ha] period key.
  repeat split.
  - now apply read_two_levels.
  - now apply read_one_level.
  - now apply read_two_levels.
Qed.

Lemma every_sensor_reads data description :
  snapshot_ok data = true ->
  In description (Platform.entity_descriptions true) ->
  exists value, Platform.native_value (Some data) description = Ok value.
Proof.
  intros Hok Hin. pose proof (selectors_return data Hok) as Hsel.
  assert (Hsite : forall period key,
             exists value, Sensor._site_value period key data = Ok value).
  { intros period key. eexists. apply (Hsel period key). }
  assert (Hlive : forall key,
             exists value, Sensor._live_value key data = Ok value).
  { intros key. eexists. apply (Hsel "day" key). }
  assert (Hagg : forall period key,
             exists value, Sensor._aggregate_value period key data = Ok value).
  { intros period key. eexists. apply (Hsel period key). }
  cbn [Platform.entity_descriptions Platform.SITE_SENSORS
         Platform.AGGREGATE_SENSORS app] in Hin.
  repeat (destruct Hin as [<- | Hin];
          [cbn [Platform.native_value Platform.value_fn Platform.site_sensor
                  Platform.aggregate_sensor];
           first [apply Hsite | apply Hlive | apply Hagg] |]).
  contradiction.
Qed.

(** X15.  When the summary responses a cycle merges are mappings of numbers
    (or [None]) and the live partition is one too, the Snapshot the cycle
    returns is well formed, and every sensor the platform sets up for the
    entry reads a value or [None] from it, without raising. *)
Theorem cycle_keeps_snapshot_shape
    self w s1 a1 s2 a2 s3 a3 w1 live w2 agg w3 :
  all_return (load_bearing_fetches self) w [s1; a1; s2; a2; s3; a3] w1 ->
  live_step self w1 live w2 ->
  aggregate_step self w2 agg w3 ->
  forallb summary_ok [s1; a1; s2; a2; s3; a3] = true ->
  metrics_ok live = true ->
  exists snapshot,
    _async_update_data self w = (Ok snapshot, w3)
    /\ snapshot_ok snapshot = true
    /\ forall description,
        In description (Platform.entity_descriptions (include_aggregate self)) ->
        exists value, Platform.native_value (Some snapshot) description = Ok value.
Proof.
  intros Hs Hl Ha Hclean Hlive.
  eexists. split; [exact (update_ok _ _ _ _ _ _ _ _ _ _ _ _ _ Hs Hl Ha) |].
  cbn [forallb] in Hclean. rewrite !andb_true_iff in Hclean.
  destruct Hclean as [C1 [D1 [C2 [D2 [C3 [D3 _]]]]]].
  assert (Hok : snapshot_ok
                  (JDict (snapshot_fields (site_partition s1 a1 s2 a2 s3 a3)
                            live agg)) = true).
  { cbn [snapshot_ok snapshot_fields dict_get String.eqb Ascii.eqb Bool.eqb
           partition_ok].
    rewrite Hlive, (aggregate_step_periods _ _ _ _ Ha).
    unfold site_partition. cbn [periods_ok forallb snd].
    now rewrite !merge_summary_metrics. }
  split; [exact Hok |].
  intros description Hin. apply every_sensor_reads; [exact Hok |].
  unfold Platform.entity_descriptions in *.
  apply in_app_or in Hin as [Hin | Hin]; apply in_or_app; [now left |].
  destruct (include_aggregate self); [now right | contradiction].
Qed.

End ReadingFacts.

(** ** The order of the sites *)

Section OrderFacts.

Context {W : Type}.

Lemma all_sites_summary_run (self : MatomoAPI W) period date w visits w1 actions w2 :
  _request self "VisitsSummary.get" (all_sites period date) w = (Ok visits, w1) ->
  _request self "Actions.get" (all_sites period date) w1 = (Ok actions, w2) ->
  finite_response visits = true ->
  finite_response actions = true ->
  get_all_sites_summary self period date w
  = (Ok (totals_to_json (tally_response actions (tally_response visits []))), w2).
Proof.
  intros Hv Ha Fv Fa.
  unfold get_all_sites_summary. cbn [for_each]. unfold all_sites in Hv, Ha.
  erewrite bind_ok; [reflexivity |].
  erewrite bind_ok.
  2:{ erewrite bind_ok; [| exact Hv]. now apply add_response_ok. }
  erewrite bind_ok.
  2:{ erewrite bind_ok; [| exact Ha]. now apply add_response_ok. }
  reflexivity.
Qed.

Lemma metric_values_entries key response :
  metric_values key response
  = flat_map (fun entry => site_metrics key (snd entry)) (entries response).
Proof. now destruct response. Qed.

Lemma total_of_permutation (l l' : list json) :
  Permutation l l' -> total_of l = total_of l'.
Proof.
  intros H.
  assert (Hsum : sum_int_parts l = sum_int_parts l').
  { unfold sum_int_parts.
    induction H as [| x l l' _ IH | x y l | l l' l'' _ IH1 _ IH2]; simpl; lia. }
  destruct l as [| x l].
  - now rewrite (Permutation_nil H).
  - destruct l' as [| y l'].
    + apply Permutation_sym in H. now apply Permutation_nil_cons in H.
    + unfold total_of. now rewrite Hsum.
Qed.

(** X16.  The totals over all sites do not depend on the order in which a
    response lists the sites, nor on which of the two responses lists a site:
    two pairs of responses with the same per-site entries, in any order, give
    the same total for every key. *)
Theorem site_order_is_irrelevant
    (self : MatomoAPI W) period date
    w visits w1 actions w2 v visits' v1 actions' v2 :
  _request self "VisitsSummary.get" (all_sites period date) w = (Ok visits, w1) ->
  _request self "Actions.get" (all_sites period date) w1 = (Ok actions, w2) ->
  _request self "VisitsSummary.get" (all_sites period date) v = (Ok visits', v1) ->
  _request self "Actions.get" (all_sites period date) v1 = (Ok actions', v2) ->
  finite_response visits = true -> finite_response actions = true ->
  finite_response visits' = true -> finite_response actions' = true ->
  Permutation (entries visits ++ entries actions)
              (entries visits' ++ entries actions') ->
  exists totals totals',
    get_all_sites_summary self period date w = (Ok (JDict totals), w2)
    /\ get_all_sites_summary self period date v = (Ok (JDict totals'), v2)
    /\ forall key, dict_get key totals = dict_get key totals'.
Proof.
  intros Hv Ha Hv' Ha' Fv Fa Fv' Fa' Hperm.
  eexists. eexists.
  split; [exact (all_sites_summary_run _ _ _ _ _ _ _ _ Hv Ha Fv Fa) |].
  split; [exact (all_sites_summary_run _ _ _ _ _ _ _ _ Hv' Ha' Fv' Fa') |].
  intros key.
  pose proof (totals_to_json_get key
                (tally_response actions (tally_response visits []))) as H.
  pose proof (totals_to_json_get key
                (tally_response actions' (tally_response visits' []))) as H'.
  unfold totals_to_json in H, H'. rewrite H, H'.
  rewrite !tally_response_get, !bump_app. cbn [dict_get].
  rewrite !metric_values_entries, <- !flat_map_app.
  assert (Hp : Permutation
                 (flat_map (fun entry => site_metrics key (snd entry))
                    (entries visits ++ entries actions))
                 (flat_map (fun entry => site_metrics key (snd entry))
                    (entries visits' ++ entries actions'))).
  { now apply Permutation_flat_map. }
  apply total_of_permutation in Hp. unfold total_of in Hp. unfold bump.
  destruct (flat_map _ (entries visits ++ entries actions)),
    (flat_map _ (entries visits' ++ entries actions'));
    try reflexivity; try discriminate.
  inversion Hp as [Hsum]. cbn [option_map]. now rewrite Hsum.
Qed.

End OrderFacts.

(** ** Integers as text *)

Section IntTextFacts.

Lemma parse_digits_acc d acc :
  parse_digits (NilEmpty.string_of_uint d) (Z.pos acc) true
  = Some (Z.pos (Pos.of_uint_acc d acc)).
Proof.
  revert acc.
  induction d; intros acc; cbn [NilEmpty.string_of_uint Pos.of_uint_acc];
    try reflexivity;
    rewrite <- IHd; cbn [parse_digits];
    match goal with
    | |- context [digit_val ?c] =>
        let v := eval vm_compute in (digit_val c) in
        change (digit_val c) with v
    end;
    cbv beta iota; f_equal; lia.
Qed.

Lemma parse_digits_zero d b :
  d <> Decimal.Nil \/ b = true ->
  parse_digits (NilEmpty.string_of_uint d) 0 b = Some (Z.of_N (Pos.of_uint d)).
Proof.
  revert b.
  induction d; intros b Hb; cbn [NilEmpty.string_of_uint Pos.of_uint].
  - destruct Hb as [Hb | ->]; [congruence | reflexivity].
  - cbn [parse_digits].
    change (digit_val "0") with (Some 0). cbv beta iota.
    change (10 * 0 + 0) with 0. apply IHd. now right.
  - cbn [parse_digits]. change (digit_val "1") with (Some 1). cbv beta iota.
    change (10 * 0 + 1) with (Z.pos 1). now rewrite parse_digits_acc.
  - cbn [parse_digits]. change (digit_val "2") with (Some 2). cbv beta iota.
    change (10 * 0 + 2) with (Z.pos 2). now rewrite parse_digits_acc.
  - cbn [parse_digits]. change (digit_val "3") with (Some 3). cbv beta iota.
    change (10 * 0 + 3) with (Z.pos 3). now rewrite parse_digits_acc.
  - cbn [parse_digits]. change (digit_val "4") with (Some 4). cbv beta iota.
    change (10 * 0 + 4) with (Z.pos 4). now rewrite parse_digits_acc.
  - cbn [parse_digits]. change (digit_val "5") with (Some 5). cbv beta iota.
    change (10 * 0 + 5) with (Z.pos 5). now rewrite parse_digits_acc.
  - cbn [parse_digits]. change (digit_val "6") with (Some 6). cbv beta iota.
    change (10 * 0 + 6) with (Z.pos 6). now rewrite parse_digits_acc.
  - cbn [parse_digits]. change (digit_val "7") with (Some 7). cbv beta iota.
    change (10 * 0 + 7) with (Z.pos 7). now rewrite parse_digits_acc.
  - cbn [parse_digits]. change (digit_val "8") with (Some 8). cbv beta iota.
    change (10 * 0 + 8) with (Z.pos 8). now rewrite parse_digits_acc.
  - cbn [parse_digits]. change (digit_val "9") with (Some 9). cbv beta iota.
    change (10 * 0 + 9) with (Z.pos 9). now rewrite parse_digits_acc.
Qed.

(** The digits of a number end in a character that is no blank. *)
Lemma digits_end d c0 :
  int_blank c0 = false ->
  exists s c,
    String c0 (NilEmpty.string_of_uint d) = s ++ String c ""
    /\ int_blank c = false.
Proof.
  revert c0. induction d; intros c0 H0; cbn [NilEmpty.string_of_uint];
    try (now exists "", c0);
    match goal with
    | |- context [String c0 (String ?k _)] =>
        destruct (IHd k eq_refl) as [s [c [Hs Hc]]];
        exists (String c0 s), c; split; [cbn; now rewrite Hs | exact Hc]
    end.
Qed.

Lemma strip_kept c0 r :
  int_blank c0 = false ->
  (exists s c, String c0 r = s ++ String c "" /\ int_blank c = false) ->
  rstrip_by int_blank (lstrip_by int_blank (String c0 r)) = String c0 r.
Proof.
  intros H0 [s [c [Hs Hc]]]. cbn [lstrip_by]. rewrite H0, Hs.
  now apply rstrip_by_kept.
Qed.

Lemma strip_digits d c0 :
  int_blank c0 = false ->
  rstrip_by int_blank (lstrip_by int_blank (String c0 (NilEmpty.string_of_uint d)))
  = String c0 (NilEmpty.string_of_uint d).
Proof. intros H0. apply strip_kept; [exact H0 | now apply digits_end]. Qed.

Lemma int_of_digits p :
  int_of_str (NilEmpty.string_of_uint (Pos.to_uint p)) = Some (Z.pos p).
Proof.
  pose proof (Unsigned.of_to p) as Hof.
  pose proof (Unsigned.to_uint_nonnil p) as Hnn.
  assert (Hparse : parse_digits (NilEmpty.string_of_uint (Pos.to_uint p)) 0 false
                   = Some (Z.pos p)).
  { rewrite parse_digits_zero by now left. now rewrite Hof. }
  unfold int_of_str.
  destruct (Pos.to_uint p); try congruence;
    cbn [NilEmpty.string_of_uint] in *;
    rewrite strip_digits by reflexivity; exact Hparse.
Qed.

(** [int(str(n))] is [n]. *)
Lemma int_of_str_of_int z : int_of_str (str_of_int z) = Some z.
Proof.
  unfold str_of_int. destruct z as [| p | p]; cbn [Z.to_int NilZero.string_of_int].
  - reflexivity.
  - pose proof (Unsigned.to_uint_nonnil p) as Hnn.
    replace (NilZero.string_of_uint (Pos.to_uint p))
      with (NilEmpty.string_of_uint (Pos.to_uint p))
      by (destruct (Pos.to_uint p); [congruence | reflexivity ..]).
    apply int_of_digits.
  - pose proof (Unsigned.to_uint_nonnil p) as Hnn.
    replace (NilZero.string_of_uint (Pos.to_uint p))
      with (NilEmpty.string_of_uint (Pos.to_uint p))
      by (destruct (Pos.to_uint p); [congruence | reflexivity ..]).
    unfold int_of_str. rewrite strip_digits by reflexivity.
    cbv beta iota.
    rewrite parse_digits_zero by now left.
    now rewrite Unsigned.of_to.
Qed.

Lemma str_of_int_injective z z' : str_of_int z = str_of_int z' -> z = z'.
Proof.
  intros H. pose proof (int_of_str_of_int z) as Hz.
  rewrite H, int_of_str_of_int in Hz. now inversion Hz.
Qed.

End IntTextFacts.

(** ** The configuration flow *)

Section FlowFacts.

Context {W : Type}.
Variable session : ClientSession W.
Variable loads : string -> result json.
Variable configured : list string.
Variable repr_other : json -> string.

Lemma every_class_is_exception c : issubclass c Exception = true.
Proof. destruct c; reflexivity. Qed.

Lemma user_step_errors_total err :
  user_step_errors err
  = Ok [if isinstance err MatomoAuthError then ("token_auth", "invalid_auth")
        else ("url", "cannot_connect")].
Proof.
  unfold user_step_errors.
  destruct (isinstance err MatomoAuthError); [reflexivity |].
  destruct (isinstance err MatomoAPIError); [reflexivity |].
  destruct (isinstance err ClientError || isinstance err (OtherError "TimeoutError"));
    [reflexivity |].
  unfold isinstance. now rewrite every_class_is_exception.
Qed.

Lemma py_getitem_errors obj k err :
  py_getitem obj k = Raise err ->
  exn_class err = TypeError \/ exn_class err = KeyError.
Proof.
  unfold py_getitem. destruct obj as [| | | | | | d];
    try (intros H; inversion H; subst; now auto).
  destruct (dict_get k d); [discriminate |].
  intros H. inversion H; subst. now auto.
Qed.

Lemma site_option_errors site err :
  site_option repr_other site = Raise err ->
  exn_class err = TypeError \/ exn_class err = KeyError.
Proof.
  unfold site_option, rbind.
  destruct (py_getitem site "idsite") as [idsite |] eqn:E1;
    [| intros H; inversion H; subst; now apply (py_getitem_errors _ _ _ E1)].
  destruct (py_getitem site "name") as [name |] eqn:E2;
    [| intros H; inversion H; subst; now apply (py_getitem_errors _ _ _ E2)].
  discriminate.
Qed.

Lemma build_options_errors sites options err :
  build_options repr_other sites options = Raise err ->
  exn_class err = TypeError \/ exn_class err = KeyError.
Proof.
  revert options. induction sites as [| site rest IH]; intros options;
    cbn [build_options]; [discriminate |].
  unfold rbind. destruct (site_option repr_other site) as [kv |] eqn:E.
  - apply IH.
  - intros H. inversion H; subst. now apply (site_option_errors _ _ E).
Qed.

Lemma site_options_errors sites err :
  site_options_of repr_other sites = Raise err ->
  isinstance err MatomoAuthError = false.
Proof.
  unfold site_options_of, rbind. intros Hr.
  assert (Hc : exn_class err = TypeError \/ exn_class err = KeyError).
  { destruct (py_iter sites) as [l |] eqn:E.
    - now apply (build_options_errors _ _ _ Hr).
    - inversion Hr; subst. unfold py_iter in E.
      destruct sites; inversion E; subst; cbn; auto. }
  unfold isinstance. destruct Hc as [-> | ->]; reflexivity.
Qed.

(** X17.  When fetching the sites fails with an exception (any class below
    [Exception]), submitting the first form raises nothing: it shows the
    first form again with exactly one error, [invalid_auth] on the token for
    a [MatomoAuthError] and [cannot_connect] on the URL for every other
    failure, and the flow keeps the URL without its trailing slashes, the
    token, and the sites it had. *)
Theorem user_step_failure_is_a_form flow input (w : W) err w1 :
  let url := rstrip_by (Ascii.eqb "/") (input_url input) in
  get_sites (new_MatomoAPI session url (input_token input) loads) w
  = (Raise err, w1) ->
  isinstance err Exception = true ->
  async_step_user session loads configured repr_other flow (Some input) w
  = (Ok ({| _url := url; _token := input_token input; _sites := _sites flow |},
         ShowForm "user" UserSchema
           [if isinstance err MatomoAuthError
            then ("token_auth", "invalid_auth")
            else ("url", "cannot_connect")]),
     w1).
Proof.
  intros url Hget _. unfold async_step_user. cbn [_url _token _sites].
  fold url. rewrite Hget.
  unfold bind, lift, ret. now rewrite user_step_errors_total.
Qed.

(** X18.  When the sites are fetched, submitting the first form raises
    nothing either and stores them in the flow: an empty answer shows the
    first form with [no_sites]; a non-empty one shows the site form over the
    options built from it, and an answer no options can be built from (it is
    no sequence of mappings with [idsite] and [name]) shows the first form
    with [cannot_connect] on the URL. *)
Theorem user_step_sites_fetched flow input (w : W) sites w1 :
  let url := rstrip_by (Ascii.eqb "/") (input_url input) in
  get_sites (new_MatomoAPI session url (input_token input) loads) w
  = (Ok sites, w1) ->
  async_step_user session loads configured repr_other flow (Some input) w
  = (Ok ({| _url := url; _token := input_token input; _sites := sites |},
         if truthy sites
         then match site_options_of repr_other sites with
              | Ok options => ShowForm "site" (SiteSchema options) []
              | Raise _ => ShowForm "user" UserSchema [("url", "cannot_connect")]
              end
         else ShowForm "user" UserSchema [("base", "no_sites")]),
     w1).
Proof.
  intros url Hget. unfold async_step_user. cbn [_url _token _sites].
  fold url. rewrite Hget.
  destruct (truthy sites) eqn:T; cbn [negb]; [| reflexivity].
  unfold async_step_site, rbind. cbn [_sites].
  destruct (site_options_of repr_other sites) as [options | err] eqn:O;
    [reflexivity |].
  unfold bind, lift, ret. rewrite user_step_errors_total.
  now rewrite (site_options_errors _ _ O).
Qed.

Lemma listed_inv site :
  listed site = true ->
  exists d z name,
    site = JDict d /\ dict_get "idsite" d = Some (JInt z)
    /\ dict_get "name" d = Some name.
Proof.
  unfold listed, site_id_of, site_name_of.
  destruct site as [| | | | | | d]; try discriminate.
  destruct (dict_get "idsite" d) as [[| | z | | | |] |] eqn:Hid; try discriminate.
  destruct (dict_get "name" d) as [name |] eqn:Hname; try discriminate.
  intros _. exists d, z, name. repeat split; [exact Hid | exact Hname].
Qed.

Lemma build_options_listed l : forall options,
  forallb listed l = true ->
  exists options',
    build_options repr_other l options = Ok options'
    /\ forall k,
         dict_get k options' <> None
         <-> (dict_get k options <> None
              \/ exists site z,
                   In site l /\ site_id_of site = Some z /\ k = str_of_int z).
Proof.
  induction l as [| site rest IH]; intros options Hall.
  - exists options. split; [reflexivity |]. intros k. split; [now left |].
    intros [H | (site & z & [] & _)]. exact H.
  - cbn [forallb] in Hall. apply andb_true_iff in Hall as [Hsite Hrest].
    destruct (listed_inv _ Hsite) as (d & z & name & -> & Hid & Hname).
    cbn [build_options]. unfold site_option, rbind, py_getitem.
    rewrite Hid, Hname. cbn [fst snd].
    change (py_str repr_other (JInt z)) with (str_of_int z).
    destruct (IH (dict_set (str_of_int z)
                    (py_str repr_other name ++ " (ID: " ++ str_of_int z ++ ")")
                    options)
                 Hrest) as (options' & Hbuild & Hkeys).
    exists options'. split; [exact Hbuild |]. intros k.
    rewrite Hkeys, dict_get_set. split.
    + intros [H | (site & z' & Hin & Hz & Hk)].
      * destruct (String.eqb k (str_of_int z)) eqn:E.
        -- apply String.eqb_eq in E. right. exists (JDict d), z.
           split; [now left |]. split; [| exact E].
           unfold site_id_of. now rewrite Hid.
        -- now left.
      * right. exists site, z'. repeat split; [now right | exact Hz | exact Hk].
    + intros [H | (site & z' & [<- | Hin] & Hz & Hk)].
      * left. now destruct (String.eqb k (str_of_int z)).
      * left. unfold site_id_of in Hz. rewrite Hid in Hz.
        inversion Hz; subst. now rewrite String.eqb_refl.
      * right. now exists site, z'.
Qed.

Lemma first_named_listed l z site :
  forallb listed l = true -> In site l -> site_id_of site = Some z ->
  exists name, first_named l z = Some name.
Proof.
  induction l as [| site' rest IH]; intros Hall Hin Hz; [destruct Hin |].
  cbn [forallb] in Hall. apply andb_true_iff in Hall as [Hsite Hrest].
  cbn [first_named]. unfold listed in Hsite.
  destruct (site_id_of site') as [z' |] eqn:Hid; [| discriminate].
  destruct (site_name_of site') as [name |] eqn:Hname; [| discriminate].
  destruct (Z.eqb_spec z' z) as [-> | Hne]; [now exists name |].
  destruct Hin as [-> | Hin]; [congruence |]. now apply IH.
Qed.

Lemma find_site_name_listed l z :
  forallb listed l = true ->
  find_site_name l z
  = Ok (match first_named l z with Some name => name | None => JStr "" end).
Proof.
  induction l as [| site rest IH]; intros Hall; [reflexivity |].
  cbn [forallb] in Hall. apply andb_true_iff in Hall as [Hsite Hrest].
  destruct (listed_inv _ Hsite) as (d & z' & name & -> & Hid & Hname).
  cbn [find_site_name first_named]. unfold rbind, py_getitem, site_id_of, site_name_of.
  rewrite Hid. cbn [py_int]. rewrite Hname.
  destruct (z' =? z)%Z; [reflexivity | now apply IH].
Qed.

(** X19.  Over a fetched list of sites, each a mapping with an integer
    [idsite] and a [name], the site form offers exactly the ids of the list,
    written in decimal; and submitting any option it offers either aborts,
    when the URL and that id are configured already, or creates the entry of
    that id, named after the first site of the list that has it, under the
    unique id made of the URL and the id. *)
Theorem offered_site_creates_entry flow l :
  _sites flow = JList l ->
  forallb listed l = true ->
  exists options,
    async_step_site configured repr_other flow None
    = Ok (ShowForm "site" (SiteSchema options) [])
    /\ (forall site z,
          In site l -> site_id_of site = Some z ->
          dict_get (str_of_int z) options <> None)
    /\ (forall k,
          dict_get k options <> None ->
          exists z name,
            k = str_of_int z
            /\ first_named l z = Some name
            /\ forall aggregate,
                 async_step_site configured repr_other flow
                   (Some {| input_site_id := k;
                            input_include_aggregate := aggregate |})
                 = if existsb (String.eqb (_url flow ++ "_" ++ k)) configured
                   then Raise (Exn (OtherError "AbortFlow") "already_configured" None)
                   else
                     Ok (CreateEntry ("Matomo - " ++ py_str repr_other name)
                           [("url", JStr (_url flow));
                            ("token_auth", JStr (_token flow));
                            ("site_id", JInt z);
                            ("site_name", name);
                            ("include_aggregate",
                             JBool (match aggregate with
                                    | Some b => b
                                    | None => false
                                    end))]
                           (_url flow ++ "_" ++ k))).
Proof.
  intros Hsites Hall.
  destruct (build_options_listed l [] Hall) as (options & Hbuild & Hkeys).
  exists options. split; [| split].
  - unfold async_step_site, site_options_of, rbind. rewrite Hsites.
    cbn [py_iter]. now rewrite Hbuild.
  - intros site z Hin Hz. apply Hkeys. right. now exists site, z.
  - intros k Hk. apply Hkeys in Hk.
    destruct Hk as [Hk | (site & z & Hin & Hz & ->)]; [now elim Hk |].
    destruct (first_named_listed l z site Hall Hin Hz) as (name & Hname).
    exists z, name. split; [reflexivity |]. split; [exact Hname |].
    intros aggregate. unfold async_step_site, rbind.
    cbn [input_site_id input_include_aggregate py_int].
    rewrite int_of_str_of_int, Hsites. cbn [py_iter].
    rewrite (find_site_name_listed l z Hall), Hname. reflexivity.
Qed.

End FlowFacts.

(** ** More runs *)

Section MoreRuns.

Import Script.

(** Runs a concrete chain of fetches that return. *)
Ltac run_fetches :=
  cbn [all_return load_bearing_fetches aggregate_fetches flat_map map app PERIODS];
  repeat (eexists; split; [reflexivity |]); reflexivity.

Lemma normalize_url_canonical_witness :
  endswith (_normalize_url "https://stats.example.org/matomo//") "index.php" = true
  /\ _normalize_url (_normalize_url "https://stats.example.org/matomo//")
     = _normalize_url "https://stats.example.org/matomo//"
  /\ _normalize_url ("https://stats.example.org/matomo//" ++ "/")
     = _normalize_url "https://stats.example.org/matomo//".
Proof. exact (normalize_url_canonical "https://stats.example.org/matomo//"). Defined.

Lemma unauthorized_status_is_auth_error_witness :
  _request client "Live.getCounters" [] [failed 401 "Unauthorized"; ok200 "live"]
  = (Raise (Exn MatomoAuthError "Invalid authentication token (HTTP 401)" None),
     [ok200 "live"]).
Proof.
  apply (unauthorized_status_is_auth_error client "Live.getCounters" []
           [failed 401 "Unauthorized"; ok200 "live"]
           {| status := 401; text := Ok ""; status_error := "Unauthorized" |}
           [ok200 "live"]);
    reflexivity.
Defined.

Lemma html_body_is_api_error_witness :
  _request client "API.getMatomoVersion" [] [ok200 "  <!DOCTYPE html><html>"]
  = (Raise (Exn MatomoAPIError
              ("Matomo returned HTML instead of JSON. Check if URL is correct: "
               ++ "https://stats.example.org/index.php") None), []).
Proof.
  apply (html_body_is_api_error client "API.getMatomoVersion" []
           [ok200 "  <!DOCTYPE html><html>"]
           {| status := 200; text := Ok "  <!DOCTYPE html><html>";
              status_error := "" |}
           [] "  <!DOCTYPE html><html>");
    try reflexivity; cbn [status]; lia.
Defined.

Lemma undecodable_body_is_api_error_witness :
  exists quoted,
    _request client "VisitsSummary.get" [] [ok200 "Service unavailable"]
    = (Raise (Exn MatomoAPIError ("Invalid JSON response from Matomo: " ++ quoted)
                (Some (Exn JSONDecodeError "Expecting value" None))), [])
    /\ (String.length quoted <= 200)%nat
    /\ (exists rest, "Service unavailable" = quoted ++ rest)
    /\ ((String.length "Service unavailable" <= 200)%nat
        -> quoted = "Service unavailable").
Proof.
  apply (undecodable_body_is_api_error client "VisitsSummary.get" []
           [ok200 "Service unavailable"]
           {| status := 200; text := Ok "Service unavailable"; status_error := "" |}
           [] "Service unavailable" (Exn JSONDecodeError "Expecting value" None));
    try reflexivity; cbn [status]; lia.
Defined.

Lemma decoded_answer_is_returned_witness :
  _request client "VisitsSummary.get" [] [ok200 "visits"] = (Ok visits, []).
Proof.
  apply (decoded_answer_is_returned client "VisitsSummary.get" []
           [ok200 "visits"]
           {| status := 200; text := Ok "visits"; status_error := "" |}
           [] "visits" visits);
    try reflexivity; cbn [status]; lia.
Defined.

Lemma request_returns_no_error_envelope_witness :
  post_and_decode client "Actions.get" [] [ok200 "actions"] = (Ok actions, [])
  /\ is_error_envelope actions = false
  /\ forall d, actions = JDict d -> dict_get "result" d <> Some (JStr "error").
Proof.
  apply (request_returns_no_error_envelope client "Actions.get" []
           [ok200 "actions"] actions []).
  reflexivity.
Defined.

Lemma request_posts_once_witness :
  [call_of Samples.traced_client "Live.getCounters" [("idSite", JInt 7)];
   {| call_url := "https://stats.example.org/index.php";
      call_params := [("module", JStr "API");
                      ("method", JStr "VisitsSummary.get");
                      ("format", JStr "JSON")];
      call_data := [("token_auth", JStr "secret"); ("idSite", JInt 7);
                    ("period", JStr "day"); ("date", JStr "today")] |}]
  = ([call_of Samples.traced_client "Live.getCounters" [("idSite", JInt 7)]]
     ++ [{| call_url := _base_url Samples.traced_client;
            call_params := [("module", JStr "API");
                            ("method", JStr "VisitsSummary.get");
                            ("format", JStr "JSON")];
            call_data := dict_update
                           [("token_auth", JStr (_token_auth Samples.traced_client))]
                           (summary_params 7 "day") |}])%list.
Proof.
  apply (request_posts_once Samples.traced_client session
           "VisitsSummary.get" (summary_params 7 "day")
           [ok200 "bad call"; ok200 "visits"]
           [call_of Samples.traced_client "Live.getCounters" [("idSite", JInt 7)]]
           (Raise (Exn MatomoAPIError "Unknown parameter" None))
           [ok200 "visits"]);
    reflexivity.
Defined.

Lemma token_travels_in_body_witness :
  dict_get "token_auth"
    (call_params (call_of client "VisitsSummary.get" (summary_params 7 "day")))
  = None
  /\ (dict_get "token_auth" (summary_params 7 "day") = None ->
      dict_get "token_auth"
        (call_data (call_of client "VisitsSummary.get" (summary_params 7 "day")))
      = Some (JStr (_token_auth client)))
  /\ (unique_keys (summary_params 7 "day") ->
      forall k v, dict_get k (summary_params 7 "day") = Some v ->
                  dict_get k (call_data (call_of client "VisitsSummary.get"
                                           (summary_params 7 "day")))
                  = Some v).
Proof.
  exact (token_travels_in_body client "VisitsSummary.get" (summary_params 7 "day")).
Defined.

(** The session times out on the live fetch. *)
Lemma foreign_failure_escapes_witness :
  _async_update_data (coordinator true)
    (map ok200 ["visits"; "actions"; "visits"; "overlap"; "[]"; "actions"]
     ++ [Raise (Exn (OtherError "TimeoutError") "" None); ok200 "sites"])%list
  = (Raise (Exn (OtherError "TimeoutError") "" None), [ok200 "sites"]).
Proof.
  apply foreign_failure_escapes; [| reflexivity].
  repeat (eapply failure_later; [reflexivity |]).
  apply failure_here. reflexivity.
Defined.

(** The live fetch is refused and so is the last wildcard fetch. *)
Lemma aggregate_failure_isolated_witness :
  _async_update_data (coordinator true) degraded_cycle = (Ok degraded_snapshot, []).
Proof.
  apply (aggregate_failure_isolated (coordinator true) degraded_cycle
           visits actions visits overlap (JDict []) actions
           (map ok200 ["bad token"; "sites"; "{}"; "sites"; "sites"; "bad call"])
           (JDict [])
           (map ok200 ["sites"; "{}"; "sites"; "sites"; "bad call"])
           (Exn MatomoAPIError "Unknown parameter" None) []).
  - run_fetches.
  - apply (live_degraded _ _ (Exn MatomoAuthError "Invalid token_auth" None));
      reflexivity.
  - reflexivity.
  - repeat (eapply failure_later; [reflexivity |]).
    apply failure_here. reflexivity.
  - reflexivity.
Defined.

Lemma live_partition_is_first_counter_witness :
  _async_update_data (Samples.coordinator false)
    (map ok200 ["visits"; "actions"; "[]"; "[]"; "[]"; "[]"; "counters"])
  = (Ok (JDict [("site", site_partition visits actions (JDict []) (JDict [])
                           (JDict []) (JDict []));
                ("live", JDict [("visits", JInt 3); ("visitors", JInt 2)]);
                ("aggregate", JDict [])]), []).
Proof.
  apply (live_partition_is_first_counter (Samples.coordinator false) _
           visits actions (JDict []) (JDict []) (JDict []) (JDict [])
           [ok200 "counters"]
           (JList [JDict [("visits", JInt 3); ("visitors", JInt 2)]]) []
           (JDict []) []).
  - run_fetches.
  - reflexivity.
  - apply aggregate_disabled. reflexivity.
Defined.

(** A full cycle with the aggregate option on makes its thirteen calls; one
    whose second wildcard call is refused stops after nine. *)
Lemma cycle_calls_in_order_witness :
  (exists n,
      cycle_calls (Samples.traced_coordinator true)
      = ([] ++ firstn n (cycle_calls (Samples.traced_coordinator true)))%list
      /\ (1 <= n <= 13)%nat
      /\ (include_aggregate (Samples.traced_coordinator true) = false -> (n <= 7)%nat)
      /\ (is_ok (fst (_async_update_data (Samples.traced_coordinator true)
                        (Samples.full_cycle, []))) = true ->
          (include_aggregate (Samples.traced_coordinator true) = false -> n = 7%nat)
          /\ (include_aggregate (Samples.traced_coordinator true) = true
              -> (8 <= n)%nat)))
  /\ (exists n,
         firstn 9 (cycle_calls (Samples.traced_coordinator true))
         = ([] ++ firstn n (cycle_calls (Samples.traced_coordinator true)))%list
         /\ (1 <= n <= 13)%nat
         /\ (include_aggregate (Samples.traced_coordinator true) = false
             -> (n <= 7)%nat)
         /\ (is_ok (Ok (JDict [("site", site_partition visits actions visits overlap
                                          (JDict []) actions);
                               ("live", JDict []);
                               ("aggregate", JDict [])])) = true ->
             (include_aggregate (Samples.traced_coordinator true) = false
              -> n = 7%nat)
             /\ (include_aggregate (Samples.traced_coordinator true) = true
                 -> (8 <= n)%nat))).
Proof.
  split.
  - apply (cycle_calls_in_order (Samples.traced_coordinator true) session
             Samples.full_cycle []
             (fst (_async_update_data (Samples.traced_coordinator true)
                     (Samples.full_cycle, [])))
             []);
      reflexivity.
  - apply (cycle_calls_in_order (Samples.traced_coordinator true) session
             (map ok200 ["visits"; "actions"; "visits"; "overlap"; "[]"; "actions";
                         "[]"; "sites"; "bad call"; "sites"])
             [] _ [ok200 "sites"]);
      reflexivity.
Defined.

Lemma validate_connection_outcomes_witness :
  validate_connection Samples.client [ok200 "version"; ok200 "site list"]
  = (Ok true, [])
  /\ validate_connection Samples.client [ok200 "version"; ok200 "bad token"]
     = (Raise (Exn MatomoAuthError "Invalid token_auth" None), [])
  /\ validate_connection Samples.client [failed 500 "500"; ok200 "site list"]
     = (Raise (Exn MatomoAPIError "Error communicating with Matomo: 500"
                 (Some (Exn ClientResponseError "500" None))),
        [ok200 "site list"]).
Proof.
  split; [| split].
  - apply (proj1 (validate_connection_outcomes Samples.client
                    [ok200 "version"; ok200 "site list"])).
    exists (JDict [("value", JStr "5.1.0")]), [ok200 "site list"],
      [JDict [("idsite", JInt 1); ("name", JStr "Blog")];
       JDict [("idsite", JInt 2); ("name", JStr "Shop")]].
    split; reflexivity.
  - apply (proj2 (proj2 (validate_connection_outcomes Samples.client
                           [ok200 "version"; ok200 "bad token"]))
             (JDict [("value", JStr "5.1.0")]) [ok200 "bad token"]);
      reflexivity.
  - apply (proj1 (proj2 (validate_connection_outcomes Samples.client
                           [failed 500 "500"; ok200 "site list"])));
      reflexivity.
Defined.

Lemma aggregate_selectors_never_raise_witness :
  (forall v,
      at_path2 "aggregate" "month" "nb_visits" Samples.full_snapshot = Some v ->
      exists z, v = JInt z)
  /\ Sensor._aggregate_value "month" "nb_visits" Samples.full_snapshot
     = Ok (Some 16).
Proof.
  change (Ok (Some 16))
    with (Ok (match at_path2 "aggregate" "month" "nb_visits" Samples.full_snapshot with
              | Some (JInt z) => Some z
              | _ => None
              end)).
  apply (aggregate_selectors_never_raise (Samples.coordinator true)
           Samples.full_cycle Samples.full_snapshot [] "month" "nb_visits").
  reflexivity.
Defined.

Lemma cycle_keeps_snapshot_shape_witness :
  exists snapshot,
    _async_update_data (Samples.coordinator true) Samples.full_cycle
    = (Ok snapshot, [])
    /\ snapshot_ok snapshot = true
    /\ forall description,
        In description
          (Platform.entity_descriptions (include_aggregate (Samples.coordinator true))) ->
        exists value, Platform.native_value (Some snapshot) description = Ok value.
Proof.
  apply (cycle_keeps_snapshot_shape (Samples.coordinator true) Samples.full_cycle
           visits actions visits overlap (JDict []) actions
           (map ok200 ["counters"; "sites"; "{}"; "sites swapped"; "{}"; "sites";
                       "sites swapped"])
           (JDict [("visits", JInt 3); ("visitors", JInt 2)])
           (map ok200 ["sites"; "{}"; "sites swapped"; "{}"; "sites"; "sites swapped"])
           (JDict [("day", JDict [("nb_visits", JInt 8)]);
                   ("week", JDict [("nb_visits", JInt 8)]);
                   ("month", JDict [("nb_visits", JInt 16)])])
           []).
  - run_fetches.
  - apply (live_counters _ _ _ []). reflexivity.
  - apply aggregate_complete; [reflexivity |]. run_fetches.
  - reflexivity.
  - reflexivity.
Defined.

(** The same two sites, listed in either order. *)
Lemma site_order_is_irrelevant_witness :
  exists totals totals',
    get_all_sites_summary Samples.client "day" "today" [ok200 "sites"; ok200 "{}"]
    = (Ok (JDict totals), [])
    /\ get_all_sites_summary Samples.client "day" "today"
         [ok200 "sites swapped"; ok200 "{}"]
       = (Ok (JDict totals'), [])
    /\ forall key, dict_get key totals = dict_get key totals'.
Proof.
  apply (site_order_is_irrelevant Samples.client "day" "today"
           [ok200 "sites"; ok200 "{}"] sites [ok200 "{}"] (JDict []) []
           [ok200 "sites swapped"; ok200 "{}"] Samples.sites_swapped
           [ok200 "{}"] (JDict []) []);
    try reflexivity.
  apply perm_swap.
Defined.

(** The server refuses the token; the URL was typed with slashes at its end. *)
Lemma user_step_failure_is_a_form_witness :
  async_step_user session (loads Samples.bodies) Samples.configured
    Samples.repr_other new_MatomoConfigFlow
    (Some {| input_url := "https://stats.example.org//"; input_token := "wrong" |})
    [ok200 "bad token"]
  = (Ok ({| _url := "https://stats.example.org"; _token := "wrong";
            _sites := JList [] |},
         ShowForm "user" UserSchema [("token_auth", "invalid_auth")]),
     []).
Proof.
  apply (user_step_failure_is_a_form session (loads Samples.bodies)
           Samples.configured Samples.repr_other new_MatomoConfigFlow
           {| input_url := "https://stats.example.org//"; input_token := "wrong" |}
           [ok200 "bad token"]
           (Exn MatomoAuthError "Invalid token_auth" None) []);
    reflexivity.
Defined.

(** The server lists its two sites; another one answers with its version. *)
Lemma user_step_sites_fetched_witness :
  async_step_user session (loads Samples.bodies) Samples.configured
    Samples.repr_other new_MatomoConfigFlow
    (Some {| input_url := "https://stats.example.org/"; input_token := "secret" |})
    [ok200 "site list"]
  = (Ok (Samples.flow,
         ShowForm "site" (SiteSchema [("1", "Blog (ID: 1)"); ("2", "Shop (ID: 2)")])
           []),
     [])
  /\ async_step_user session (loads Samples.bodies) Samples.configured
       Samples.repr_other new_MatomoConfigFlow
       (Some {| input_url := "https://stats.example.org/"; input_token := "secret" |})
       [ok200 "version"]
     = (Ok ({| _url := "https://stats.example.org"; _token := "secret";
               _sites := JDict [("value", JStr "5.1.0")] |},
            ShowForm "user" UserSchema [("url", "cannot_connect")]),
        []).
Proof.
  split.
  - apply (user_step_sites_fetched session (loads Samples.bodies)
             Samples.configured Samples.repr_other new_MatomoConfigFlow
             {| input_url := "https://stats.example.org/"; input_token := "secret" |}
             [ok200 "site list"] Samples.site_list []).
    reflexivity.
  - apply (user_step_sites_fetched session (loads Samples.bodies)
             Samples.configured Samples.repr_other new_MatomoConfigFlow
             {| input_url := "https://stats.example.org/"; input_token := "secret" |}
             [ok200 "version"] (JDict [("value", JStr "5.1.0")]) []).
    reflexivity.
Defined.

Lemma offered_site_creates_entry_witness :
  exists options,
    async_step_site Samples.configured Samples.repr_other Samples.flow None
    = Ok (ShowForm "site" (SiteSchema options) [])
    /\ (forall site z,
          In site [JDict [("idsite", JInt 1); ("name", JStr "Blog")];
                   JDict [("idsite", JInt 2); ("name", JStr "Shop")]] ->
          site_id_of site = Some z ->
          dict_get (str_of_int z) options <> None)
    /\ (forall k,
          dict_get k options <> None ->
          exists z name,
            k = str_of_int z
            /\ first_named [JDict [("idsite", JInt 1); ("name", JStr "Blog")];
                            JDict [("idsite", JInt 2); ("name", JStr "Shop")]] z
               = Some name
            /\ forall aggregate,
                 async_step_site Samples.configured Samples.repr_other Samples.flow
                   (Some {| input_site_id := k;
                            input_include_aggregate := aggregate |})
                 = if existsb (String.eqb (_url Samples.flow ++ "_" ++ k))
                        Samples.configured
                   then Raise (Exn (OtherError "AbortFlow") "already_configured" None)
                   else
                     Ok (CreateEntry ("Matomo - " ++ py_str Samples.repr_other name)
                           [("url", JStr (_url Samples.flow));
                            ("token_auth", JStr (_token Samples.flow));
                            ("site_id", JInt z);
                            ("site_name", name);
                            ("include_aggregate",
                             JBool (match aggregate with
                                    | Some b => b
                                    | None => false
                                    end))]
                           (_url Samples.flow ++ "_" ++ k))).
Proof.
  apply (offered_site_creates_entry Samples.configured Samples.repr_other
           Samples.flow
           [JDict [("idsite", JInt 1); ("name", JStr "Blog")];
            JDict [("idsite", JInt 2); ("name", JStr "Shop")]]);
    reflexivity.
Defined.

End MoreRuns.
